(** * Multi-timeframe forecasting engine: a shallow embedding

    The development follows [backend/advanced_ml_models.py]
    (class [MultiTimeframePredictor]) and the endpoint
    [predict_live_stock] of [backend/main.py].

    Representation choices.
    - A Python [float] (and a numpy [float64]) is a binary64 value: the
      kernel type [float] with its IEEE-754 operations, so NaN, the
      infinities and division by zero behave as they do in the program.
    - A Python [int] is a [Z]; a length or a position is a [nat].
    - A [str] is a [string]; the three caches of the predictor object are
      finite maps from the key [symbol ++ "_" ++ timeframe].
    - A date of the index is its proleptic day number, a [Z]; adding
      [timedelta(days=k)] adds [k].  The ISO rendering ['%Y-%m-%d'] of a
      date is order preserving and is not modelled.
    - The regression families of scikit-learn are opaque: they are taken
      as section variables, so every result holds for any learner.  What
      scikit-learn refuses before it computes is modelled: the scaler,
      the regressors and the metrics validate their input and raise
      [ValueError] (an infinite value, a NaN where none is allowed, an
      empty matrix, another number of columns than at fitting time).
      Whether a regressor lets NaN through depends on the family and on
      the version of the library: it is the variable [allow_nan].
    - A pandas window is computed by its defining formula; pandas'
      streaming accumulators may differ from it in the last bits of a
      value, never in which positions are missing for finite data.
    - The callers of the endpoint ([get_live_stock_analysis],
      [compare_all_models]), the signal of [predict_with_cnn], the
      portfolio calculator of [backend/main.py] and
      [generate_recommendation] of [backend/ml_models.py] are modelled
      after the engine.  Their arithmetic is on plain Python floats,
      where a division by zero raises: it is written [truediv]. *)

From Stdlib Require Import ZArith List Bool Lia Sorted.
From Stdlib Require Import SpecFloat PrimFloat FloatOps FloatAxioms.
From Stdlib Require Import Uint63 DecimalString.
From stdpp Require Import gmap strings.
Import ListNotations.

Set Warnings "-inexact-float".
Local Open Scope Z_scope.

(** ** Python and numpy scalars *)

Module Num.

(** [float(z)] of a Python integer, exact below [2^53] in magnitude (the
    conversion rounds above, and is meant for integers below [2^63]). *)
Definition of_Z (z : Z) : float :=
  if z <? 0 then PrimFloat.opp (of_uint63 (Uint63.of_Z (- z)))
  else of_uint63 (Uint63.of_Z z).

Definition of_nat (n : nat) : float := of_Z (Z.of_nat n).

(** [a > b] and [a < b] on floats: false as soon as one side is NaN. *)
Definition gt (a b : float) : bool := PrimFloat.ltb b a.
Definition lt (a b : float) : bool := PrimFloat.ltb a b.
Definition le (a b : float) : bool := PrimFloat.leb a b.

(** [int(x)]: truncation toward zero.  Python raises on NaN and on an
    infinity, hence the option. *)
Definition to_int (x : float) : option Z :=
  match Prim2SF x with
  | S754_zero _ => Some 0
  | S754_finite s m e =>
      let mag := if 0 <=? e then Z.pos m * 2 ^ e else Z.pos m / 2 ^ (- e) in
      Some (if s then - mag else mag)
  | S754_infinity _ | S754_nan => None
  end.

(** Python's [max(0, x)]: [x] when [x > 0], the first argument otherwise
    (also when [x] is NaN). *)
Definition max0 (x : float) : float := if gt x 0%float then x else 0%float.

Definition fsum (l : list float) : float :=
  fold_left PrimFloat.add l 0%float.

Definition sq (x : float) : float := PrimFloat.mul x x.

(** [np.mean], [np.std] (population standard deviation). *)
Definition mean (l : list float) : float :=
  PrimFloat.div (fsum l) (of_nat (length l)).

Definition std (l : list float) : float :=
  let m := mean l in
  PrimFloat.sqrt (mean (map (fun x => sq (PrimFloat.sub x m)) l)).

Definition zip_with (f : float -> float -> float) (a b : list float)
  : list float :=
  map (fun p => f (fst p) (snd p)) (combine a b).

End Num.

(** ** Python sequences: negative positions and slices *)

Module Py.

Inductive exn : Type :=
| KeyError (key : string)
| IndexError
| ValueError
| NameError (name : string).

Definition result (A : Type) : Type := exn + A.

Definition ret {A} (a : A) : result A := inr a.
Definition bind {A B} (m : result A) (k : A -> result B) : result B :=
  match m with inl e => inl e | inr a => k a end.

(** [d[k]] and [d.get(k, default)] on a literal dictionary. *)
Fixpoint lookup {V} (d : list (string * V)) (k : string) : option V :=
  match d with
  | [] => None
  | (k', v) :: d' => if String.eqb k k' then Some v else lookup d' k
  end.

Definition get {V} (d : list (string * V)) (k : string) (default : V) : V :=
  match lookup d k with Some v => v | None => default end.

Definition getitem {V} (d : list (string * V)) (k : string) : result V :=
  match lookup d k with Some v => inr v | None => inl (KeyError k) end.

(** [k in l] on a list of strings. *)
Definition mem (k : string) (l : list string) : bool :=
  existsb (String.eqb k) l.

(** A slice bound is clipped into [0 .. len]; a negative one counts from
    the end. *)
Definition clip (len i : Z) : Z :=
  if i <? 0 then Z.max (i + len) 0 else Z.min i len.

Definition slice {A} (l : list A) (start stop : option Z) : list A :=
  let n := Z.of_nat (length l) in
  let a := match start with Some i => clip n i | None => 0 end in
  let b := match stop with Some j => clip n j | None => n end in
  firstn (Z.to_nat (b - a)) (skipn (Z.to_nat a) l).

(** [l[i]] with a possibly negative [i]. *)
Definition item {A} (l : list A) (i : Z) : result A :=
  let n := Z.of_nat (length l) in
  let j := if i <? 0 then i + n else i in
  if (0 <=? j) && (j <? n)
  then match nth_error l (Z.to_nat j) with
       | Some a => inr a
       | None => inl IndexError
       end
  else inl IndexError.

(** [f'{n}'] for a non-negative integer. *)
Definition str_of_nat (n : nat) : string :=
  NilZero.string_of_uint (Nat.to_uint n).

End Py.

Notation "'try!' x ':=' m 'in' k" := (Py.bind m (fun x => k))
  (at level 10, x name, m at level 100, k at level 200).

(** A call that is made for its exception only. *)
Notation "'check!' m 'in' k" := (Py.bind m (fun _ => k))
  (at level 10, m at level 100, k at level 200).

(** ** pandas: series operations on a column *)

Module Pandas.

Definition Series := list float.

Definition nan : float := PrimFloat.nan.
Definition isna (x : float) : bool := PrimFloat.is_nan x.

Definition at_ (s : Series) (t : nat) : float := nth t s nan.

Definition positions (s : Series) : list nat := seq 0 (length s).

(** [s.shift(k)]: the value [k] rows earlier ([k] rows later when [k] is
    negative); missing where there is none. *)
Definition shift (k : Z) (s : Series) : Series :=
  map (fun t =>
         let j := Z.of_nat t - k in
         if (0 <=? j) && (j <? Z.of_nat (length s))
         then at_ s (Z.to_nat j) else nan)
      (positions s).

(** [s.diff(p)] and [s.pct_change(periods=p)] (the quotient by the value
    [p] rows earlier, minus one; missing values are not filled in). *)
Definition diff (p : nat) (s : Series) : Series :=
  Num.zip_with PrimFloat.sub s (shift (Z.of_nat p) s).

Definition pct_change (p : nat) (s : Series) : Series :=
  map (fun q => PrimFloat.sub q 1%float)
      (Num.zip_with PrimFloat.div s (shift (Z.of_nat p) s)).

(** [s.where(cond, other)]. *)
Definition where_ (cond : float -> bool) (other : float) (s : Series)
  : Series :=
  map (fun x => if cond x then x else other) s.

(** The [w] values ending at position [t]. *)
Definition window (w t : nat) (s : Series) : list float :=
  firstn w (skipn (t + 1 - w) s).

(** A rolling aggregate with the default [min_periods = window]: missing
    until the window is full and whenever it holds a missing value. *)
Definition rolling (agg : list float -> float) (w : nat) (s : Series)
  : Series :=
  map (fun t =>
         if (t + 1 <? w)%nat then nan
         else let v := window w t s in
              if existsb isna v then nan else agg v)
      (positions s).

Definition all_same (v : list float) : bool :=
  match v with
  | [] => true
  | x :: r => forallb (fun y => PrimFloat.eqb x y) r
  end.

(** Window mean and sample variance ([ddof = 1]).  A window of one
    repeated value has that value as mean and variance zero. *)
Definition win_mean (v : list float) : float :=
  if all_same v then hd nan v else Num.mean v.

Definition win_var (v : list float) : float :=
  match length v with
  | 0%nat | 1%nat => nan
  | S n1 =>
      if all_same v then 0%float
      else let m := Num.mean v in
           PrimFloat.div (Num.fsum (map (fun x => Num.sq (PrimFloat.sub x m)) v))
                         (Num.of_nat n1)
  end.

Definition win_std (v : list float) : float := PrimFloat.sqrt (win_var v).

Definition rolling_mean := rolling win_mean.
Definition rolling_std := rolling win_std.

(** [s.mean()] and [s.std()] of a whole series: missing values are
    skipped ([skipna=True]); the mean of nothing is missing. *)
Definition dropna_values (s : Series) : list float :=
  List.filter (fun x => negb (isna x)) s.

Definition mean (s : Series) : float :=
  match dropna_values s with
  | [] => nan
  | v => Num.mean v
  end.

Definition std (s : Series) : float :=
  match dropna_values s with
  | [] | [_] => nan
  | v =>
      let m := Num.mean v in
      PrimFloat.sqrt
        (PrimFloat.div (Num.fsum (map (fun x => Num.sq (PrimFloat.sub x m)) v))
                       (Num.of_nat (length v - 1)))
  end.

(** [s.ewm(span=n, adjust=False).mean()] with [a = 2/(n+1)]: started at
    the first observation, then
    [y(t) = (w y(t-1) + a x(t)) / (w + a)] where the old weight [w] is
    [1-a] after an observation and decays by [1-a] more for every
    missing value in between; a missing [x(t)] repeats [y(t-1)]. *)
Fixpoint ewm_from (a weighted old_wt : float) (s : list float)
  : list float :=
  match s with
  | [] => []
  | cur :: s' =>
      if isna weighted then cur :: ewm_from a cur old_wt s'
      else
        let old_wt := PrimFloat.mul old_wt (PrimFloat.sub 1%float a) in
        if isna cur then weighted :: ewm_from a weighted old_wt s'
        else
          let w' :=
            if PrimFloat.eqb weighted cur then weighted
            else PrimFloat.div
                   (PrimFloat.add (PrimFloat.mul old_wt weighted)
                                  (PrimFloat.mul a cur))
                   (PrimFloat.add old_wt a) in
          w' :: ewm_from a w' 1%float s'
  end.

Definition ewm_mean (span : nat) (s : Series) : Series :=
  ewm_from (PrimFloat.div 2%float (Num.of_nat (span + 1))) nan 1%float s.

End Pandas.

(** ** The data model *)

(** One row of the raw dataset: the date of the index and the five
    columns.  A [DataFrame] is the list of its rows in index order. *)
Record Bar : Type := mkBar {
  Date : Z;
  Open : float;
  High : float;
  Low : float;
  Close : float;
  Volume : float
}.

Definition DataFrame := list Bar.

Definition col (f : Bar -> float) (df : DataFrame) : Pandas.Series := map f df.
Definition df_index (df : DataFrame) : list Z := map Date df.

(** The columns of [features_df], in insertion order. *)
Definition Columns := list (string * Pandas.Series).

(** [features_df[name] = s]: replaces the column when it exists, appends
    it otherwise. *)
Fixpoint set_col (name : string) (s : Pandas.Series) (cols : Columns)
  : Columns :=
  match cols with
  | [] => [(name, s)]
  | (n, c) :: cols' =>
      if String.eqb n name then (n, s) :: cols'
      else (n, c) :: set_col name s cols'
  end.

Definition get_col (name : string) (cols : Columns) : Pandas.Series :=
  Py.get cols name [].

(** An indexed table of numbers ([X]) and an indexed series ([y]). *)
Record Frame : Type := mkFrame {
  index : list Z;
  columns : list string;
  values : list (list float)
}.

Record Target : Type := mkTarget {
  y_index : list Z;
  y_values : list float
}.

Definition TIMEFRAME_DAYS : list (string * Z) :=
  [("1M", 30); ("6M", 180); ("1Y", 365); ("5Y", 1825)].

(** ** FeatureEngineer: [prepare_features] *)

Module Features.
Import Pandas.

(** Lines 44-60: moving-average windows, momentum period and volatility
    window; everything that is not 5Y, 1Y or 6M takes the 1M branch. *)
Definition windows (timeframe : string) : list nat * nat * nat :=
  if String.eqb timeframe "5Y" then ([20; 50; 100; 200], 20, 60)%nat
  else if String.eqb timeframe "1Y" then ([10; 20; 50; 100], 15, 30)%nat
  else if String.eqb timeframe "6M" then ([5; 10; 20; 50], 10, 20)%nat
  else ([3; 5; 10; 20], 5, 10)%nat.

Definition ma_periods (tf : string) : list nat := fst (fst (windows tf)).
Definition momentum_period (tf : string) : nat := snd (fst (windows tf)).
Definition vol_window (tf : string) : nat := snd (windows tf).

Definition times (k : float) (s : Series) : Series :=
  map (fun x => PrimFloat.mul x k) s.

(** Lines 62-65. *)
Definition add_moving_averages (df : DataFrame) (tf : string)
    (cols : Columns) : Columns :=
  fold_left
    (fun acc period =>
       if (period <=? length df)%nat
       then set_col ("ma" ++ Py.str_of_nat period)
                    (rolling_mean period (col Close df)) acc
       else acc)
    (ma_periods tf) cols.

(** Lines 67-72. *)
Definition rsi (df : DataFrame) : Series :=
  let delta := diff 1 (col Close df) in
  let gain :=
    rolling_mean 14 (where_ (fun d => Num.gt d 0%float) 0%float delta) in
  let loss :=
    rolling_mean 14
      (map PrimFloat.opp (where_ (fun d => Num.lt d 0%float) 0%float delta)) in
  let rs := Num.zip_with PrimFloat.div gain loss in
  map (fun r => PrimFloat.sub 100%float
                  (PrimFloat.div 100%float (PrimFloat.add 1%float r))) rs.

(** Line 104. *)
Definition lag_days (df : DataFrame) : nat :=
  Nat.min 10 (Nat.max 3 (length df / 100)).

(** Lines 105-107. *)
Definition add_lags (df : DataFrame) (cols : Columns) : Columns :=
  fold_left
    (fun acc i =>
       let acc := set_col ("close_lag_" ++ Py.str_of_nat i)
                          (shift (Z.of_nat i) (col Close df)) acc in
       set_col ("return_lag_" ++ Py.str_of_nat i)
               (shift (Z.of_nat i) (pct_change 1 (col Close df))) acc)
    (seq 1 (lag_days df)) cols.

(** Line 110. *)
Definition target_shift (tf : string) : Z := Py.get TIMEFRAME_DAYS tf 30 / 30.

(** Lines 42-111: [features_df] before the rows with a missing value
    are dropped. *)
Definition features_df (df : DataFrame) (tf : string) : Columns :=
  let close := col Close df in
  let c0 : Columns :=
    [("Open", col Open df); ("High", col High df); ("Low", col Low df);
     ("Close", close); ("Volume", col Volume df)] in
  let c := add_moving_averages df tf c0 in
  let c := set_col "rsi" (rsi df) c in
  let c := set_col "momentum" (diff (momentum_period tf) close) c in
  let c := set_col "roc"
             (times 100%float (pct_change (momentum_period tf) close)) c in
  let c := set_col "volatility"
             (rolling_std (vol_window tf) (pct_change 1 close)) c in
  let c := set_col "volume_ma" (rolling_mean 20 (col Volume df)) c in
  let c := set_col "volume_ratio"
             (Num.zip_with PrimFloat.div (col Volume df) (get_col "volume_ma" c)) c in
  let exp1 := ewm_mean 12 close in
  let exp2 := ewm_mean 26 close in
  let c := set_col "macd" (Num.zip_with PrimFloat.sub exp1 exp2) c in
  let c := set_col "macd_signal" (ewm_mean 9 (get_col "macd" c)) c in
  let bb_window := 20%nat in
  let c := set_col "bb_middle" (rolling_mean bb_window close) c in
  let bb_std := rolling_std bb_window close in
  let c := set_col "bb_upper"
             (Num.zip_with PrimFloat.add (get_col "bb_middle" c)
                           (times 2%float bb_std)) c in
  let c := set_col "bb_lower"
             (Num.zip_with PrimFloat.sub (get_col "bb_middle" c)
                           (times 2%float bb_std)) c in
  let c := set_col "bb_position"
             (Num.zip_with PrimFloat.div
                (Num.zip_with PrimFloat.sub close (get_col "bb_lower" c))
                (Num.zip_with PrimFloat.sub (get_col "bb_upper" c)
                              (get_col "bb_lower" c))) c in
  let c := set_col "high_low_ratio"
             (Num.zip_with PrimFloat.div (col High df) (col Low df)) c in
  let c := set_col "close_open_ratio"
             (Num.zip_with PrimFloat.div close (col Open df)) c in
  let c := add_lags df c in
  set_col "target" (shift (- target_shift tf) close) c.

(** Line 114, [dropna()]: the positions of the rows that hold no missing
    value in any column, in index order. *)
Definition row_complete (cols : Columns) (t : nat) : bool :=
  forallb (fun c => negb (isna (at_ (snd c) t))) cols.

Definition kept_rows (df : DataFrame) (tf : string) : list nat :=
  List.filter (row_complete (features_df df tf)) (seq 0 (length df)).

(** Lines 117-118. *)
Definition excluded : list string :=
  ["target"; "Open"; "High"; "Low"; "Close"; "Volume"].

Definition feature_cols (cols : Columns) : Columns :=
  List.filter (fun c => negb (Py.mem (fst c) excluded)) cols.

(** Lines 120-123. *)
Definition prepare_features (df : DataFrame) (timeframe : string)
  : Frame * Target :=
  let cols := features_df df timeframe in
  let rows := kept_rows df timeframe in
  let idx := map (fun t => nth t (df_index df) 0) rows in
  let X := {| index := idx;
              columns := map fst (feature_cols cols);
              values := map (fun t => map (fun c => at_ (snd c) t)
                                          (feature_cols cols)) rows |} in
  let y := {| y_index := idx;
              y_values := map (at_ (get_col "target" cols)) rows |} in
  (X, y).

End Features.

(** [len(X)] of a frame. *)
Definition nrows (X : Frame) : nat := length (values X).

(** ** scikit-learn: standardizer, metrics, regression families *)

Definition Matrix := list (list float).

(** [StandardScaler]: per-column mean and population standard deviation of
    the data it is fitted on; a zero deviation is replaced by one.  [fit]
    and [transform] are the arithmetic of the two methods, on a matrix
    that passed their validation ([Sklearn.scaler_check_fit] and
    [Sklearn.scaler_check_transform] below, which every call of the
    trainer and of the forecaster goes through first): there the rows
    have the width of the fitted vectors and nothing is cut. *)
Module StandardScaler.

Record t : Type := mk { mean_ : list float; scale_ : list float }.

Definition ncols (X : Matrix) : nat :=
  match X with
  | [] => 0%nat
  | r :: _ => length r
  end.

Definition column (j : nat) (X : Matrix) : list float :=
  map (fun r => nth j r Pandas.nan) X.

Definition handle_zero (sd : float) : float :=
  if PrimFloat.eqb sd 0%float then 1%float else sd.

Definition fit (X : Matrix) : t :=
  let cols := map (fun j => column j X) (seq 0 (ncols X)) in
  {| mean_ := map Num.mean cols;
     scale_ := map (fun c => handle_zero (Num.std c)) cols |}.

Definition transform_row (s : t) (r : list float) : list float :=
  Num.zip_with PrimFloat.div
    (Num.zip_with PrimFloat.sub r (mean_ s)) (scale_ s).

Definition transform (s : t) (X : Matrix) : Matrix :=
  map (transform_row s) X.

End StandardScaler.

(** [sklearn.metrics] on two vectors of the same length. *)
Module Metrics.

Definition residuals (y_true y_pred : list float) : list float :=
  Num.zip_with PrimFloat.sub y_true y_pred.

Definition mean_squared_error (y_true y_pred : list float) : float :=
  Num.mean (map Num.sq (residuals y_true y_pred)).

Definition mean_absolute_error (y_true y_pred : list float) : float :=
  Num.mean (map PrimFloat.abs (residuals y_true y_pred)).

(** [1 - SS_res / SS_tot]; with a constant [y_true] the score is forced
    to [1] for a perfect fit and to [0] otherwise; undefined on fewer
    than two samples. *)
Definition r2_score (y_true y_pred : list float) : float :=
  if (length y_pred <? 2)%nat then Pandas.nan
  else
    let m := Num.mean y_true in
    let num := Num.fsum (map Num.sq (residuals y_true y_pred)) in
    let den := Num.fsum (map (fun v => Num.sq (PrimFloat.sub v m)) y_true) in
    if negb (PrimFloat.eqb den 0%float)
    then PrimFloat.sub 1%float (PrimFloat.div num den)
    else if negb (PrimFloat.eqb num 0%float) then 0%float
    else 1%float.

End Metrics.

(** The two regression families with the hyper-parameters the trainer
    passes (lines 163-177). *)
Inductive Estimator : Type :=
| GradientBoostingRegressor
    (n_estimators max_depth : nat) (learning_rate : float) (random_state : nat)
| RandomForestRegressor
    (n_estimators max_depth min_samples_split random_state : nat).

(** What scikit-learn refuses before it computes: the validation of its
    inputs ([check_array]), each refusal a [ValueError]. *)
Module Sklearn.

Definition is_inf (x : float) : bool :=
  PrimFloat.eqb (PrimFloat.abs x) PrimFloat.infinity.

(** A value that becomes an infinity when it is cast to [float32], as
    the regressors do with their features: one of magnitude
    [2^128 - 2^103] or more.  NaN is not one. *)
Definition float32_inf (x : float) : bool :=
  PrimFloat.leb 0x1.ffffffp127%float (PrimFloat.abs x).

Definition any (p : float -> bool) (X : Matrix) : bool :=
  existsb (existsb p) X.

(** At least one row and one column; no value that [bad] holds of; no
    NaN unless the caller allows it. *)
Definition check_array (allow_nan : bool) (bad : float -> bool) (X : Matrix)
  : Py.result unit :=
  if (length X =? 0)%nat || (StandardScaler.ncols X =? 0)%nat
  then inl Py.ValueError
  else if any bad X then inl Py.ValueError
  else if negb allow_nan && any Pandas.isna X then inl Py.ValueError
  else Py.ret tt.

(** A vector of targets or of predictions: not empty, all finite. *)
Definition check_vector (y : list float) : Py.result unit :=
  if (length y =? 0)%nat then inl Py.ValueError
  else if existsb (fun v => Pandas.isna v || is_inf v) y
  then inl Py.ValueError
  else Py.ret tt.

(** [StandardScaler.fit] and [StandardScaler.fit_transform]: an infinity
    is refused, a NaN is let through. *)
Definition scaler_check_fit (X : Matrix) : Py.result unit :=
  check_array true is_inf X.

(** [StandardScaler.transform]: the same, and the matrix must have the
    number of columns the scaler was fitted on. *)
Definition scaler_check_transform (s : StandardScaler.t) (X : Matrix)
  : Py.result unit :=
  check! check_array true is_inf X in
  if (StandardScaler.ncols X =? length (StandardScaler.mean_ s))%nat
  then Py.ret tt
  else inl Py.ValueError.

(** [sklearn.metrics]: both vectors are validated. *)
Definition check_reg_targets (y_true y_pred : list float) : Py.result unit :=
  check! check_vector y_true in
  check_vector y_pred.

End Sklearn.

Record EvalMetrics : Type := mkMetrics {
  rmse : float;
  mae : float;
  r2 : float;
  mape : float
}.

(** How a call of [train_model] ends: it returns the dictionary with the
    key ['error'] or the dictionary of a completed training, or it
    raises. *)
Inductive TrainResult : Type :=
| TrainError (error : string) (metrics : EvalMetrics)
| Trained (predictions actuals : list float) (prediction_dates : list Z)
          (upper_bound lower_bound : list float) (metrics : EvalMetrics)
          (feature_columns : list string)
| Raised (e : Py.exn).

Record ForecastPoint : Type := mkPoint {
  date : Z;
  daysAhead : Z;
  predicted : float;
  upperBound : float;
  lowerBound : float;
  confidence : float
}.

Record PriceTargets : Type := mkTargets {
  conservative : float;
  moderate : float;
  aggressive : float;
  conservative_pct : float;
  moderate_pct : float;
  aggressive_pct : float
}.

(** Frames are cut by position: [X[:k]] and [X[k:]] for [0 <= k]. *)
Definition frame_take (k : nat) (X : Frame) : Frame :=
  {| index := firstn k (index X); columns := columns X;
     values := firstn k (values X) |}.

Definition frame_drop (k : nat) (X : Frame) : Frame :=
  {| index := skipn k (index X); columns := columns X;
     values := skipn k (values X) |}.

Definition target_take (k : nat) (y : Target) : Target :=
  {| y_index := firstn k (y_index y); y_values := firstn k (y_values y) |}.

Definition target_drop (k : nat) (y : Target) : Target :=
  {| y_index := skipn k (y_index y); y_values := skipn k (y_values y) |}.

(** Lines 150-151: [int(len(X) * 0.8)].  The product is finite for every
    length below [2^63], so the conversion never fails there. *)
Definition split_ratio : float := 0.8%float.

Definition split_point (n : Z) : option Z :=
  Num.to_int (PrimFloat.mul (Num.of_Z n) split_ratio).

Definition split_index (n : nat) : nat :=
  match split_point (Z.of_nat n) with
  | Some k => Z.to_nat k
  | None => 0%nat
  end.

(** Lines 152-153. *)
Definition train_test_split (X : Frame) (y : Target)
  : (Frame * Frame) * (Target * Target) :=
  let split_idx := split_index (nrows X) in
  ((frame_take split_idx X, frame_drop split_idx X),
   (target_take split_idx y, target_drop split_idx y)).

(** Lines 136-141 and the default of [min_samples.get]. *)
Definition min_samples : list (string * nat) :=
  [("1M", 30); ("6M", 60); ("1Y", 100); ("5Y", 200)]%nat.

Definition min_samples_for (timeframe : string) : nat :=
  Py.get min_samples timeframe 50%nat.

Definition zero_metrics : EvalMetrics :=
  {| rmse := 0%float; mae := 0%float; r2 := 0%float; mape := 0%float |}.

(** Line 145. *)
Definition insufficient_message (timeframe : string) (need got : nat)
  : string :=
  "Insufficient data for " ++ timeframe ++ " training. Need at least "
  ++ Py.str_of_nat need ++ " samples, got " ++ Py.str_of_nat got.

(** Lines 161-177. *)
Definition choose_estimator (timeframe : string) : Estimator :=
  if Py.mem timeframe ["5Y"; "1Y"]
  then GradientBoostingRegressor 150 8 0.05%float 42
  else RandomForestRegressor 100 10 5 42.

(** Line 192. *)
Definition model_key (symbol timeframe : string) : string :=
  symbol ++ "_" ++ timeframe.

(** Line 199: a stable sort by decreasing importance. *)
Fixpoint insert_desc (x : string * float) (l : list (string * float))
  : list (string * float) :=
  match l with
  | [] => [x]
  | y :: l' =>
      if Num.gt (snd y) (snd x) then y :: insert_desc x l' else x :: l
  end.

Definition sort_desc (l : list (string * float)) : list (string * float) :=
  fold_right insert_desc [] l.

(** Lines 298-307. *)
Definition prediction_points : list (string * Z) :=
  [("1M", 30); ("6M", 26); ("1Y", 52); ("5Y", 60)].

Definition get_prediction_points (timeframe : string) : Z :=
  Py.get prediction_points timeframe 30.

(** Lines 309-341. *)
Definition targets : list (string * (float * float * float)) :=
  [("1M", (0.05, 0.10, 0.15)%float);
   ("6M", (0.15, 0.25, 0.40)%float);
   ("1Y", (0.25, 0.50, 0.75)%float);
   ("5Y", (0.50, 1.00, 2.00)%float)].

Definition adjust_for_trend (trend : string) (p : float) : float :=
  if String.eqb trend "Bearish" then PrimFloat.mul p 0.5%float else p.

Definition get_price_targets (current_price : float)
    (timeframe trend : string) : PriceTargets :=
  let '(c, m, a) := Py.get targets timeframe (0.10, 0.20, 0.30)%float in
  let c := adjust_for_trend trend c in
  let m := adjust_for_trend trend m in
  let a := adjust_for_trend trend a in
  {| conservative := PrimFloat.mul current_price (PrimFloat.add 1%float c);
     moderate := PrimFloat.mul current_price (PrimFloat.add 1%float m);
     aggressive := PrimFloat.mul current_price (PrimFloat.add 1%float a);
     conservative_pct := PrimFloat.mul c 100%float;
     moderate_pct := PrimFloat.mul m 100%float;
     aggressive_pct := PrimFloat.mul a 100%float |}.

(** Lines 343-360. *)
Definition trend_period (df : DataFrame) (timeframe : string) : Z :=
  let half := Z.of_nat (length df) / 2 in
  if String.eqb timeframe "5Y" then Z.min 200 half
  else if String.eqb timeframe "1Y" then Z.min 100 half
  else if String.eqb timeframe "6M" then Z.min 50 half
  else Z.min 20 half.

Definition analyze_trend (df : DataFrame) (timeframe : string) : string :=
  let period := trend_period df timeframe in
  if Z.of_nat (length df) <? period then "Neutral"
  else
    let close := col Close df in
    let recent_avg := Pandas.mean (Py.slice close (Some ((- period) / 2)) None) in
    let older_avg :=
      Pandas.mean (Py.slice close (Some (- period)) (Some ((- period) / 2))) in
    if Num.gt recent_avg older_avg then "Bullish" else "Bearish".

(** Lines 269-294, the part of a forecast point that depends on the
    horizon only. *)
Definition confidence_score (days_ahead total_days : Z) : float :=
  Num.max0
    (PrimFloat.sub 100%float
       (PrimFloat.mul
          (PrimFloat.div (Num.of_Z days_ahead) (Num.of_Z total_days))
          50%float)).

(** ** The predictor object and its stateful operations *)

Section Engine.

(** A fitted regressor of scikit-learn: how an estimator is fitted, what
    it predicts for one (scaled) feature row, and its
    [feature_importances_] (both families expose them).  The three are
    what the regressor computes on input that passed its validation;
    whether a family lets NaN through is its [allow_nan] tag, which
    depends on the version of the library. *)
Variable Model : Type.
Variable fit : Estimator -> Matrix -> list float -> Model.
Variable predict_row : Model -> list float -> float.
Variable feature_importances : Model -> list float.
Variable allow_nan : Estimator -> bool.

Definition predict (m : Model) (X : Matrix) : list float :=
  map (predict_row m) X.

(** [self.models], [self.scalers], [self.feature_importance]. *)
Record Predictor : Type := mkPredictor {
  models : gmap string Model;
  scalers : gmap string StandardScaler.t;
  feature_importance : gmap string (list (string * float))
}.

Definition new_predictor : Predictor :=
  {| models := ∅; scalers := ∅; feature_importance := ∅ |}.

(** Lines 155-183: what is fitted on which slice. *)
Record Fitted : Type := mkFitted {
  X_train : Frame;
  X_test : Frame;
  y_train : Target;
  y_test : Target;
  scaler : StandardScaler.t;
  X_train_scaled : Matrix;
  X_test_scaled : Matrix;
  model : Model;
  y_pred : list float
}.

Definition fit_stage (df : DataFrame) (timeframe : string) : Fitted :=
  let '(X, y) := Features.prepare_features df timeframe in
  let '((X_train, X_test), (y_train, y_test)) := train_test_split X y in
  let scaler := StandardScaler.fit (values X_train) in
  let X_train_scaled := StandardScaler.transform scaler (values X_train) in
  let X_test_scaled := StandardScaler.transform scaler (values X_test) in
  let model := fit (choose_estimator timeframe) X_train_scaled
                   (y_values y_train) in
  {| X_train := X_train; X_test := X_test;
     y_train := y_train; y_test := y_test;
     scaler := scaler;
     X_train_scaled := X_train_scaled; X_test_scaled := X_test_scaled;
     model := model;
     y_pred := predict model X_test_scaled |}.

(** The validation of the features by a regressor, in [fit] and in
    [predict]: they are cast to [float32] and must be finite there. *)
Definition check_X (est : Estimator) (X : Matrix) : Py.result unit :=
  Sklearn.check_array (allow_nan est) Sklearn.float32_inf X.

(** Lines 157-188, the calls that can raise, in their order:
    [scaler.fit_transform], [scaler.transform], [model.fit],
    [model.predict] and the metrics.  (That [X] and [y] have equal
    lengths and the two slices equal widths need not be checked: they
    are cut from one table.) *)
Definition fit_checks (df : DataFrame) (timeframe : string) : Py.result unit :=
  let f := fit_stage df timeframe in
  let est := choose_estimator timeframe in
  check! Sklearn.scaler_check_fit (values (X_train f)) in
  check! Sklearn.scaler_check_transform (scaler f) (values (X_test f)) in
  check! check_X est (X_train_scaled f) in
  check! Sklearn.check_vector (y_values (y_train f)) in
  check! check_X est (X_test_scaled f) in
  Sklearn.check_reg_targets (y_values (y_test f)) (y_pred f).

(** Lines 185-189. *)
Definition evaluate (y_test y_pred : list float) : EvalMetrics :=
  {| rmse := PrimFloat.sqrt (Metrics.mean_squared_error y_test y_pred);
     mae := Metrics.mean_absolute_error y_test y_pred;
     r2 := Metrics.r2_score y_test y_pred;
     mape :=
       PrimFloat.mul
         (Num.mean
            (map PrimFloat.abs
               (Num.zip_with PrimFloat.div
                  (Metrics.residuals y_test y_pred) y_test)))
         100%float |}.

(** Lines 125-223. *)
Definition train_model (self : Predictor) (df : DataFrame)
    (symbol timeframe : string) : Predictor * TrainResult :=
  let '(X, y) := Features.prepare_features df timeframe in
  if (nrows X <? min_samples_for timeframe)%nat then
    (self,
     TrainError
       (insufficient_message timeframe (min_samples_for timeframe) (nrows X))
       zero_metrics)
  else
  match fit_checks df timeframe with
  | inl e => (self, Raised e)
  | inr _ =>
    let split_idx := split_index (nrows X) in
    let f := fit_stage df timeframe in
    let y_test := y_values (y_test f) in
    let y_pred := y_pred f in
    let m := evaluate y_test y_pred in
    let key := model_key symbol timeframe in
    let importance :=
      sort_desc (combine (columns X) (feature_importances (model f))) in
    let self' :=
      {| models := <[key := model f]> (models self);
         scalers := <[key := scaler f]> (scalers self);
         feature_importance := <[key := importance]> (feature_importance self) |} in
    let std_dev := Num.std (Metrics.residuals y_test y_pred) in
    let band := PrimFloat.mul 2%float std_dev in
    let test_dates :=
      Py.slice (df_index df) (Some (Z.of_nat split_idx))
               (Some (Z.of_nat split_idx + Z.of_nat (length y_test))) in
    (self',
     Trained y_pred y_test test_dates
             (map (fun v => PrimFloat.add v band) y_pred)
             (map (fun v => PrimFloat.sub v band) y_pred)
             m (columns X))
  end.

(** Sequencing a fallible loop body over [range(n)]. *)
Fixpoint for_each {A} (body : Z -> Py.result A) (l : list Z)
  : Py.result (list A) :=
  match l with
  | [] => Py.ret []
  | i :: l' =>
      try! a := body i in
      try! r := for_each body l' in
      Py.ret (a :: r)
  end.

Definition range (n : Z) : list Z :=
  map Z.of_nat (seq 0 (Z.to_nat n)).

(** Lines 269-294: one iteration of the forecast loop. *)
Definition forecast_point (df : DataFrame) (timeframe : string)
    (model : Model) (last_features_scaled : Matrix)
    (total_days days_per_point last_date : Z)
    (current_price daily_vol : float) (i : Z) : Py.result ForecastPoint :=
  let days_ahead := (i + 1) * days_per_point in
  let prediction_date := last_date + days_ahead in
  check! check_X (choose_estimator timeframe) last_features_scaled in
  try! base := Py.item (predict model last_features_scaled) 0 in
  try! predicted_price :=
    (if Py.mem timeframe ["1Y"; "5Y"] then
       let trend_days := Z.min 90 (Z.of_nat (length df) / 2) in
       try! last := Py.item (col Close df) (-1) in
       try! past := Py.item (col Close df) (- trend_days) in
       let recent_trend :=
         PrimFloat.div (PrimFloat.sub last past) (Num.of_Z trend_days) in
       Py.ret (PrimFloat.add base
                 (PrimFloat.mul recent_trend (Num.of_Z days_ahead)))
     else Py.ret base) in
  let time_factor :=
    PrimFloat.sqrt (PrimFloat.div (Num.of_Z days_ahead) 30%float) in
  let std_dev :=
    PrimFloat.mul (PrimFloat.mul daily_vol current_price) time_factor in
  let band := PrimFloat.mul 2%float std_dev in
  Py.ret {| date := prediction_date;
            daysAhead := days_ahead;
            predicted := predicted_price;
            upperBound := PrimFloat.add predicted_price band;
            lowerBound := PrimFloat.sub predicted_price band;
            confidence := confidence_score days_ahead total_days |}.

(** Lines 234-238: train when the key is not cached; the returned
    dictionary is dropped, an exception of the training goes on. *)
Definition ensure_trained (self : Predictor) (df : DataFrame)
    (symbol timeframe : string) : Predictor * Py.result unit :=
  match models self !! model_key symbol timeframe with
  | Some _ => (self, Py.ret tt)
  | None =>
      let '(self, training_result) := train_model self df symbol timeframe in
      (self,
       match training_result with
       | Raised e => inl e
       | _ => Py.ret tt
       end)
  end.

(** Lines 225-296. *)
Definition predict_future (self : Predictor) (df : DataFrame)
    (symbol timeframe : string)
  : Predictor * Py.result (list ForecastPoint) :=
  let key := model_key symbol timeframe in
  let '(self, trained) := ensure_trained self df symbol timeframe in
  match trained with
  | inl e => (self, inl e)
  | inr _ =>
  match models self !! key with
  | None => (self, Py.ret [])
  | Some model =>
      (self,
       match scalers self !! key with
       | None => inl (Py.KeyError key)
       | Some scaler =>
           let '(X, y) := Features.prepare_features df timeframe in
           if (nrows X =? 0)%nat then Py.ret []
           else
             let last_features := Py.slice (values X) (Some (-1)) None in
             check! Sklearn.scaler_check_transform scaler last_features in
             let last_features_scaled :=
               StandardScaler.transform scaler last_features in
             try! total_days := Py.getitem TIMEFRAME_DAYS timeframe in
             let points := get_prediction_points timeframe in
             let days_per_point := total_days / points in
             try! last_date := Py.item (df_index df) (-1) in
             try! current_price := Py.item (col Close df) (-1) in
             let daily_vol := Pandas.std (Pandas.pct_change 1 (col Close df)) in
             for_each
               (forecast_point df timeframe model last_features_scaled
                               total_days days_per_point
                               last_date current_price daily_vol)
               (range points)
       end)
  end
  end.

(** *** The endpoint [predict_live_stock] of [main.py] *)

(** The static data provider, an external collaborator. *)
Variable is_available : bool.
Variable get_stock_data : string -> string -> option DataFrame.

Inductive Detail : Type :=
| Text (s : string)
| StrOf (e : Py.exn).

Inductive HTTPException : Type :=
| HTTP (status_code : nat) (detail : Detail).

Record Response : Type := mkResponse {
  r_symbol : string;
  r_timeframe : string;
  r_currentPrice : float;
  r_predictions : list ForecastPoint;
  r_modelMetrics : EvalMetrics;
  r_trend : string;
  r_priceTargets : PriceTargets;
  r_recommendation : string;
  r_confidence : string;
  r_predictionPoints : nat
}.

Definition valid_timeframes : list string := ["1M"; "6M"; "1Y"; "5Y"].

Definition period_map : list (string * string) :=
  [("1M", "6mo"); ("6M", "2y"); ("1Y", "5y"); ("5Y", "max")].

(** Lines 551-563, the Trend+R2 policy. *)
Definition recommend (trend : string) (r2 : float) : string * string :=
  if String.eqb trend "Bullish" && Num.gt r2 0.5%float then ("BUY", "High")
  else if String.eqb trend "Bullish" then ("BUY", "Medium")
  else if String.eqb trend "Bearish" && Num.gt r2 0.5%float
       then ("SELL", "High")
  else ("HOLD", "Low").

(** An exception other than [HTTPException] leaves the handler as a
    500 (lines 578-581). *)
Definition guard {A} (r : Py.result A) : HTTPException + A :=
  match r with
  | inl e => inl (HTTP 500 (StrOf e))
  | inr a => inr a
  end.

(** Lines 505-581. *)
Definition predict_live_stock (self : Predictor) (symbol timeframe : string)
  : Predictor * (HTTPException + Response) :=
  if negb (Py.mem timeframe valid_timeframes) then
    (self, inl (HTTP 400 (Text "Timeframe must be 1M, 6M, 1Y, or 5Y")))
  else if negb is_available then
    (self, inl (HTTP 503 (Text "Static data not available")))
  else
    match guard (Py.getitem period_map timeframe) with
    | inl e => (self, inl e)
    | inr period =>
        match get_stock_data symbol period with
        | None | Some [] =>
            (self, inl (HTTP 404 (Text ("No data found for " ++ symbol))))
        | Some df =>
            let '(self, training_result) :=
              train_model self df symbol timeframe in
            match training_result with
            | Raised e => (self, inl (HTTP 500 (StrOf e)))
            | TrainError error _ => (self, inl (HTTP 400 (Text error)))
            | Trained _ _ _ _ _ metrics _ =>
                let '(self, future) :=
                  predict_future self df symbol timeframe in
                (self,
                 match guard future with
                 | inl e => inl e
                 | inr future_predictions =>
                     let trend := analyze_trend df timeframe in
                     match guard (Py.item (col Close df) (-1)) with
                     | inl e => inl e
                     | inr current_price =>
                         let price_targets :=
                           get_price_targets current_price timeframe trend in
                         let '(recommendation, confidence) :=
                           recommend trend (r2 metrics) in
                         inr {| r_symbol := symbol;
                                r_timeframe := timeframe;
                                r_currentPrice := current_price;
                                r_predictions := future_predictions;
                                r_modelMetrics := metrics;
                                r_trend := trend;
                                r_priceTargets := price_targets;
                                r_recommendation := recommendation;
                                r_confidence := confidence;
                                r_predictionPoints :=
                                  length future_predictions |}
                     end
                 end)
            end
        end
    end.

End Engine.

(** ** Sample data and a toy learner, used to run the definitions *)

Module Sample.

(** A deterministic zig-zag around a rising line; no window of it is
    constant. *)
Definition bar_at (t : nat) : Bar :=
  let z := Z.of_nat t in
  let c := Num.of_Z (100 + z + (z * 7) mod 13) in
  {| Date := 738000 + z;
     Open := PrimFloat.sub c 1%float;
     High := PrimFloat.add c 2%float;
     Low := PrimFloat.sub c 3%float;
     Close := c;
     Volume := Num.of_Z (1000 + 10 * ((z * 5) mod 7)) |}.

Definition df (n : nat) : DataFrame := map bar_at (seq 0 n).

(** The learner that predicts the mean of its training targets and
    spreads the importance evenly over the features. *)
Definition Model : Type := nat * float.

Definition fit (_ : Estimator) (X : Matrix) (y : list float) : Model :=
  (StandardScaler.ncols X, Num.mean y).

Definition predict_row (m : Model) (_ : list float) : float := snd m.

Definition feature_importances (m : Model) : list float :=
  repeat (PrimFloat.div 1%float (Num.of_nat (fst m))) (fst m).

Definition allow_nan (_ : Estimator) : bool := false.

Abbreviation train :=
  (train_model Model fit predict_row feature_importances
     allow_nan).
Abbreviation forecast :=
  (predict_future Model fit predict_row feature_importances
     allow_nan).
Abbreviation empty := (new_predictor Model).

(** The predictor after one training on 60 rows. *)
Definition trained : Predictor Model :=
  fst (train empty (df 60) "X" "1M").

(** The rows of [df] up to row 51, other prices from row 52 on. *)
Definition alt_bar_at (t : nat) : Bar :=
  if (t <? 52)%nat then bar_at t
  else let b := bar_at (t + 3) in
       {| Date := 738000 + Z.of_nat t;
          Open := Open b; High := High b; Low := Low b;
          Close := Close b; Volume := Volume b |}.

Definition df_alt (n : nat) : DataFrame := map alt_bar_at (seq 0 n).

(** The rows of [df] with an opening price of zero on row 30. *)
Definition zero_open_bar_at (t : nat) : Bar :=
  let b := bar_at t in
  if (t =? 30)%nat
  then {| Date := Date b; Open := 0%float; High := High b; Low := Low b;
          Close := Close b; Volume := Volume b |}
  else b.

Definition df_zero_open (n : nat) : DataFrame :=
  map zero_open_bar_at (seq 0 n).

(** A provider that serves the same 60 rows for every symbol. *)
Definition get_stock_data (_ _ : string) : option DataFrame := Some (df 60).

Abbreviation live :=
  (predict_live_stock Model fit predict_row feature_importances allow_nan
                      true get_stock_data).

End Sample.

(** ** The other endpoints and rules of the backend *)

(** *** [get_live_stock_analysis] and [compare_all_models] of [main.py] *)

(** A value of the stock-info dictionary: a number, a string or [None]. *)
Inductive PyVal : Type :=
| PyNum (x : float)
| PyStr (s : string)
| PyNone.

Definition StockInfo : Type := list (string * PyVal).

(** What [predict_with_cnn] hands to [compare_all_models]. *)
Record CnnPrediction : Type := mkCnn {
  cnn_modelMetrics : EvalMetrics;
  cnn_recommendation : string;
  cnn_confidence : string;
  cnn_trainingLoss : list float
}.

Record Analysis : Type := mkAnalysis {
  a_stockInfo : StockInfo;
  a_predictions : list (string * option Response)
}.

Record ModelEntry : Type := mkEntry {
  m_name : string;
  m_available : bool;
  m_metrics : option EvalMetrics;
  m_recommendation : option string;
  m_confidence : option string;
  m_trainingLoss : option (list float);
  m_note : option string
}.

Record Comparison : Type := mkComparison {
  c_symbol : string;
  c_timeframe : string;
  c_models : list ModelEntry;
  c_bestModel : string;
  c_bestR2 : option float
}.

(** The names that [main.py] binds at its top level: its imports, its
    assignments, its classes and its handlers.  Reading any other global
    name raises [NameError]. *)
Definition module_names : list string :=
  ["FastAPI"; "HTTPException"; "CORSMiddleware"; "List"; "Dict"; "Optional";
   "pd"; "np"; "json"; "Path"; "datetime"; "timedelta"; "BaseModel";
   "StockMLModels"; "DataProcessor"; "StaticDataProvider";
   "MultiTimeframePredictor"; "CNNStockPredictor"; "get_cached_stocks";
   "get_cached_sectors"; "generate_historical_data"; "app";
   "allowed_origins"; "data_processor"; "ml_models"; "static_provider";
   "timeframe_predictor"; "cnn_predictor"; "StockInfo"; "PricePoint";
   "Prediction"; "TechnicalIndicators"; "ModelMetrics"; "FeatureImportance";
   "PortfolioPosition"; "PortfolioCalculation"; "StockAnalysis"; "root";
   "get_stocks"; "get_stock_details"; "get_stock_analysis"; "predict_stock";
   "get_market_summary"; "compare_models"; "get_live_stocks";
   "get_market_heatmap"; "get_market_breadth"; "get_live_stock_data";
   "predict_live_stock"; "get_live_stock_analysis"; "predict_with_cnn";
   "compare_all_models"; "calculate_portfolio";
   "search_stocks_for_portfolio"; "get_all_indian_stocks"].

Definition global_name (name : string) : Py.result unit :=
  if Py.mem name module_names then Py.ret tt else inl (Py.NameError name).

(** Python's [max(a, b)]: [b] when [b > a], else [a]. *)
Definition py_max (a b : float) : float := if Num.gt b a then b else a.

Section Callers.

Context {Model : Type}.
Variable fit : Estimator -> Matrix -> list float -> Model.
Variable predict_row : Model -> list float -> float.
Variable feature_importances : Model -> list float.
Variable allow_nan : Estimator -> bool.
Variable is_available : bool.
Variable get_stock_data : string -> string -> option DataFrame.

(** [get_stock_info] of the multi-source fetcher (it catches its own
    exceptions), and [predict_with_cnn], whose failures
    [compare_all_models] swallows: [None] is a raised exception. *)
Variable get_stock_info : string -> option StockInfo.
Variable predict_with_cnn : string -> string -> option CnnPrediction.

(** Line 591: [not stock_info or stock_info.get('currentPrice', 0) == 0]. *)
Definition not_found (stock_info : option StockInfo) : bool :=
  match stock_info with
  | None => true
  | Some [] => true
  | Some d =>
      match Py.lookup d "currentPrice" with
      | None => true
      | Some (PyNum x) => PrimFloat.eqb x 0%float
      | Some (PyStr _) | Some PyNone => false
      end
  end.

(** Lines 598-604: one request per horizon; whatever a request raises,
    the entry of the horizon is [None]. *)
Fixpoint predict_each (self : Predictor Model) (symbol : string)
    (timeframes : list string)
  : Predictor Model * list (string * option Response) :=
  match timeframes with
  | [] => (self, [])
  | tf :: rest =>
      let '(self, r) :=
        predict_live_stock Model fit predict_row feature_importances allow_nan
                           is_available get_stock_data self symbol tf in
      let prediction := match r with inl _ => None | inr p => Some p end in
      let '(self, all_predictions) := predict_each self symbol rest in
      (self, (tf, prediction) :: all_predictions)
  end.

(** Lines 584-615 (the timestamp of the answer is left out).  Line 589
    reads the module-level name [multi_source] before it calls the
    fetcher; an exception other than [HTTPException] leaves the handler
    as a 500 (lines 614-615). *)
Definition get_live_stock_analysis (self : Predictor Model) (symbol : string)
  : Predictor Model * (HTTPException + Analysis) :=
  match guard (check! global_name "multi_source" in
               Py.ret (get_stock_info symbol)) with
  | inl e => (self, inl e)
  | inr stock_info =>
      if not_found stock_info then
        (self, inl (HTTP 404 (Text ("Stock " ++ symbol ++ " not found"))))
      else
        let '(self, all_predictions) :=
          predict_each self symbol ["1M"; "6M"; "1Y"; "5Y"] in
        (self,
         inr {| a_stockInfo :=
                  match stock_info with Some d => d | None => [] end;
                a_predictions := all_predictions |})
  end.

(** Lines 711-775. *)
Definition compare_all_models (self : Predictor Model)
    (symbol timeframe : string)
  : Predictor Model * (HTTPException + Comparison) :=
  let '(self, r) :=
    predict_live_stock Model fit predict_row feature_importances allow_nan
                       is_available get_stock_data self symbol timeframe in
  match r with
  | inl e => (self, inl e)
  | inr rf_gb_prediction =>
      let first :=
        {| m_name := "Random Forest / Gradient Boosting";
           m_available := true;
           m_metrics := Some (r_modelMetrics rf_gb_prediction);
           m_recommendation := Some (r_recommendation rf_gb_prediction);
           m_confidence := Some (r_confidence rf_gb_prediction);
           m_trainingLoss := None;
           m_note := None |} in
      match predict_with_cnn symbol timeframe with
      | Some cnn_prediction =>
          let rf_r2 := r2 (r_modelMetrics rf_gb_prediction) in
          let cnn_r2 := r2 (cnn_modelMetrics cnn_prediction) in
          (self,
           inr {| c_symbol := symbol;
                  c_timeframe := timeframe;
                  c_models :=
                    [first;
                     {| m_name := "CNN (Convolutional Neural Network)";
                        m_available := true;
                        m_metrics := Some (cnn_modelMetrics cnn_prediction);
                        m_recommendation :=
                          Some (cnn_recommendation cnn_prediction);
                        m_confidence := Some (cnn_confidence cnn_prediction);
                        m_trainingLoss :=
                          Some (cnn_trainingLoss cnn_prediction);
                        m_note := None |}];
                  c_bestModel :=
                    if Num.gt cnn_r2 rf_r2 then "CNN"
                    else "Random Forest/Gradient Boosting";
                  c_bestR2 := Some (py_max rf_r2 cnn_r2) |})
      | None =>
          (self,
           inr {| c_symbol := symbol;
                  c_timeframe := timeframe;
                  c_models :=
                    [first;
                     {| m_name := "CNN (Convolutional Neural Network)";
                        m_available := false;
                        m_metrics := None;
                        m_recommendation := None;
                        m_confidence := None;
                        m_trainingLoss := None;
                        m_note :=
                          Some "Install TensorFlow to enable: pip install tensorflow" |}];
                  c_bestModel := "Random Forest/Gradient Boosting";
                  c_bestR2 := None |})
      end
  end.

End Callers.

(** *** Python's float division *)

(** [a / b] on Python floats raises [ZeroDivisionError] when [b] is a
    zero of either sign; [None] stands for the exception. *)
Definition truediv (a b : float) : option float :=
  if PrimFloat.eqb b 0%float then None else Some (PrimFloat.div a b).

(** *** The signal of [predict_with_cnn] ([main.py], lines 657-681) *)

Record CnnSignal : Type := mkSignal {
  predictedPrice : float;
  expectedReturn : float;
  s_trend : string;
  s_recommendation : string;
  s_confidence : string
}.

(** [last_pred] is the predicted price of the last forecast point, if
    there is one; [None] as a result is the [ZeroDivisionError]. *)
Definition cnn_signal (current_price : float) (last_pred : option float)
    (r2 : float) : option CnnSignal :=
  match last_pred with
  | Some predicted_price =>
      match truediv (PrimFloat.sub predicted_price current_price)
                    current_price with
      | None => None
      | Some q =>
          let expected_return := PrimFloat.mul q 100%float in
          let trend :=
            if Num.gt expected_return 0%float then "Bullish" else "Bearish" in
          let '(recommendation, confidence) :=
            if Num.gt expected_return 10%float && Num.gt r2 0.6%float
            then ("STRONG BUY", "High")
            else if Num.gt expected_return 5%float then ("BUY", "Medium")
            else if Num.lt expected_return (-10)%float && Num.gt r2 0.6%float
            then ("STRONG SELL", "High")
            else if Num.lt expected_return (-5)%float then ("SELL", "Medium")
            else ("HOLD", "Low") in
          Some {| predictedPrice := predicted_price;
                  expectedReturn := expected_return;
                  s_trend := trend;
                  s_recommendation := recommendation;
                  s_confidence := confidence |}
      end
  | None =>
      Some {| predictedPrice := current_price;
              expectedReturn := 0%float;
              s_trend := "Neutral";
              s_recommendation := "HOLD";
              s_confidence := "Low" |}
  end.

(** *** [StockMLModels.generate_recommendation] ([ml_models.py], 189-248) *)

(** Lines 203-219: the score. *)
Definition recommendation_score
    (current_price ma20 ma50 rsi avg_pred_change r2 : float) : Z :=
  let score := 0 in
  let score := if Num.gt current_price ma20 then score + 1 else score in
  let score := if Num.gt current_price ma50 then score + 1 else score in
  let score := if Num.gt ma20 ma50 then score + 1 else score in
  let score :=
    if Num.lt 30%float rsi && Num.lt rsi 70%float then score + 1
    else if Num.lt rsi 30%float then score + 2
    else score in
  let score := if Num.gt avg_pred_change 0%float then score + 2 else score in
  if Num.gt r2 0.5%float then score + 1 else score.

Record Recommendation : Type := mkRecommendation {
  recommendation : string;
  rec_confidence : string;
  risk : string
}.

(** [predictions] and [actuals] are the arrays of one training result,
    of equal length; [technical] is the table of the indicators.  The
    mean is the left-to-right sum over the length (numpy adds pairwise,
    which may change the last bits of the value). *)
Definition generate_recommendation (predictions actuals : list float)
    (r2 : float) (technical : Columns) : Py.result Recommendation :=
  try! close := Py.getitem technical "Close" in
  try! current_price := Py.item close (-1) in
  try! ma20_col := Py.getitem technical "ma20" in
  try! ma20 := Py.item ma20_col (-1) in
  try! ma50_col := Py.getitem technical "ma50" in
  try! ma50 := Py.item ma50_col (-1) in
  try! rsi_col := Py.getitem technical "rsi" in
  try! rsi := Py.item rsi_col (-1) in
  let avg_pred_change :=
    Num.mean
      (Num.zip_with PrimFloat.sub predictions
         (Py.slice actuals (Some (- Z.of_nat (length predictions))) None)) in
  let score :=
    recommendation_score current_price ma20 ma50 rsi avg_pred_change r2 in
  let '(recommendation, confidence) :=
    if 6 <=? score then ("STRONG BUY", "High")
    else if 4 <=? score then ("BUY", "Medium")
    else if 2 <=? score then ("HOLD", "Medium")
    else ("SELL", "Low") in
  try! volatility_col := Py.getitem technical "volatility" in
  try! volatility := Py.item volatility_col (-1) in
  let risk :=
    if Num.gt volatility 40%float then "High"
    else if Num.gt volatility 25%float then "Medium"
    else "Low" in
  Py.ret {| recommendation := recommendation;
            rec_confidence := confidence;
            risk := risk |}.

(** *** [calculate_portfolio] of [main.py] (lines 778-858) *)

Record PortfolioPosition : Type := mkPosition {
  p_symbol : string;
  p_quantity : float;
  p_avgPrice : float;
  p_purchaseDate : option string
}.

(** The two fields that the calculator reads in the provider's record. *)
Record StaticInfo : Type := mkStaticInfo {
  i_name : string;
  i_current_price : float
}.

Record CalculatedPosition : Type := mkCalculated {
  cp_symbol : string;
  cp_name : string;
  cp_quantity : float;
  cp_avgPrice : float;
  cp_currentPrice : float;
  marketValue : float;
  costBasis : float;
  gain : float;
  gainPercent : float;
  weight : float;
  cp_purchaseDate : option string;
  holdingDays : option Z
}.

Record PortfolioSummary : Type := mkSummary {
  totalValue : float;
  totalCost : float;
  totalGain : float;
  totalGainPercent : float;
  positionCount : nat
}.

Record Portfolio : Type := mkPortfolio {
  positions : list CalculatedPosition;
  summary : PortfolioSummary
}.

(** [(num / den * 100) if den > 0 else 0]. *)
Definition percent (num den : float) : option float :=
  if Num.gt den 0%float then
    match truediv num den with
    | Some q => Some (PrimFloat.mul q 100%float)
    | None => None
    end
  else Some 0%float.

Definition set_weight (w : float) (p : CalculatedPosition)
  : CalculatedPosition :=
  {| cp_symbol := cp_symbol p; cp_name := cp_name p;
     cp_quantity := cp_quantity p; cp_avgPrice := cp_avgPrice p;
     cp_currentPrice := cp_currentPrice p;
     marketValue := marketValue p; costBasis := costBasis p;
     gain := gain p; gainPercent := gainPercent p;
     weight := w;
     cp_purchaseDate := cp_purchaseDate p; holdingDays := holdingDays p |}.

Section PortfolioCalculator.

(** The static provider, and the days elapsed since an ISO date ([None]
    when the date does not parse: the exception is swallowed). *)
Variable is_available : bool.
Variable get_stock_info : string -> option StaticInfo.
Variable days_since : string -> option Z.

(** Lines 798-836: the first pass; [None] is a [ZeroDivisionError]. *)
Fixpoint first_pass (todo : list PortfolioPosition)
    (calculated_positions : list CalculatedPosition)
    (total_market_value total_cost_basis : float)
  : option (list CalculatedPosition * float * float) :=
  match todo with
  | [] => Some (calculated_positions, total_market_value, total_cost_basis)
  | position :: rest =>
      match get_stock_info (p_symbol position) with
      | None =>
          first_pass rest calculated_positions
                     total_market_value total_cost_basis
      | Some stock_info =>
          let current_price := i_current_price stock_info in
          let cost_basis :=
            PrimFloat.mul (p_quantity position) (p_avgPrice position) in
          let market_value :=
            PrimFloat.mul (p_quantity position) current_price in
          let gain := PrimFloat.sub market_value cost_basis in
          match percent gain cost_basis with
          | None => None
          | Some gain_percent =>
              let holding_days :=
                match p_purchaseDate position with
                | Some d => if String.eqb d "" then None else days_since d
                | None => None
                end in
              first_pass rest
                (calculated_positions
                 ++ [{| cp_symbol := p_symbol position;
                        cp_name := i_name stock_info;
                        cp_quantity := p_quantity position;
                        cp_avgPrice := p_avgPrice position;
                        cp_currentPrice := current_price;
                        marketValue := market_value;
                        costBasis := cost_basis;
                        gain := gain;
                        gainPercent := gain_percent;
                        weight := 0%float;
                        cp_purchaseDate := p_purchaseDate position;
                        holdingDays := holding_days |}])
                (PrimFloat.add total_market_value market_value)
                (PrimFloat.add total_cost_basis cost_basis)
          end
      end
  end.

(** Lines 838-840: the second pass. *)
Fixpoint second_pass (total_market_value : float)
    (l : list CalculatedPosition) : option (list CalculatedPosition) :=
  match l with
  | [] => Some []
  | pos :: rest =>
      match percent (marketValue pos) total_market_value with
      | None => None
      | Some w =>
          match second_pass total_market_value rest with
          | None => None
          | Some rest' => Some (set_weight w pos :: rest')
          end
      end
  end.

Definition calculate_portfolio (todo : list PortfolioPosition)
  : HTTPException + Portfolio :=
  if negb is_available then
    inl (HTTP 503 (Text "Static data not available"))
  else
    let failed := inl (HTTP 500 (Text "float division by zero")) in
    match first_pass todo [] 0%float 0%float with
    | None => failed
    | Some (calculated_positions, total_market_value, total_cost_basis) =>
        match second_pass total_market_value calculated_positions with
        | None => failed
        | Some weighted =>
            let total_gain :=
              PrimFloat.sub total_market_value total_cost_basis in
            match percent total_gain total_cost_basis with
            | None => failed
            | Some total_gain_percent =>
                inr {| positions := weighted;
                       summary :=
                         {| totalValue := total_market_value;
                            totalCost := total_cost_basis;
                            totalGain := total_gain;
                            totalGainPercent := total_gain_percent;
                            positionCount := length weighted |} |}
            end
        end
    end.

End PortfolioCalculator.

(** * Vocabulary of the statements *)

(** The table of the specification, in percent points as fractions, and
    the halving under a bearish trend. *)
Definition target_table : list (string * (float * float * float)) :=
  [("1M", (0.05, 0.10, 0.15)%float);
   ("6M", (0.15, 0.25, 0.40)%float);
   ("1Y", (0.25, 0.50, 0.75)%float);
   ("5Y", (0.50, 1.00, 2.00)%float)].

Definition halved_if_bearish (trend : string) (p : float) : float :=
  if String.eqb trend "Bearish" then PrimFloat.div p 2%float else p.

Definition target_of (price : float) (trend : string) (p : float) : float :=
  PrimFloat.mul price (PrimFloat.add 1%float (halved_if_bearish trend p)).

(** The integers [start, start + 1, ...], [len] of them. *)
Fixpoint zseq (start : Z) (len : nat) : list Z :=
  match len with
  | O => []
  | S len' => start :: zseq (start + 1) len'
  end.

(** The days-ahead of the points of one horizon: [i * step] for
    [i = 1 .. points]. *)
Definition one_to (n : Z) : list Z := map Z.of_nat (seq 1 (Z.to_nat n)).

(** The horizons: number of points and total days. *)
Definition horizon_table : list (string * (Z * Z)) :=
  [("1M", (30, 30)); ("6M", (26, 180)); ("1Y", (52, 365)); ("5Y", (60, 1825))].

(** The (days ahead, confidence) pairs of a horizon, and the check that
    along them the confidence lies in [50, 100] and never increases. *)
Definition schedule (total_days points : Z) : list (Z * float) :=
  map (fun i => let d := i * (total_days / points) in
                (d, confidence_score d total_days))
      (one_to points).

Definition schedule_ok (s : list (Z * float)) : bool :=
  forallb
    (fun p =>
       Num.le (snd p) 100%float && Num.le 50%float (snd p)
       && Num.le 0%float (snd p)
       && forallb (fun q => implb (fst p <=? fst q) (Num.le (snd q) (snd p))) s)
    s.

(** What the points of a forecast look like, relative to the horizon
    [total] and the last date of the dataset. *)
Definition point_of (timeframe : string) (total last : Z)
    (i : Z) (p : ForecastPoint) : Prop :=
  daysAhead p = (i + 1) * (total / get_prediction_points timeframe)
  /\ date p = last + daysAhead p
  /\ confidence p = confidence_score (daysAhead p) total.

(** What the scaler and the model of a forecast validate: the last row
    of the feature table (line 254) and the same row once scaled (the
    first [model.predict] of the loop). *)
Definition last_row_checks (allow_nan : Estimator -> bool)
    (timeframe : string) (sc : StandardScaler.t) (X : Frame)
  : Py.result unit :=
  let last_features := Py.slice (values X) (Some (-1)) None in
  check! Sklearn.scaler_check_transform sc last_features in
  check_X allow_nan (choose_estimator timeframe)
          (StandardScaler.transform sc last_features).

(** A call of [train_model] that returns: it does not raise. *)
Definition returned (r : TrainResult) : Prop :=
  match r with
  | Raised _ => False
  | _ => True
  end.

(** A decision procedure for "the dates increase strictly". *)
Fixpoint increasingb (l : list Z) : bool :=
  match l with
  | [] => true
  | a :: r =>
      match r with
      | [] => true
      | b :: _ => (a <? b) && increasingb r
      end
  end.

(** ** Vocabulary of the further properties *)

(** The longest moving average of each horizon; its column is present as
    soon as the dataset has that many rows. *)
Definition longest_window : list (string * nat) :=
  [("1M", 20); ("6M", 50); ("1Y", 100); ("5Y", 200)]%nat.

(** The number of raw rows below which no training can succeed: the
    floor of the horizon, plus the rows lost to the longest moving
    average, plus the rows lost to the shifted target. *)
Definition rows_needed : list (string * nat) :=
  [("1M", 50); ("6M", 115); ("1Y", 211); ("5Y", 459)]%nat.

(** A number that the metrics of scikit-learn accept: neither NaN nor an
    infinity. *)
Definition is_finite (v : float) : bool :=
  negb (Pandas.isna v || Sklearn.is_inf v).

(** The part of the validation of a training that the data decide, with
    a learner that lets no NaN through: everything but the check of the
    predictions. *)
Definition data_checks (df : DataFrame) (timeframe : string)
  : Py.result unit :=
  let '(X, y) := Features.prepare_features df timeframe in
  let '((X_train, X_test), (y_train, y_test)) := train_test_split X y in
  let sc := StandardScaler.fit (values X_train) in
  check! Sklearn.scaler_check_fit (values X_train) in
  check! Sklearn.scaler_check_transform sc (values X_test) in
  check! Sklearn.check_array false Sklearn.float32_inf
           (StandardScaler.transform sc (values X_train)) in
  check! Sklearn.check_vector (y_values y_train) in
  check! Sklearn.check_array false Sklearn.float32_inf
           (StandardScaler.transform sc (values X_test)) in
  Sklearn.check_vector (y_values y_test).

(** No entry is followed by one of strictly greater importance. *)
Definition ranked (a b : string * float) : Prop :=
  Num.gt (snd b) (snd a) = false.

(** The three caches hold the same keys. *)
Definition caches_agree {Model : Type} (self : Predictor Model) : Prop :=
  dom (models _ self) = dom (scalers _ self)
  /\ dom (models _ self) = dom (feature_importance _ self).

(** The predictors that the operations of the engine and the endpoint
    produce from a fresh one, whatever the data they are given. *)
Inductive reachable {Model : Type}
    (fit : Estimator -> Matrix -> list float -> Model)
    (predict_row : Model -> list float -> float)
    (feature_importances : Model -> list float)
    (allow_nan : Estimator -> bool)
  : Predictor Model -> Prop :=
| reach_new : reachable fit predict_row feature_importances allow_nan (new_predictor Model)
| reach_train self df symbol timeframe :
    reachable fit predict_row feature_importances allow_nan self ->
    reachable fit predict_row feature_importances allow_nan
      (fst (train_model Model fit predict_row feature_importances allow_nan
                        self df symbol timeframe))
| reach_forecast self df symbol timeframe :
    reachable fit predict_row feature_importances allow_nan self ->
    reachable fit predict_row feature_importances allow_nan
      (fst (predict_future Model fit predict_row feature_importances allow_nan
                           self df symbol timeframe))
| reach_live is_available get_stock_data self symbol timeframe :
    reachable fit predict_row feature_importances allow_nan self ->
    reachable fit predict_row feature_importances allow_nan
      (fst (predict_live_stock Model fit predict_row feature_importances allow_nan
                               is_available get_stock_data
                               self symbol timeframe)).

(** The four answers of the score. *)
Definition answer_of_score (score : Z) : string * string :=
  if 6 <=? score then ("STRONG BUY", "High")
  else if 4 <=? score then ("BUY", "Medium")
  else if 2 <=? score then ("HOLD", "Medium")
  else ("SELL", "Low").

(** The positions whose symbol the provider knows. *)
Definition known (get_stock_info : string -> option StaticInfo)
    (todo : list PortfolioPosition) : list PortfolioPosition :=
  List.filter (fun p => match get_stock_info (p_symbol p) with
                        | Some _ => true
                        | None => false
                        end) todo.

(** * Properties *)

(** ** Facts on binary64 comparison *)

Lemma SFcompare_swap (x y : spec_float) :
  SFcompare y x =
  match SFcompare x y with
  | Some c => Some (CompOpp c)
  | None => None
  end.
Proof.
  destruct x as [sx | sx | | sx mx ex], y as [sy | sy | | sy my ey];
    simpl; try reflexivity;
    try (destruct sx; reflexivity); try (destruct sy; reflexivity);
    try (destruct sx, sy; reflexivity).
  destruct sx, sy; try reflexivity;
    rewrite (Z.compare_antisym ex ey);
    destruct (ex ?= ey) eqn:E; simpl; try reflexivity;
    change (Pos.compare_cont Eq my mx) with (Pos.compare my mx);
    change (Pos.compare_cont Eq mx my) with (Pos.compare mx my);
    rewrite (Pos.compare_antisym mx my);
    try rewrite CompOpp_involutive; reflexivity.
Qed.

(** [x <= y] excludes [x > y]. *)
Lemma le_not_gt (x y : float) : Num.le x y = true -> Num.gt x y = false.
Proof.
  unfold Num.le, Num.gt. rewrite FloatAxioms.leb_spec, FloatAxioms.ltb_spec.
  unfold SFleb, SFltb. rewrite (SFcompare_swap (Prim2SF x) (Prim2SF y)).
  destruct (SFcompare (Prim2SF x) (Prim2SF y)) as [[ | | ] | ];
    simpl; congruence.
Qed.

(** ** TrendAnalyzer *)

Lemma trend_period_le_len (df : DataFrame) (timeframe : string) :
  trend_period df timeframe <= Z.of_nat (length df).
Proof.
  unfold trend_period.
  assert (Z.of_nat (length df) / 2 <= Z.of_nat (length df))
    by (Z.div_mod_to_equations; lia).
  repeat match goal with |- context [if ?b then _ else _] => destruct b end;
    lia.
Qed.

(** C9. For every series, the empty one included, and every timeframe
    string, the guard [len(df) < period] of [analyze_trend] is false,
    because the period is capped at half the length; the function
    therefore returns 'Bullish' or 'Bearish' and never 'Neutral'. *)
Theorem analyze_trend_never_neutral (df : DataFrame) (timeframe : string) :
  (Z.of_nat (length df) <? trend_period df timeframe) = false
  /\ (analyze_trend df timeframe = "Bullish"
      \/ analyze_trend df timeframe = "Bearish")
  /\ analyze_trend df timeframe <> "Neutral".
Proof.
  assert (G : (Z.of_nat (length df) <? trend_period df timeframe) = false).
  { apply Z.ltb_ge, trend_period_le_len. }
  split; [exact G |].
  unfold analyze_trend. rewrite G.
  match goal with |- context [if ?b then _ else _] => destruct b end;
    split; auto; discriminate.
Qed.

(** On the empty series the period is 0, both means are missing, the
    comparison is false and the answer is 'Bearish'. *)
Lemma analyze_trend_empty (timeframe : string) :
  analyze_trend [] timeframe = "Bearish".
Proof.
  unfold analyze_trend, trend_period. simpl length.
  repeat match goal with
         | |- context [String.eqb timeframe ?s] =>
             destruct (String.eqb timeframe s)
         end; reflexivity.
Qed.

(** ** Price targets *)

(** C6. For every current price and every timeframe of the table,
    [get_price_targets] returns [price * (1 + p)] for the conservative,
    moderate and aggressive percentage of that timeframe, each percentage
    halved when the trend is 'Bearish'; for 1Y, Bearish and a price of 100
    the targets are 112.5, 125 and 137.5. *)
Theorem get_price_targets_table (current_price : float) (trend : string) :
  Forall
    (fun row =>
       let '(timeframe, (c, m, a)) := row in
       let t := get_price_targets current_price timeframe trend in
       conservative t = target_of current_price trend c
       /\ moderate t = target_of current_price trend m
       /\ aggressive t = target_of current_price trend a)
    target_table
  /\ (let t := get_price_targets 100%float "1Y" "Bearish" in
      conservative t = 112.5%float
      /\ moderate t = 125%float
      /\ aggressive t = 137.5%float).
Proof.
  split.
  - unfold target_table, target_of, halved_if_bearish.
    repeat constructor;
      unfold get_price_targets, adjust_for_trend; simpl;
      destruct (String.eqb trend "Bearish"); reflexivity.
  - repeat split; vm_compute; reflexivity.
Qed.

(** ** The Trend+R2 policy *)

Lemma recommend_cases (trend : string) (score : float) :
  (trend = "Bullish" -> Num.gt score 0.5%float = true ->
   recommend trend score = ("BUY", "High"))
  /\ (trend = "Bullish" -> Num.le score 0.5%float = true ->
      recommend trend score = ("BUY", "Medium"))
  /\ (trend = "Bearish" -> Num.gt score 0.5%float = true ->
      recommend trend score = ("SELL", "High"))
  /\ (trend <> "Bullish" ->
      ~ (trend = "Bearish" /\ Num.gt score 0.5%float = true) ->
      recommend trend score = ("HOLD", "Low")).
Proof.
  unfold recommend. repeat split.
  - intros -> ->. reflexivity.
  - intros -> H. rewrite (le_not_gt _ _ H). reflexivity.
  - intros -> ->. reflexivity.
  - intros Hb Hs.
    destruct (String.eqb_spec trend "Bullish") as [E | _]; [contradiction |].
    simpl.
    destruct (String.eqb_spec trend "Bearish") as [E | _]; [| reflexivity].
    destruct (Num.gt score 0.5%float); [| reflexivity].
    exfalso. apply Hs. split; [exact E | reflexivity].
Qed.

(** ** Lists: sorted sequences, positions, slices *)

Section ListFacts.

Lemma sorted_seq (a n : nat) : StronglySorted lt (seq a n).
Proof.
  revert a. induction n as [| n IH]; intro a; simpl; constructor.
  - apply IH.
  - apply List.Forall_forall. intros x Hx. apply in_seq in Hx. lia.
Qed.

Lemma sorted_filter {A} (R : A -> A -> Prop) (f : A -> bool) (l : list A) :
  StronglySorted R l -> StronglySorted R (List.filter f l).
Proof.
  induction 1 as [| x l Hs IH Hx]; simpl; [constructor |].
  destruct (f x); [| exact IH].
  constructor; [exact IH |].
  apply List.Forall_forall. intros y Hy. apply filter_In in Hy.
  rewrite List.Forall_forall in Hx. apply Hx, Hy.
Qed.

Lemma sorted_app_lt {A} (R : A -> A -> Prop) (l1 l2 : list A) :
  StronglySorted R (l1 ++ l2) ->
  forall a b, In a l1 -> In b l2 -> R a b.
Proof.
  induction l1 as [| x l1 IH]; simpl; intros Hs a b Ha Hb; [contradiction |].
  inversion Hs as [| ? ? Hs' Hx]; subst.
  destruct Ha as [-> | Ha].
  - rewrite List.Forall_forall in Hx. apply Hx, in_or_app. now right.
  - now apply IH.
Qed.

Lemma sorted_nth_lt (l : list Z) :
  StronglySorted Z.lt l ->
  forall i j, (i < j)%nat -> (j < length l)%nat -> nth i l 0 < nth j l 0.
Proof.
  induction 1 as [| x l Hs IH Hx]; intros i j Hij Hj; simpl in Hj; [lia |].
  destruct j as [| j]; [lia |]. destruct i as [| i]; simpl.
  - rewrite List.Forall_forall in Hx. apply Hx, nth_In. lia.
  - apply IH; lia.
Qed.

(** Reading a sorted list at increasing positions gives a sorted list. *)
Lemma sorted_map_nth (dates : list Z) (rows : list nat) :
  StronglySorted Z.lt dates ->
  StronglySorted lt rows ->
  Forall (fun t => (t < length dates)%nat) rows ->
  StronglySorted Z.lt (map (fun t => nth t dates 0) rows).
Proof.
  intros Hd. induction 1 as [| t rows Hs IH Ht]; intros Hb; simpl;
    constructor.
  - apply IH. now inversion Hb.
  - apply List.Forall_forall. intros d Hin. apply in_map_iff in Hin.
    destruct Hin as [u [<- Hu]].
    rewrite List.Forall_forall in Ht. specialize (Ht u Hu).
    inversion Hb as [| ? ? Hbt Hbr]; subst.
    rewrite List.Forall_forall in Hbr. specialize (Hbr u Hu).
    now apply sorted_nth_lt.
Qed.

(** In a strictly increasing list of positions that all lie at or above
    [m], the one at place [i] lies at or above [m + i]. *)
Lemma sorted_nat_nth_lower (l : list nat) :
  StronglySorted lt l ->
  forall m i, Forall (fun x => (m <= x)%nat) l -> (i < length l)%nat ->
              (m + i <= nth i l 0)%nat.
Proof.
  induction 1 as [| x l Hs IH Hx]; intros m i Hm Hi; simpl in Hi; [lia |].
  inversion Hm as [| ? ? Hmx Hml]; subst.
  destruct i as [| i]; simpl; [lia |].
  assert (H1 : (S m + i <= nth i l 0)%nat).
  { apply IH; [| lia].
    rewrite List.Forall_forall in Hx |- *. intros y Hy.
    specialize (Hx y Hy). lia. }
  lia.
Qed.

Lemma Forall2_by_nth {A B} (R : A -> B -> Prop) (da : A) (db : B)
    (l1 : list A) (l2 : list B) :
  length l1 = length l2 ->
  (forall i, (i < length l1)%nat -> R (nth i l1 da) (nth i l2 db)) ->
  Forall2 R l1 l2.
Proof.
  revert l2. induction l1 as [| a l1 IH]; intros [| b l2] Hl Hn;
    simpl in Hl; try discriminate; constructor.
  - apply (Hn 0%nat). simpl. lia.
  - apply IH; [lia |]. intros i Hi. apply (Hn (S i)). simpl. lia.
Qed.

Lemma nth_firstn_skipn {A} (d : A) (l : list A) (k n i : nat) :
  (i < n)%nat -> nth i (firstn n (skipn k l)) d = nth (k + i) l d.
Proof.
  intros Hi. rewrite nth_firstn.
  destruct (Nat.ltb_spec i n); [| lia]. now rewrite nth_skipn.
Qed.

Lemma length_filter_le {A} (f : A -> bool) (l : list A) :
  (length (List.filter f l) <= length l)%nat.
Proof.
  induction l as [| x l IH]; simpl; [lia |]. destruct (f x); simpl; lia.
Qed.

Lemma nth_map_default {A B} (f : A -> B) (l : list A) (i : nat)
    (da : A) (db : B) :
  (i < length l)%nat -> nth i (map f l) db = f (nth i l da).
Proof.
  revert i. induction l as [| a l IH]; intros [| i] Hi; simpl in *;
    try lia; [reflexivity | apply IH; lia].
Qed.

Lemma sorted_bounded_length (l : list nat) (n : nat) :
  StronglySorted lt l -> Forall (fun t => (t < n)%nat) l ->
  (length l <= n)%nat.
Proof.
  intros Hs Hb. destruct (Nat.eq_dec (length l) 0%nat) as [E | E]; [lia |].
  assert (H : (0 + (length l - 1) <= nth (length l - 1) l 0)%nat).
  { apply sorted_nat_nth_lower; [exact Hs | | lia].
    apply List.Forall_forall. intros; lia. }
  rewrite List.Forall_forall in Hb.
  specialize (Hb (nth (length l - 1)%nat l 0%nat)).
  assert (nth (length l - 1) l 0 < n)%nat by (apply Hb, nth_In; lia).
  lia.
Qed.

(** The dates read at positions [k, k+1, ...] of the raw index are
    strictly earlier than the dates of the kept rows number
    [k, k+1, ...] as soon as row 0 is not kept. *)
Lemma slice_lags (idx : list Z) (kept : list nat) (k : nat) :
  StronglySorted Z.lt idx ->
  StronglySorted lt kept ->
  Forall (fun t => (t < length idx)%nat) kept ->
  ~ In 0%nat kept ->
  Forall2 Z.lt
    (Py.slice idx (Some (Z.of_nat k))
              (Some (Z.of_nat k + Z.of_nat (length kept - k))))
    (skipn k (map (fun t => nth t idx 0) kept)).
Proof.
  intros Hi Hk Hb H0.
  pose proof (sorted_bounded_length kept (length idx) Hk Hb) as HL.
  assert (H1 : Forall (fun x => (1 <= x)%nat) kept).
  { apply List.Forall_forall. intros x Hx.
    destruct x; [contradiction | lia]. }
  unfold Py.slice, Py.clip.
  destruct (Z.ltb_spec (Z.of_nat k) 0); [lia |].
  destruct (Z.ltb_spec (Z.of_nat k + Z.of_nat (length kept - k)) 0); [lia |].
  apply (Forall2_by_nth Z.lt 0 0).
  - rewrite length_firstn, !length_skipn, length_map. lia.
  - intros i Hlen.
    rewrite length_firstn, length_skipn in Hlen.
    assert (Hik : (k + i < length kept)%nat) by lia.
    rewrite nth_firstn_skipn by lia.
    rewrite nth_skipn.
    rewrite (nth_map_default _ _ _ 0%nat) by lia.
    replace (Z.to_nat (Z.min (Z.of_nat k) (Z.of_nat (length idx))) + i)%nat
      with (k + i)%nat by lia.
    pose proof (sorted_nat_nth_lower kept Hk 1%nat (k + i)%nat H1 Hik) as Hlow.
    rewrite List.Forall_forall in Hb.
    specialize (Hb (nth (k + i)%nat kept 0%nat) (nth_In kept 0%nat Hik)).
    apply sorted_nth_lt; [exact Hi | lia | lia].
Qed.

End ListFacts.

(** ** FeatureEngineer: which rows survive *)

Section FeatureFacts.

Variable df : DataFrame.
Variable timeframe : string.

Let XY := Features.prepare_features df timeframe.

Lemma kept_rows_sorted : StronglySorted lt (Features.kept_rows df timeframe).
Proof. apply sorted_filter, sorted_seq. Qed.

Lemma kept_rows_bound :
  Forall (fun t => (t < length df)%nat) (Features.kept_rows df timeframe).
Proof.
  apply List.Forall_forall. intros t Ht. apply filter_In in Ht.
  destruct Ht as [Ht _]. apply in_seq in Ht. lia.
Qed.

Lemma nrows_kept : nrows (fst XY) = length (Features.kept_rows df timeframe).
Proof. unfold nrows. simpl. now rewrite length_map. Qed.

Lemma index_kept :
  index (fst XY)
  = map (fun t => nth t (df_index df) 0) (Features.kept_rows df timeframe).
Proof. reflexivity. Qed.

Lemma y_index_kept : y_index (snd XY) = index (fst XY).
Proof. reflexivity. Qed.

Lemma y_values_length : length (y_values (snd XY)) = nrows (fst XY).
Proof. unfold nrows. simpl. now rewrite !length_map. Qed.

Lemma index_length : length (index (fst XY)) = nrows (fst XY).
Proof. unfold nrows. simpl. now rewrite !length_map. Qed.

(** [len(X) <= len(df)]: dropping rows never adds any. *)
Lemma nrows_le_len : (nrows (fst XY) <= length df)%nat.
Proof.
  rewrite nrows_kept. unfold Features.kept_rows.
  etransitivity; [apply length_filter_le |]. now rewrite length_seq.
Qed.

(** The index of the feature table inherits the order of the dates. *)
Lemma index_sorted :
  StronglySorted Z.lt (df_index df) -> StronglySorted Z.lt (index (fst XY)).
Proof.
  intros Hd. rewrite index_kept.
  apply sorted_map_nth; [exact Hd | apply kept_rows_sorted |].
  unfold df_index. rewrite length_map. apply kept_rows_bound.
Qed.

End FeatureFacts.

(** Row 0 never survives: the last lag column, [return_lag_L], is missing
    on the first [L + 1 >= 4] rows of any dataset. *)
Section FirstRow.

Lemma set_col_new (name : string) (s : Pandas.Series) (cols : Columns) :
  In (name, s) (set_col name s cols).
Proof.
  induction cols as [| [n c] cols IH]; simpl; [now left |].
  destruct (String.eqb_spec n name) as [-> | _]; [now left | now right].
Qed.

Lemma set_col_old (name : string) (s : Pandas.Series) (cols : Columns)
    (n : string) (c : Pandas.Series) :
  In (n, c) cols -> String.eqb n name = false ->
  In (n, c) (set_col name s cols).
Proof.
  induction cols as [| [n' c'] cols IH]; simpl; intros H Hne; [contradiction |].
  destruct H as [E | H].
  - injection E as -> ->. rewrite Hne. now left.
  - destruct (String.eqb n' name); right; [exact H | now apply IH].
Qed.

Lemma row_complete_in (cols : Columns) (t : nat) (n : string)
    (c : Pandas.Series) :
  Features.row_complete cols t = true -> In (n, c) cols ->
  Pandas.isna (Pandas.at_ c t) = false.
Proof.
  unfold Features.row_complete. rewrite forallb_forall. intros H Hin.
  specialize (H _ Hin). simpl in H. now apply negb_true_iff in H.
Qed.

Lemma shift_head_missing (k : nat) (s : Pandas.Series) :
  (0 < k)%nat ->
  Pandas.isna (Pandas.at_ (Pandas.shift (Z.of_nat k) s) 0) = true.
Proof.
  intros Hk. unfold Pandas.at_, Pandas.shift, Pandas.positions.
  destruct s as [| x s]; [reflexivity |].
  cbn [length seq map nth].
  destruct (Z.leb_spec 0 (Z.of_nat 0 - Z.of_nat k)); [lia | reflexivity].
Qed.

Lemma lag_days_pos (df : DataFrame) : (3 <= Features.lag_days df)%nat.
Proof. unfold Features.lag_days. lia. Qed.

Lemma add_lags_last (df : DataFrame) (cols : Columns) :
  exists cols',
    Features.add_lags df cols
    = set_col ("return_lag_" ++ Py.str_of_nat (Features.lag_days df))
              (Pandas.shift (Z.of_nat (Features.lag_days df))
                            (Pandas.pct_change 1 (col Close df)))
              cols'.
Proof.
  unfold Features.add_lags.
  pose proof (lag_days_pos df) as HL.
  destruct (Features.lag_days df) as [| L]; [lia |].
  rewrite seq_S, fold_left_app. simpl. eexists. reflexivity.
Qed.

Lemma first_row_dropped (df : DataFrame) (timeframe : string) :
  ~ In 0%nat (Features.kept_rows df timeframe).
Proof.
  intros Hin. apply filter_In in Hin. destruct Hin as [_ Hrc].
  unfold Features.features_df in Hrc. cbv zeta in Hrc.
  match type of Hrc with
  | context [Features.add_lags df ?c] =>
      destruct (add_lags_last df c) as [cols' E]; rewrite E in Hrc
  end.
  match type of Hrc with
  | Features.row_complete ?full _ = true =>
      assert (Hmem : In (("return_lag_"
                          ++ Py.str_of_nat (Features.lag_days df))%string,
                         Pandas.shift (Z.of_nat (Features.lag_days df))
                                      (Pandas.pct_change 1 (col Close df)))
                        full)
        by (apply set_col_old; [apply set_col_new | reflexivity])
  end.
  pose proof (row_complete_in _ _ _ _ Hrc Hmem) as Hna.
  rewrite shift_head_missing in Hna; [discriminate |].
  pose proof (lag_days_pos df). lia.
Qed.

End FirstRow.

(** ** ModelTrainer *)

Lemma in_zseq (len : nat) (start z : Z) :
  start <= z < start + Z.of_nat len -> In z (zseq start len).
Proof.
  revert start. induction len as [| len IH]; intros start H; [lia |].
  simpl. destruct (Z.eq_dec start z) as [E | E]; [now left | right].
  apply IH. lia.
Qed.

(** [int(n * 0.8)] is the integer part of [4n/5] on every length up to
    65535 (checked by running the binary64 product on each of them). *)
Lemma split_index_floor (n : nat) :
  Z.of_nat n < 65536 -> Z.of_nat (split_index n) = 4 * Z.of_nat n / 5.
Proof.
  intros Hn.
  assert (H : forallb
                (fun z => match split_point z with
                          | Some k => k =? 4 * z / 5
                          | None => false
                          end)
                (zseq 0 (Z.to_nat 65536)) = true)
    by (vm_compute; reflexivity).
  rewrite forallb_forall in H.
  specialize (H (Z.of_nat n)).
  unfold split_index.
  destruct (split_point (Z.of_nat n)) as [k |].
  - assert (E : (k =? 4 * Z.of_nat n / 5) = true) by (apply H, in_zseq; lia).
    apply Z.eqb_eq in E. rewrite E. apply Z2Nat.id.
    Z.div_mod_to_equations; lia.
  - assert (E : false = true) by (apply H, in_zseq; lia). discriminate.
Qed.

Section TrainerFacts.

Context {Model : Type}.
Variable fit : Estimator -> Matrix -> list float -> Model.
Variable predict_row : Model -> list float -> float.
Variable feature_importances : Model -> list float.
Variable allow_nan : Estimator -> bool.

Local Abbreviation train :=
  (train_model Model fit predict_row feature_importances
     allow_nan).
Local Abbreviation stage := (fit_stage Model fit predict_row).
Local Abbreviation checks := (fit_checks Model fit predict_row allow_nan).

Lemma fit_stage_slices (df : DataFrame) (timeframe : string) :
  let X := fst (Features.prepare_features df timeframe) in
  let y := snd (Features.prepare_features df timeframe) in
  let k := split_index (nrows X) in
  let f := stage df timeframe in
  X_train _ f = frame_take k X /\ X_test _ f = frame_drop k X
  /\ y_train _ f = target_take k y /\ y_test _ f = target_drop k y
  /\ scaler _ f = StandardScaler.fit (values (frame_take k X))
  /\ X_train_scaled _ f
     = StandardScaler.transform (scaler _ f) (values (X_train _ f))
  /\ X_test_scaled _ f
     = StandardScaler.transform (scaler _ f) (values (X_test _ f))
  /\ model _ f
     = fit (choose_estimator timeframe) (X_train_scaled _ f)
           (y_values (y_train _ f))
  /\ y_pred _ f = predict Model predict_row (model _ f) (X_test_scaled _ f).
Proof. repeat split. Qed.

Lemma train_model_insufficient_eq (self : Predictor Model) (df : DataFrame)
    (symbol timeframe : string) :
  let X := fst (Features.prepare_features df timeframe) in
  (nrows X < min_samples_for timeframe)%nat ->
  train self df symbol timeframe
  = (self,
     TrainError
       (insufficient_message timeframe (min_samples_for timeframe) (nrows X))
       zero_metrics).
Proof.
  intros X H. subst X.
  unfold train_model, Features.prepare_features in *.
  cbv beta iota zeta in *. simpl fst in *.
  match goal with
  | |- context [Nat.ltb ?a ?b] => destruct (Nat.ltb_spec a b)
  end; [reflexivity | lia].
Qed.

Lemma train_model_sufficient_eq (self : Predictor Model) (df : DataFrame)
    (symbol timeframe : string) :
  let X := fst (Features.prepare_features df timeframe) in
  let f := stage df timeframe in
  let k := split_index (nrows X) in
  let key := model_key symbol timeframe in
  let actual := y_values (y_test _ f) in
  let band :=
    PrimFloat.mul 2%float (Num.std (Metrics.residuals actual (y_pred _ f))) in
  (min_samples_for timeframe <= nrows X)%nat ->
  checks df timeframe = inr tt ->
  train self df symbol timeframe
  = ({| models := <[key := model _ f]> (models _ self);
        scalers := <[key := scaler _ f]> (scalers _ self);
        feature_importance :=
          <[key := sort_desc
                     (combine (columns X)
                              (feature_importances (model _ f)))]>
            (feature_importance _ self) |},
     Trained (y_pred _ f) actual
             (Py.slice (df_index df) (Some (Z.of_nat k))
                       (Some (Z.of_nat k + Z.of_nat (length actual))))
             (map (fun v => PrimFloat.add v band) (y_pred _ f))
             (map (fun v => PrimFloat.sub v band) (y_pred _ f))
             (evaluate actual (y_pred _ f))
             (columns X)).
Proof.
  intros X f k key actual band H Hc. subst X f k key actual band.
  unfold train_model, Features.prepare_features in *.
  cbv beta iota zeta in *. simpl fst in *.
  match goal with
  | |- context [Nat.ltb ?a ?b] => destruct (Nat.ltb_spec a b)
  end; [lia |].
  now rewrite Hc.
Qed.

Lemma train_model_raised_eq (self : Predictor Model) (df : DataFrame)
    (symbol timeframe : string) (e : Py.exn) :
  let X := fst (Features.prepare_features df timeframe) in
  (min_samples_for timeframe <= nrows X)%nat ->
  checks df timeframe = inl e ->
  train self df symbol timeframe = (self, Raised e).
Proof.
  intros X H Hc. subst X.
  unfold train_model, Features.prepare_features in *.
  cbv beta iota zeta in *. simpl fst in *.
  match goal with
  | |- context [Nat.ltb ?a ?b] => destruct (Nat.ltb_spec a b)
  end; [lia |].
  now rewrite Hc.
Qed.

(** A training that returns the result dictionary met the floor and
    passed every validation. *)
Lemma train_model_trained_inv (self self' : Predictor Model) (df : DataFrame)
    (symbol timeframe : string)
    (preds acts : list float) (dates : list Z) (ub lb : list float)
    (m : EvalMetrics) (cols : list string) :
  train self df symbol timeframe
  = (self', Trained preds acts dates ub lb m cols) ->
  (min_samples_for timeframe
   <= nrows (fst (Features.prepare_features df timeframe)))%nat
  /\ checks df timeframe = inr tt.
Proof.
  intros H.
  destruct (Nat.ltb_spec (nrows (fst (Features.prepare_features df timeframe)))
              (min_samples_for timeframe)) as [Hlt | Hge].
  { rewrite (train_model_insufficient_eq self df symbol timeframe Hlt) in H.
    discriminate. }
  split; [exact Hge |].
  destruct (checks df timeframe) as [e | []] eqn:Hc; [| reflexivity].
  rewrite (train_model_raised_eq self df symbol timeframe e Hge Hc) in H.
  discriminate.
Qed.

(** C3. When the engineered feature table has fewer rows than the floor
    of the timeframe (1M: 30, 6M: 60, 1Y: 100, 5Y: 200), [train_model]
    returns the insufficient-data result, with its message and four zero
    metrics, and the predictor is the one it was called on: the model
    cache, the scaler cache and the feature-importance store are
    unchanged, in particular at the (symbol, timeframe) key. *)
Theorem train_model_insufficient_data (self : Predictor Model) (df : DataFrame)
    (symbol timeframe : string) (floor : nat) :
  In (timeframe, floor) [("1M", 30); ("6M", 60); ("1Y", 100); ("5Y", 200)]%nat ->
  let X := fst (Features.prepare_features df timeframe) in
  (nrows X < floor)%nat ->
  let self' := fst (train self df symbol timeframe) in
  let key := model_key symbol timeframe in
  snd (train self df symbol timeframe)
  = TrainError
      ("Insufficient data for " ++ timeframe ++ " training. Need at least "
       ++ Py.str_of_nat floor ++ " samples, got " ++ Py.str_of_nat (nrows X))
      {| rmse := 0%float; mae := 0%float; r2 := 0%float; mape := 0%float |}
  /\ self' = self
  /\ models _ self' !! key = models _ self !! key
  /\ scalers _ self' !! key = scalers _ self !! key
  /\ feature_importance _ self' !! key = feature_importance _ self !! key.
Proof.
  intros Hin X Hlt self' key.
  assert (Hfloor : min_samples_for timeframe = floor).
  { simpl in Hin.
    destruct Hin as [E | [E | [E | [E | []]]]]; inversion E; reflexivity. }
  assert (E : train self df symbol timeframe
              = (self,
                 TrainError
                   (insufficient_message timeframe floor (nrows X))
                   zero_metrics)).
  { rewrite <- Hfloor. apply train_model_insufficient_eq.
    fold X. lia. }
  subst self'. rewrite E. simpl. repeat split.
Qed.


(** Every refusal of the validation is a [ValueError]. *)
Lemma check_array_error (allow : bool) (bad : float -> bool) (X : Matrix)
    (e : Py.exn) :
  Sklearn.check_array allow bad X = inl e -> e = Py.ValueError.
Proof.
  unfold Sklearn.check_array, Py.ret.
  repeat match goal with |- context [if ?b then _ else _] => destruct b end;
    congruence.
Qed.

Lemma check_vector_error (y : list float) (e : Py.exn) :
  Sklearn.check_vector y = inl e -> e = Py.ValueError.
Proof.
  unfold Sklearn.check_vector, Py.ret.
  repeat match goal with |- context [if ?b then _ else _] => destruct b end;
    congruence.
Qed.

Lemma scaler_check_transform_error (s : StandardScaler.t) (X : Matrix)
    (e : Py.exn) :
  Sklearn.scaler_check_transform s X = inl e -> e = Py.ValueError.
Proof.
  unfold Sklearn.scaler_check_transform, Py.bind, Py.ret.
  destruct (Sklearn.check_array true Sklearn.is_inf X) eqn:E.
  - intros [= <-]. now apply check_array_error in E.
  - destruct (_ =? _)%nat; congruence.
Qed.

Lemma fit_checks_error (df : DataFrame) (timeframe : string) (e : Py.exn) :
  checks df timeframe = inl e -> e = Py.ValueError.
Proof.
  unfold fit_checks, check_X, Sklearn.scaler_check_fit,
    Sklearn.check_reg_targets, Py.bind. cbv zeta.
  repeat match goal with
         | |- context [match ?c with inl _ => _ | inr _ => _ end] =>
             let E := fresh "E" in
             destruct c eqn:E;
             [first [apply check_array_error in E
                    | apply check_vector_error in E
                    | apply scaler_check_transform_error in E];
              congruence |]
         end.
  intros H. now apply check_vector_error in H.
Qed.

(** The three ways a call of the trainer ends above the floor. *)
Lemma train_model_above_floor (self : Predictor Model) (df : DataFrame)
    (symbol timeframe : string) :
  let X := fst (Features.prepare_features df timeframe) in
  let f := stage df timeframe in
  let key := model_key symbol timeframe in
  (min_samples_for timeframe <= nrows X)%nat ->
  (checks df timeframe = inl Py.ValueError
   /\ train self df symbol timeframe = (self, Raised Py.ValueError))
  \/ (checks df timeframe = inr tt
      /\ returned (snd (train self df symbol timeframe))
      /\ fst (train self df symbol timeframe)
         = {| models := <[key := model _ f]> (models _ self);
              scalers := <[key := scaler _ f]> (scalers _ self);
              feature_importance :=
                <[key := sort_desc
                           (combine (columns X)
                                    (feature_importances (model _ f)))]>
                  (feature_importance _ self) |}).
Proof.
  intros X f key Hge.
  destruct (checks df timeframe) as [e | []] eqn:Hc.
  - pose proof (fit_checks_error _ _ _ Hc) as ->. left.
    split; [reflexivity |]. now apply train_model_raised_eq.
  - right. split; [reflexivity |].
    rewrite (train_model_sufficient_eq self df symbol timeframe Hge Hc).
    split; [exact I | reflexivity].
Qed.

(** What a validation that passes has accepted. *)
Lemma fit_checks_inv (df : DataFrame) (timeframe : string) :
  checks df timeframe = inr tt ->
  let f := stage df timeframe in
  let est := choose_estimator timeframe in
  Sklearn.scaler_check_fit (values (X_train _ f)) = inr tt
  /\ Sklearn.scaler_check_transform (scaler _ f) (values (X_test _ f)) = inr tt
  /\ check_X allow_nan est (X_train_scaled _ f) = inr tt
  /\ Sklearn.check_vector (y_values (y_train _ f)) = inr tt
  /\ check_X allow_nan est (X_test_scaled _ f) = inr tt
  /\ Sklearn.check_vector (y_values (y_test _ f)) = inr tt
  /\ Sklearn.check_vector (y_pred _ f) = inr tt.
Proof.
  unfold fit_checks, Sklearn.check_reg_targets, Py.bind. cbv zeta.
  repeat match goal with
         | |- context [match ?c with inl _ => _ | inr _ => _ end] =>
             destruct c as [? | []]; [discriminate |]
         end.
  intros H. now repeat split.
Qed.

(** The ways a call of the trainer ends. *)
Lemma train_model_outcomes (self : Predictor Model) (df : DataFrame)
    (symbol timeframe : string) :
  let X := fst (Features.prepare_features df timeframe) in
  let f := stage df timeframe in
  let key := model_key symbol timeframe in
  ((nrows X < min_samples_for timeframe)%nat
   /\ train self df symbol timeframe
      = (self,
         TrainError
           (insufficient_message timeframe (min_samples_for timeframe)
                                 (nrows X))
           zero_metrics))
  \/ ((min_samples_for timeframe <= nrows X)%nat
      /\ checks df timeframe = inl Py.ValueError
      /\ train self df symbol timeframe = (self, Raised Py.ValueError))
  \/ ((min_samples_for timeframe <= nrows X)%nat
      /\ checks df timeframe = inr tt
      /\ exists p a d u l m c,
           train self df symbol timeframe
           = ({| models := <[key := model _ f]> (models _ self);
                 scalers := <[key := scaler _ f]> (scalers _ self);
                 feature_importance :=
                   <[key := sort_desc
                              (combine (columns X)
                                       (feature_importances (model _ f)))]>
                     (feature_importance _ self) |},
              Trained p a d u l m c)).
Proof.
  intros X f key.
  destruct (Nat.lt_ge_cases (nrows X) (min_samples_for timeframe))
    as [Hlt | Hge].
  - left. split; [exact Hlt |]. now apply train_model_insufficient_eq.
  - right. destruct (checks df timeframe) as [e | []] eqn:Hc.
    + pose proof (fit_checks_error _ _ _ Hc) as ->. left.
      split; [exact Hge |]. split; [reflexivity |].
      now apply train_model_raised_eq.
    + right. split; [exact Hge |]. split; [reflexivity |].
      rewrite (train_model_sufficient_eq self df symbol timeframe Hge Hc).
      do 7 eexists. reflexivity.
Qed.

(** C7. The standardizer is fitted on the training slice and on nothing
    else: the scaler that a completed [train_model] stores is
    [StandardScaler.fit] of the first [int(0.8 * len(X))] feature rows,
    both slices are transformed with that one scaler, and two datasets
    whose feature tables agree on their training rows end with the same
    mean and scale vectors, whatever their test rows are.  (A training
    that scikit-learn's validation stops with a [ValueError] stores
    nothing.) *)
Theorem scaler_fitted_on_training_slice
    (self1 self2 : Predictor Model) (df1 df2 : DataFrame)
    (symbol1 symbol2 timeframe1 timeframe2 : string) :
  let X1 := fst (Features.prepare_features df1 timeframe1) in
  let X2 := fst (Features.prepare_features df2 timeframe2) in
  (min_samples_for timeframe1 <= nrows X1)%nat ->
  (min_samples_for timeframe2 <= nrows X2)%nat ->
  firstn (split_index (nrows X1)) (values X1)
  = firstn (split_index (nrows X2)) (values X2) ->
  let f1 := stage df1 timeframe1 in
  let after1 := fst (train self1 df1 symbol1 timeframe1) in
  let after2 := fst (train self2 df2 symbol2 timeframe2) in
  (returned (snd (train self1 df1 symbol1 timeframe1)) ->
   scalers _ after1 !! model_key symbol1 timeframe1
   = Some (StandardScaler.fit (firstn (split_index (nrows X1)) (values X1)))
   /\ (returned (snd (train self2 df2 symbol2 timeframe2)) ->
       scalers _ after2 !! model_key symbol2 timeframe2
       = scalers _ after1 !! model_key symbol1 timeframe1)
   /\ models _ after1 !! model_key symbol1 timeframe1
      = Some (fit (choose_estimator timeframe1) (X_train_scaled _ f1)
                  (y_values (y_train _ f1))))
  /\ X_train_scaled _ f1
     = StandardScaler.transform
         (StandardScaler.fit (values (X_train _ f1))) (values (X_train _ f1))
  /\ X_test_scaled _ f1
     = StandardScaler.transform
         (StandardScaler.fit (values (X_train _ f1))) (values (X_test _ f1))
  /\ (forall e, snd (train self1 df1 symbol1 timeframe1) = Raised e ->
      e = Py.ValueError /\ after1 = self1).
Proof.
  intros X1 X2 H1 H2 Heq f1 after1 after2.
  subst after1 after2.
  split; [| split; [reflexivity | split; [reflexivity |]]].
  - destruct (train_model_above_floor self1 df1 symbol1 timeframe1 H1)
      as [[_ E1] | (_ & _ & E1)].
    { rewrite E1. intros []. }
    intros _. rewrite E1. cbn [scalers models].
    rewrite !lookup_insert_eq.
    split; [reflexivity |]. split; [| reflexivity].
    destruct (train_model_above_floor self2 df2 symbol2 timeframe2 H2)
      as [[_ E2] | (_ & _ & E2)].
    { rewrite E2. intros []. }
    intros _. rewrite E2. cbn [scalers]. rewrite lookup_insert_eq.
    change (scaler _ (stage df2 timeframe2))
      with (StandardScaler.fit (firstn (split_index (nrows X2)) (values X2))).
    change (scaler _ (stage df1 timeframe1))
      with (StandardScaler.fit (firstn (split_index (nrows X1)) (values X1))).
    now rewrite Heq.
  - intros e He.
    destruct (train_model_above_floor self1 df1 symbol1 timeframe1 H1)
      as [[_ E1] | (_ & R & _)].
    + rewrite E1 in He |- *. cbn in He. injection He as <-. now split.
    + rewrite He in R. destruct R.
Qed.

(** C10. The dates that a completed training returns are read from the
    raw dataset's index at positions [split_idx .. split_idx + len(test)),
    while the actual and predicted values paired with them belong to the
    test rows of the feature table; when the dates increase strictly and
    feature engineering drops the first raw row, every returned date is
    strictly earlier than the date of the test row it is paired with.
    (The first raw row is in fact dropped for every dataset.) *)
Theorem prediction_dates_lag (self self' : Predictor Model) (df : DataFrame)
    (symbol timeframe : string)
    (preds acts : list float) (dates : list Z) (ub lb : list float)
    (m : EvalMetrics) (cols : list string) :
  train self df symbol timeframe
  = (self', Trained preds acts dates ub lb m cols) ->
  let X := fst (Features.prepare_features df timeframe) in
  let k := split_index (nrows X) in
  let f := stage df timeframe in
  dates = Py.slice (df_index df) (Some (Z.of_nat k))
                   (Some (Z.of_nat k + Z.of_nat (length (y_values (y_test _ f)))))
  /\ preds = y_pred _ f
  /\ acts = y_values (y_test _ f)
  /\ y_index (y_test _ f) = skipn k (index X)
  /\ (StronglySorted Z.lt (df_index df) ->
      ~ In 0%nat (Features.kept_rows df timeframe) ->
      Forall2 Z.lt dates (y_index (y_test _ f)))
  /\ ~ In 0%nat (Features.kept_rows df timeframe).
Proof.
  intros Htrain X k f.
  assert (HF : StronglySorted Z.lt (df_index df) ->
               ~ In 0%nat (Features.kept_rows df timeframe) ->
               Forall2 Z.lt
                 (Py.slice (df_index df) (Some (Z.of_nat k))
                    (Some (Z.of_nat k
                           + Z.of_nat (length (y_values (y_test _ f))))))
                 (y_index (y_test _ f))).
  { intros Hd H0.
    change (y_index (y_test _ f))
      with (skipn k (map (fun t => nth t (df_index df) 0)
                         (Features.kept_rows df timeframe))).
    replace (length (y_values (y_test Model f)))
      with (length (Features.kept_rows df timeframe) - k)%nat.
    - apply slice_lags; [exact Hd | apply kept_rows_sorted | | exact H0].
      unfold df_index. rewrite length_map. apply kept_rows_bound.
    - change (y_values (y_test Model f))
        with (skipn k
                (y_values (snd (Features.prepare_features df timeframe)))).
      rewrite length_skipn, y_values_length, nrows_kept. reflexivity. }
  destruct (train_model_trained_inv _ _ _ _ _ _ _ _ _ _ _ _ Htrain)
    as [Hge Hc].
  rewrite (train_model_sufficient_eq self df symbol timeframe Hge Hc)
    in Htrain.
  inversion Htrain; subst; clear Htrain.
  split; [reflexivity |]. split; [reflexivity |]. split; [reflexivity |].
  split; [reflexivity |]. split; [exact HF | apply first_row_dropped].
Qed.

End TrainerFacts.

(** ** ForecastGenerator *)

Section ItemFacts.

Context {A : Type}.

Lemma item_in_range (l : list A) (i : Z) :
  - Z.of_nat (length l) <= i < Z.of_nat (length l) ->
  exists a, Py.item l i = inr a.
Proof.
  intros Hi. unfold Py.item.
  set (j := if i <? 0 then i + Z.of_nat (length l) else i).
  assert (Hj : 0 <= j < Z.of_nat (length l)).
  { subst j. destruct (Z.ltb_spec i 0); lia. }
  destruct (Z.leb_spec 0 j); [| lia].
  destruct (Z.ltb_spec j (Z.of_nat (length l))); [| lia]. simpl.
  destruct (nth_error l (Z.to_nat j)) as [a |] eqn:E; [now exists a |].
  apply nth_error_None in E. lia.
Qed.

Lemma item_last (l : list A) :
  l <> [] -> exists a, Py.item l (-1) = inr a.
Proof.
  intros Hl. apply item_in_range.
  destruct l; [contradiction | simpl length; split; lia].
Qed.

(** [l[-1:]] of a non-empty list has one element. *)
Lemma slice_last_length (l : list A) :
  l <> [] -> length (Py.slice l (Some (-1)) None) = 1%nat.
Proof.
  intros Hl. unfold Py.slice, Py.clip. change (-1 <? 0) with true.
  cbv iota.
  rewrite length_firstn, length_skipn.
  destruct l; [contradiction | simpl length; lia].
Qed.

End ItemFacts.

Lemma range_one_to (n : Z) : map (fun i => i + 1) (range n) = one_to n.
Proof.
  unfold range, one_to. rewrite map_map, <- seq_shift, map_map.
  apply map_ext. intros; lia.
Qed.

Lemma sorted_affine (base step : Z) (a n : nat) :
  0 < step ->
  StronglySorted Z.lt
    (map (fun i => base + i * step) (map Z.of_nat (seq a n))).
Proof.
  intros Hs. revert a. induction n as [| n IH]; intro a; simpl; constructor.
  - apply IH.
  - apply List.Forall_forall. intros d Hd.
    rewrite map_map in Hd. apply in_map_iff in Hd.
    destruct Hd as [u [<- Hu]]. apply in_seq in Hu. nia.
Qed.

Lemma schedules_ok :
  schedule_ok (schedule 30 30) = true
  /\ schedule_ok (schedule 180 26) = true
  /\ schedule_ok (schedule 365 52) = true
  /\ schedule_ok (schedule 1825 60) = true.
Proof. repeat split; vm_compute; reflexivity. Qed.

Lemma horizon_cases (timeframe : string) (total : Z) :
  Py.lookup TIMEFRAME_DAYS timeframe = Some total ->
  (timeframe = "1M" /\ total = 30) \/ (timeframe = "6M" /\ total = 180)
  \/ (timeframe = "1Y" /\ total = 365) \/ (timeframe = "5Y" /\ total = 1825).
Proof.
  unfold TIMEFRAME_DAYS. simpl.
  destruct (String.eqb_spec timeframe "1M"); [intros [= <-]; auto |].
  destruct (String.eqb_spec timeframe "6M"); [intros [= <-]; auto |].
  destruct (String.eqb_spec timeframe "1Y"); [intros [= <-]; auto |].
  destruct (String.eqb_spec timeframe "5Y"); [intros [= <-]; auto 6 |].
  discriminate.
Qed.

Section ForecastFacts.

Context {Model : Type}.
Variable fit : Estimator -> Matrix -> list float -> Model.
Variable predict_row : Model -> list float -> float.
Variable feature_importances : Model -> list float.
Variable allow_nan : Estimator -> bool.

Local Abbreviation forecast :=
  (predict_future Model fit predict_row feature_importances
     allow_nan).
Local Abbreviation point := (forecast_point Model predict_row allow_nan).
Local Abbreviation ensure :=
  (ensure_trained Model fit predict_row feature_importances
     allow_nan).

Lemma for_each_Forall2 {A} (body : Z -> Py.result A) (l : list Z)
    (r : list A) :
  for_each body l = inr r -> Forall2 (fun i a => body i = inr a) l r.
Proof.
  revert r. induction l as [| i l IH]; simpl; intros r H.
  - injection H as <-. constructor.
  - unfold Py.bind in H.
    destruct (body i) as [e | a] eqn:Ea; [discriminate |].
    destruct (for_each body l) as [e | r'] eqn:Er; [discriminate |].
    injection H as <-. constructor; [exact Ea | now apply IH].
Qed.

Lemma for_each_total {A} (body : Z -> Py.result A) (l : list Z) :
  (forall i, In i l -> exists a, body i = inr a) ->
  exists r, for_each body l = inr r.
Proof.
  induction l as [| i l IH]; simpl; intros H; [now exists [] |].
  destruct (H i (or_introl eq_refl)) as [a Ea].
  destruct IH as [r Er]; [intros; apply H; now right |].
  exists (a :: r). unfold Py.bind. now rewrite Ea, Er.
Qed.

(** What one iteration of the loop writes into the point. *)
Lemma forecast_point_fields (df : DataFrame) (timeframe : string)
    (m : Model) (lfs : Matrix) (total step last : Z) (price vol : float)
    (i : Z) (p : ForecastPoint) :
  point df timeframe m lfs total step last price vol i = inr p ->
  daysAhead p = (i + 1) * step
  /\ date p = last + daysAhead p
  /\ confidence p = confidence_score (daysAhead p) total.
Proof.
  unfold forecast_point, Py.bind, Py.ret.
  destruct (check_X allow_nan _ lfs); [discriminate |].
  destruct (Py.item (predict Model predict_row m lfs) 0); [discriminate |].
  destruct (Py.mem timeframe ["1Y"; "5Y"]).
  - destruct (Py.item (col Close df) (-1)); [discriminate |].
    destruct (Py.item (col Close df) _); [discriminate |].
    intros [= <-]. simpl. auto.
  - intros [= <-]. simpl. auto.
Qed.

Lemma forecast_point_ok (df : DataFrame) (timeframe : string)
    (m : Model) (lfs : Matrix) (total step last : Z) (price vol : float)
    (i : Z) :
  df <> [] -> length lfs = 1%nat ->
  check_X allow_nan (choose_estimator timeframe) lfs = inr tt ->
  exists p, point df timeframe m lfs total step last price vol i = inr p.
Proof using Type.
  clear fit feature_importances. intros Hdf Hl Hc.
  unfold forecast_point, Py.bind, Py.ret. rewrite Hc.
  destruct (item_in_range (predict Model predict_row m lfs) 0) as [b ->].
  { unfold predict. rewrite length_map, Hl. lia. }
  assert (Hcl : col Close df <> [])
    by (destruct df; [contradiction | discriminate]).
  destruct (Py.mem timeframe ["1Y"; "5Y"]); [| eauto].
  destruct (item_last _ Hcl) as [a ->].
  destruct (item_in_range (col Close df)
              (- Z.min 90 (Z.of_nat (length df) / 2))) as [b' ->]; [| eauto].
  unfold col. rewrite length_map.
  assert (0 <= Z.of_nat (length df) / 2 <= Z.of_nat (length df))
    by (Z.div_mod_to_equations; lia).
  destruct df; [contradiction | simpl length in *; lia].
Qed.

End ForecastFacts.

Section ForecastTheorems.

Context {Model : Type}.
Variable fit : Estimator -> Matrix -> list float -> Model.
Variable predict_row : Model -> list float -> float.
Variable feature_importances : Model -> list float.
Variable allow_nan : Estimator -> bool.

Local Abbreviation forecast :=
  (predict_future Model fit predict_row feature_importances
     allow_nan).
Local Abbreviation ensure :=
  (ensure_trained Model fit predict_row feature_importances
     allow_nan).
Local Abbreviation stage := (fit_stage Model fit predict_row).
Local Abbreviation point := (forecast_point Model predict_row allow_nan).

Lemma predict_future_inr (self self' : Predictor Model) (df : DataFrame)
    (symbol timeframe : string) (pts : list ForecastPoint) :
  forecast self df symbol timeframe = (self', inr pts) ->
  pts = []
  \/ exists total last,
      Py.lookup TIMEFRAME_DAYS timeframe = Some total
      /\ Py.item (df_index df) (-1) = inr last
      /\ Forall2 (point_of timeframe total last)
                 (range (get_prediction_points timeframe)) pts.
Proof.
  unfold predict_future, Py.bind, Py.ret, Py.getitem.
  destruct (ensure self df symbol timeframe) as [s1 [e | []]];
    [discriminate |].
  destruct (models Model _ !! _) as [m |]; [| intros [= _ <-]; now left].
  destruct (scalers Model _ !! _) as [sc |]; [| discriminate].
  destruct (Features.prepare_features df timeframe) as [X y].
  destruct (nrows X =? 0)%nat; [intros [= _ <-]; now left |].
  destruct (Sklearn.scaler_check_transform sc _); [discriminate |].
  destruct (Py.lookup TIMEFRAME_DAYS timeframe) as [total |]; [| discriminate].
  destruct (Py.item (df_index df) (-1)) as [| last]; [discriminate |].
  destruct (Py.item (col Close df) (-1)) as [| price]; [discriminate |].
  intros [= _ H]. right. exists total, last. repeat split.
  apply for_each_Forall2 in H.
  eapply Forall2_impl; [exact H |].
  intros i p Hp. apply forecast_point_fields in Hp. exact Hp.
Qed.

Lemma Forall2_In_r {A B} (R : A -> B -> Prop) (l1 : list A) (l2 : list B) :
  Forall2 R l1 l2 -> forall b, In b l2 -> exists a, In a l1 /\ R a b.
Proof.
  induction 1 as [| a b l1 l2 Hab H IH]; simpl; intros c Hc;
    [contradiction |].
  destruct Hc as [<- | Hc]; [exists a; auto |].
  destruct (IH c Hc) as (a' & Ha' & HR). exists a'. auto.
Qed.

Lemma Forall2_map_eq {A B C} (f : A -> C) (g : B -> C)
    (l1 : list A) (l2 : list B) :
  Forall2 (fun a b => g b = f a) l1 l2 -> map g l2 = map f l1.
Proof. induction 1; simpl; congruence. Qed.

Lemma points_schedule (timeframe : string) (total last : Z)
    (pts : list ForecastPoint) :
  Forall2 (point_of timeframe total last)
          (range (get_prediction_points timeframe)) pts ->
  map (fun p => (daysAhead p, confidence p)) pts
  = schedule total (get_prediction_points timeframe)
  /\ map daysAhead pts
     = map (fun i => i * (total / get_prediction_points timeframe))
           (one_to (get_prediction_points timeframe))
  /\ map date pts
     = map (fun i => last + i * (total / get_prediction_points timeframe))
           (one_to (get_prediction_points timeframe)).
Proof.
  intros H. unfold schedule. rewrite <- range_one_to, !map_map.
  repeat split; apply Forall2_map_eq;
    (eapply Forall2_impl; [exact H |]);
    intros i p (Hd & Hdate & Hc); cbv beta zeta;
    rewrite ?Hdate, ?Hc, ?Hd; reflexivity.
Qed.

Lemma schedule_ok_of (timeframe : string) (total : Z) :
  Py.lookup TIMEFRAME_DAYS timeframe = Some total ->
  schedule_ok (schedule total (get_prediction_points timeframe)) = true.
Proof.
  intros H. destruct schedules_ok as (H1 & H2 & H3 & H4).
  destruct (horizon_cases _ _ H) as [[-> ->] | [[-> ->] | [[-> ->] | [-> ->]]]];
    assumption.
Qed.

(** C2. Every point that [predict_future] produces carries the
    confidence [max(0, 100 - (daysAhead / total_days) * 50)] of its
    horizon; within one run the confidence does not increase with
    [daysAhead], every point (the first and the last included) has a
    confidence between 50 and 100, hence at least 0, and at
    [daysAhead = total_days] the formula gives exactly 50. *)
Theorem confidence_decay (self self' : Predictor Model) (df : DataFrame)
    (symbol timeframe : string) (pts : list ForecastPoint) :
  forecast self df symbol timeframe = (self', inr pts) ->
  (forall p, In p pts ->
     exists total,
       Py.lookup TIMEFRAME_DAYS timeframe = Some total
       /\ confidence p
          = Num.max0
              (PrimFloat.sub 100%float
                 (PrimFloat.mul
                    (PrimFloat.div (Num.of_Z (daysAhead p)) (Num.of_Z total))
                    50%float)))
  /\ (forall p q, In p pts -> In q pts -> daysAhead p <= daysAhead q ->
        Num.le (confidence q) (confidence p) = true)
  /\ (forall p, In p pts ->
        Num.le (confidence p) 100%float = true
        /\ Num.le 50%float (confidence p) = true
        /\ Num.le 0%float (confidence p) = true)
  /\ Forall (fun row => confidence_score (snd row) (snd row) = 50%float)
            TIMEFRAME_DAYS.
Proof.
  intros H. apply predict_future_inr in H.
  assert (Hhor : Forall (fun row : string * Z =>
                           confidence_score (snd row) (snd row) = 50%float)
                        TIMEFRAME_DAYS)
    by (repeat constructor).
  destruct H as [-> | (total & last & Ht & _ & H)].
  { repeat split; try contradiction. exact Hhor. }
  pose proof (schedule_ok_of _ _ Ht) as Hok.
  destruct (points_schedule _ _ _ _ H) as (Hs & _ & _).
  unfold schedule_ok in Hok. rewrite forallb_forall in Hok.
  assert (Hin : forall p, In p pts ->
                 In (daysAhead p, confidence p)
                    (schedule total (get_prediction_points timeframe))).
  { intros p Hp. rewrite <- Hs.
    apply (in_map (fun p => (daysAhead p, confidence p))), Hp. }
  repeat split.
  - intros p Hp. exists total. split; [exact Ht |].
    destruct (Forall2_In_r _ _ _ H p Hp) as (i & _ & (_ & _ & Hc)).
    exact Hc.
  - intros p q Hp Hq Hle.
    specialize (Hok _ (Hin p Hp)).
    rewrite !andb_true_iff, forallb_forall in Hok.
    destruct Hok as (_ & Hall). specialize (Hall _ (Hin q Hq)).
    simpl in Hall. destruct (Z.leb_spec (daysAhead p) (daysAhead q));
      [exact Hall | lia].
  - specialize (Hok _ (Hin p H0)).
    rewrite !andb_true_iff in Hok. tauto.
  - specialize (Hok _ (Hin p H0)).
    rewrite !andb_true_iff in Hok. tauto.
  - specialize (Hok _ (Hin p H0)).
    rewrite !andb_true_iff in Hok. tauto.
  - exact Hhor.
Qed.

Lemma horizon_table_facts (timeframe : string) (points total : Z) :
  In (timeframe, (points, total)) horizon_table ->
  Py.lookup TIMEFRAME_DAYS timeframe = Some total
  /\ get_prediction_points timeframe = points
  /\ 0 < total / points.
Proof.
  simpl. intros [E | [E | [E | [E | []]]]]; inversion E; subst;
    repeat split.
Qed.

Lemma prediction_points_pos (timeframe : string) :
  0 < get_prediction_points timeframe.
Proof.
  unfold get_prediction_points, Py.get, prediction_points. simpl.
  repeat match goal with |- context [if ?b then _ else _] => destruct b end;
    lia.
Qed.

Lemma range_pos (n : Z) :
  0 < n -> exists l, range n = 0 :: l.
Proof.
  intros H. unfold range.
  destruct (Z.to_nat n) as [| k] eqn:E; [lia |].
  simpl. eauto.
Qed.

Lemma check_X_error (est : Estimator) (X : Matrix) (e : Py.exn) :
  check_X allow_nan est X = inl e -> e = Py.ValueError.
Proof. apply check_array_error. Qed.

(** A forecast from a cached model and scaler and a feature table that
    is not empty: the scaler and the model validate the last feature row,
    then every point is produced. *)
Lemma predict_future_cached (self : Predictor Model) (df : DataFrame)
    (symbol timeframe : string) (m : Model) (sc : StandardScaler.t)
    (total : Z) :
  models _ self !! model_key symbol timeframe = Some m ->
  scalers _ self !! model_key symbol timeframe = Some sc ->
  nrows (fst (Features.prepare_features df timeframe)) <> 0%nat ->
  Py.lookup TIMEFRAME_DAYS timeframe = Some total ->
  exists last,
    Py.item (df_index df) (-1) = inr last
    /\ match last_row_checks allow_nan timeframe sc
               (fst (Features.prepare_features df timeframe)) with
       | inl _ =>
           forecast self df symbol timeframe = (self, inl Py.ValueError)
       | inr _ =>
           exists pts lfs price vol,
             forecast self df symbol timeframe = (self, inr pts)
             /\ Forall2 (fun i p =>
                           point df timeframe m lfs total
                                 (total / get_prediction_points timeframe)
                                 last price vol i = inr p)
                        (range (get_prediction_points timeframe)) pts
       end.
Proof.
  intros Hm Hsc HX Hlook.
  assert (Hdf : df <> []).
  { intros ->. apply HX.
    pose proof (nrows_le_len [] timeframe) as Hle.
    apply Nat.le_0_r in Hle. exact Hle. }
  assert (Hidx : df_index df <> [])
    by (destruct df; [contradiction | discriminate]).
  assert (Hcl : col Close df <> [])
    by (destruct df; [contradiction | discriminate]).
  destruct (item_last _ Hidx) as [last Hlast].
  destruct (item_last _ Hcl) as [price Hprice].
  exists last. split; [exact Hlast |].
  assert (Hens : ensure self df symbol timeframe = (self, inr tt))
    by (unfold ensure_trained; now rewrite Hm).
  unfold predict_future, last_row_checks. rewrite Hens, Hm, Hsc.
  destruct (Features.prepare_features df timeframe) as [X y].
  cbn [fst] in HX |- *.
  destruct (Nat.eqb_spec (nrows X) 0); [contradiction |].
  unfold Py.bind, Py.ret, Py.getitem. rewrite Hlook, Hlast, Hprice.
  destruct (Sklearn.scaler_check_transform sc _) as [e | []] eqn:Es.
  { apply scaler_check_transform_error in Es. now subst e. }
  destruct (check_X allow_nan _ _) as [e | []] eqn:Ec.
  - destruct (range_pos _ (prediction_points_pos timeframe)) as [l ->].
    cbn [for_each]. unfold forecast_point at 1, Py.bind. rewrite Ec.
    apply check_X_error in Ec. now subst e.
  - match goal with
    | |- context [for_each ?body ?l] =>
        destruct (for_each_total body l) as [pts Hpts_eq]
    end.
    { intros i _. apply forecast_point_ok; [exact Hdf | | exact Ec].
      unfold StandardScaler.transform. rewrite length_map.
      apply slice_last_length. unfold nrows in n.
      destruct (values X); [contradiction | discriminate]. }
    exists pts,
      (StandardScaler.transform sc (Py.slice (values X) (Some (-1)) None)),
      price, (Pandas.std (Pandas.pct_change 1 (col Close df))).
    rewrite Hpts_eq. split; [reflexivity |].
    apply for_each_Forall2 in Hpts_eq. exact Hpts_eq.
Qed.


End ForecastTheorems.

(** ** Timeframe strings outside the four horizons *)

Lemma invalid_timeframe_eqb (timeframe : string) :
  Py.mem timeframe valid_timeframes = false ->
  String.eqb timeframe "1M" = false /\ String.eqb timeframe "6M" = false
  /\ String.eqb timeframe "1Y" = false /\ String.eqb timeframe "5Y" = false.
Proof.
  unfold Py.mem, valid_timeframes. simpl.
  rewrite !orb_false_iff. tauto.
Qed.

Lemma features_df_default (df : DataFrame) (timeframe : string) :
  Py.mem timeframe valid_timeframes = false ->
  Features.features_df df timeframe = Features.features_df df "1M".
Proof.
  intros H. destruct (invalid_timeframe_eqb _ H) as (E1 & E2 & E3 & E4).
  assert (W : Features.windows timeframe = Features.windows "1M").
  { unfold Features.windows. now rewrite E4, E3, E2. }
  assert (T : Features.target_shift timeframe = Features.target_shift "1M").
  { unfold Features.target_shift, Py.get. simpl. now rewrite E1, E2, E3, E4. }
  unfold Features.features_df, Features.add_moving_averages,
    Features.ma_periods, Features.momentum_period, Features.vol_window.
  now rewrite W, T.
Qed.

Section EndpointFacts.

Context {Model : Type}.
Variable fit : Estimator -> Matrix -> list float -> Model.
Variable predict_row : Model -> list float -> float.
Variable feature_importances : Model -> list float.
Variable allow_nan : Estimator -> bool.
Variable is_available : bool.
Variable get_stock_data : string -> string -> option DataFrame.

Local Abbreviation endpoint :=
  (predict_live_stock Model fit predict_row feature_importances
                      allow_nan is_available get_stock_data).

Lemma response_follows_policy (self self' : Predictor Model)
    (symbol timeframe : string) (resp : Response) :
  endpoint self symbol timeframe = (self', inr resp) ->
  (r_recommendation resp, r_confidence resp)
  = recommend (r_trend resp) (r2 (r_modelMetrics resp)).
Proof.
  unfold predict_live_stock, guard. intros H.
  repeat case_match; simplify_eq. simpl.
  match goal with E : recommend _ _ = _ |- _ => now rewrite E end.
Qed.


(** C8 (as the code has it). The endpoint checks the timeframe first:
    a string outside 1M, 6M, 1Y, 5Y is answered with status 400, the
    predictor untouched and no data fetched.  The methods of the
    predictor do not check it: for such a string the feature table and
    the trend are those of 1M, the sample floor is 50, the number of
    points is 30, and the price targets are 10, 20 and 30 percent. *)
Theorem invalid_timeframe_handling (self : Predictor Model)
    (symbol timeframe : string) (df : DataFrame)
    (current_price : float) (trend : string) :
  Py.mem timeframe valid_timeframes = false ->
  endpoint self symbol timeframe
  = (self, inl (HTTP 400 (Text "Timeframe must be 1M, 6M, 1Y, or 5Y")))
  /\ Features.prepare_features df timeframe
     = Features.prepare_features df "1M"
  /\ min_samples_for timeframe = 50%nat
  /\ get_prediction_points timeframe = 30
  /\ analyze_trend df timeframe = analyze_trend df "1M"
  /\ (let t := get_price_targets current_price timeframe trend in
      conservative t
      = PrimFloat.mul current_price
          (PrimFloat.add 1%float (adjust_for_trend trend 0.10%float))
      /\ moderate t
         = PrimFloat.mul current_price
             (PrimFloat.add 1%float (adjust_for_trend trend 0.20%float))
      /\ aggressive t
         = PrimFloat.mul current_price
             (PrimFloat.add 1%float (adjust_for_trend trend 0.30%float))).
Proof.
  intros H. destruct (invalid_timeframe_eqb _ H) as (E1 & E2 & E3 & E4).
  split; [unfold predict_live_stock; now rewrite H |].
  split.
  { unfold Features.prepare_features, Features.kept_rows.
    now rewrite (features_df_default df timeframe H). }
  split; [unfold min_samples_for, Py.get; simpl; now rewrite E1, E2, E3, E4 |].
  split; [unfold get_prediction_points, Py.get; simpl;
          now rewrite E1, E2, E3, E4 |].
  split.
  { unfold analyze_trend, trend_period. now rewrite E4, E3, E2. }
  unfold get_price_targets, Py.get. simpl. rewrite E1, E2, E3, E4.
  repeat split.
Qed.

End EndpointFacts.

(** * Runs on the sample data *)

Lemma increasingb_sorted (l : list Z) :
  increasingb l = true -> StronglySorted Z.lt l.
Proof.
  intros H. apply Sorted_StronglySorted; [exact Z.lt_strorder.(StrictOrder_Transitive) |].
  induction l as [| a r IH]; [constructor |].
  simpl in H. destruct r as [| b r'].
  - repeat constructor.
  - apply andb_true_iff in H. destruct H as [Hab Hr].
    constructor; [apply IH, Hr |]. constructor. now apply Z.ltb_lt.
Qed.

Lemma sample_dates_sorted : StronglySorted Z.lt (df_index (Sample.df 60)).
Proof. apply increasingb_sorted. vm_compute. reflexivity. Qed.

(** Ten rows asked for a one-year model: the result is the
    insufficient-data record and nothing is cached. *)
Lemma train_model_insufficient_data_run :
  (nrows (fst (Features.prepare_features (Sample.df 10) "1Y")) < 100)%nat
  /\ snd (Sample.train Sample.empty (Sample.df 10) "X" "1Y")
     = TrainError
         "Insufficient data for 1Y training. Need at least 100 samples, got 0"
         zero_metrics
  /\ fst (Sample.train Sample.empty (Sample.df 10) "X" "1Y")
     = Sample.empty.
Proof.
  assert (Hrows : (nrows (fst (Features.prepare_features (Sample.df 10) "1Y"))
                   < 100)%nat)
    by (apply Nat.ltb_lt; vm_compute; reflexivity).
  split; [exact Hrows |].
  destruct (train_model_insufficient_data
              Sample.fit Sample.predict_row Sample.feature_importances Sample.allow_nan
              Sample.empty (Sample.df 10) "X" "1Y" 100%nat
              (or_intror (or_intror (or_introl eq_refl))) Hrows)
    as (E & S & _).
  split; [| exact S].
  rewrite E. vm_compute. reflexivity.
Defined.


(** Two datasets that differ from row 52 on: the training rows of their
    feature tables coincide, and so do the fitted scalers. *)
Lemma scaler_fitted_on_training_slice_run :
  let X1 := fst (Features.prepare_features (Sample.df 60) "1M") in
  let X2 := fst (Features.prepare_features (Sample.df_alt 60) "1M") in
  firstn (split_index (nrows X1)) (values X1)
  = firstn (split_index (nrows X2)) (values X2)
  /\ scalers _ (fst (Sample.train Sample.empty
                                        (Sample.df_alt 60) "Y" "1M"))
       !! model_key "Y" "1M"
     = scalers _ (fst (Sample.train Sample.empty
                                          (Sample.df 60) "X" "1M"))
         !! model_key "X" "1M".
Proof.
  intros X1 X2.
  assert (H1 : (min_samples_for "1M" <= nrows X1)%nat)
    by (apply Nat.leb_le; vm_compute; reflexivity).
  assert (H2 : (min_samples_for "1M" <= nrows X2)%nat)
    by (apply Nat.leb_le; vm_compute; reflexivity).
  assert (Heq : firstn (split_index (nrows X1)) (values X1)
                = firstn (split_index (nrows X2)) (values X2))
    by (vm_compute; reflexivity).
  assert (R1 : returned (snd (Sample.train Sample.empty
                                            (Sample.df 60) "X" "1M")))
    by (vm_compute; exact I).
  assert (R2 : returned (snd (Sample.train Sample.empty
                                            (Sample.df_alt 60) "Y" "1M")))
    by (vm_compute; exact I).
  split; [exact Heq |].
  destruct (scaler_fitted_on_training_slice
              Sample.fit Sample.predict_row Sample.feature_importances
              Sample.allow_nan Sample.empty Sample.empty
              (Sample.df 60) (Sample.df_alt 60) "X" "Y" "1M" "1M"
              H1 H2 Heq) as (E & _).
  destruct (E R1) as (_ & E2 & _).
  exact (E2 R2).
Defined.

(** On the sample, the eight returned dates are 738032 .. 738039 while
    the test rows are those of 738051 .. 738058. *)
Lemma prediction_dates_lag_run :
  exists self' preds acts dates ub lb m cols,
    Sample.train Sample.empty (Sample.df 60) "X" "1M"
    = (self', Trained preds acts dates ub lb m cols)
    /\ dates = [738032; 738033; 738034; 738035; 738036; 738037; 738038; 738039]
    /\ Forall2 Z.lt dates
         (y_index
            (y_test _ (fit_stage Sample.Model Sample.fit Sample.predict_row
                                 (Sample.df 60) "1M"))).
Proof.
  assert (Hok : match snd (Sample.train Sample.empty
                                             (Sample.df 60) "X" "1M") with
                | Trained _ _ _ _ _ _ _ => True
                | _ => False
                end) by (vm_compute; exact I).
  destruct (Sample.train Sample.empty (Sample.df 60) "X" "1M")
    as [self' [e m | preds acts dates ub lb m cols | e]] eqn:E.
  - contradiction.
  - exists self', preds, acts, dates, ub, lb, m, cols.
    split; [reflexivity |].
    destruct (prediction_dates_lag
                Sample.fit Sample.predict_row Sample.feature_importances Sample.allow_nan
                _ _ _ _ _ _ _ _ _ _ _ _ E) as (Hd & _ & _ & _ & Hlag & H0).
    split.
    + rewrite Hd. vm_compute. reflexivity.
    + apply Hlag; [exact sample_dates_sorted | exact H0].
  - contradiction.
Defined.



(** A first forecast (the model is trained on the way) of the sample. *)
Lemma confidence_decay_run :
  exists self' pts,
    Sample.forecast Sample.empty (Sample.df 60) "X" "1M" = (self', inr pts)
    /\ length pts = 30%nat
    /\ (forall p q, In p pts -> In q pts -> daysAhead p <= daysAhead q ->
          Num.le (confidence q) (confidence p) = true)
    /\ (forall p, In p pts ->
          Num.le (confidence p) 100%float = true
          /\ Num.le 50%float (confidence p) = true
          /\ Num.le 0%float (confidence p) = true).
Proof.
  assert (Hok : match snd (Sample.forecast Sample.empty (Sample.df 60)
                                           "X" "1M") with
                | inr l => length l = 30%nat
                | inl _ => False
                end) by (vm_compute; reflexivity).
  destruct (Sample.forecast Sample.empty (Sample.df 60) "X" "1M")
    as [self' [e | pts]] eqn:E.
  - contradiction.
  - exists self', pts. split; [reflexivity |]. split; [exact Hok |].
    destruct (confidence_decay
                Sample.fit Sample.predict_row Sample.feature_importances Sample.allow_nan
                _ _ _ _ _ _ E) as (_ & Hmono & Hbounds & _).
    split; assumption.
Defined.


(** The string "2Y" at the endpoint and at the engine. *)
Lemma invalid_timeframe_handling_run :
  Sample.live Sample.empty "X" "2Y"
  = (Sample.empty, inl (HTTP 400 (Text "Timeframe must be 1M, 6M, 1Y, or 5Y")))
  /\ min_samples_for "2Y" = 50%nat
  /\ get_prediction_points "2Y" = 30.
Proof.
  destruct (invalid_timeframe_handling
              Sample.fit Sample.predict_row Sample.feature_importances Sample.allow_nan
              true Sample.get_stock_data Sample.empty "X" "2Y"
              (Sample.df 60) 100%float "Bullish" eq_refl)
    as (E & _ & F & P & _).
  repeat split; assumption.
Defined.

(** Called directly with "2Y", the trainer does not refuse: on 80 rows it
    completes a training (with the 1M windows and the default floor of
    50). *)
Lemma invalid_timeframe_trains :
  ~ (forall (timeframe : string) (df : DataFrame),
        Py.mem timeframe valid_timeframes = false ->
        exists e m,
          snd (Sample.train Sample.empty df "X" timeframe) = TrainError e m).
Proof.
  intros H.
  destruct (H "2Y" (Sample.df 80) eq_refl) as (e & m & E).
  assert (Hok : match snd (Sample.train Sample.empty (Sample.df 80) "X" "2Y") with
                | Trained _ _ _ _ _ _ _ => True
                | _ => False
                end) by (vm_compute; exact I).
  rewrite E in Hok. exact Hok.
Qed.

(** * Further properties of the engine *)

(** ** The feature table *)

Lemma lookup_set_col_same (name : string) (s : Pandas.Series) (cols : Columns) :
  Py.lookup (set_col name s cols) name = Some s.
Proof.
  induction cols as [| [n c] cols IH]; simpl.
  - now rewrite String.eqb_refl.
  - destruct (String.eqb n name) eqn:E; simpl.
    + now rewrite String.eqb_sym, E.
    + now rewrite String.eqb_sym, E.
Qed.

Lemma target_column (df : DataFrame) (timeframe : string) :
  get_col "target" (Features.features_df df timeframe)
  = Pandas.shift (- Features.target_shift timeframe) (col Close df).
Proof.
  unfold Features.features_df. cbv zeta.
  unfold get_col, Py.get. now rewrite lookup_set_col_same.
Qed.

Lemma target_in_features (df : DataFrame) (timeframe : string) :
  In ("target"%string,
      Pandas.shift (- Features.target_shift timeframe) (col Close df))
     (Features.features_df df timeframe).
Proof. unfold Features.features_df. cbv zeta. apply set_col_new. Qed.

Lemma kept_row_complete (df : DataFrame) (timeframe : string) (t : nat) :
  In t (Features.kept_rows df timeframe) ->
  Features.row_complete (Features.features_df df timeframe) t = true.
Proof. intros H. apply filter_In in H. tauto. Qed.

Lemma feature_columns_not_excluded (df : DataFrame) (timeframe : string) :
  Forall (fun name => ~ In name ["target"; "Open"; "High"; "Low"; "Close";
                                 "Volume"]%string)
         (columns (fst (Features.prepare_features df timeframe))).
Proof.
  apply List.Forall_forall. intros name Hname.
  apply in_map_iff in Hname. destruct Hname as ([n c] & <- & Hc).
  apply filter_In in Hc. destruct Hc as [_ Hc].
  apply negb_true_iff in Hc. cbn [fst] in Hc. intros Hin.
  assert (Hm : Py.mem n Features.excluded = true).
  { unfold Py.mem. apply existsb_exists. exists n.
    split; [exact Hin | apply String.eqb_refl]. }
  congruence.
Qed.

(** X1. The table that [prepare_features] returns is well formed: [X] and
    [y] have the same number of rows and the same index, every row of [X]
    has one value per feature column, no value of [X] or [y] is missing,
    and no feature column is a raw price or volume column or the
    target. *)
Theorem prepare_features_well_formed (df : DataFrame) (timeframe : string) :
  let X := fst (Features.prepare_features df timeframe) in
  let y := snd (Features.prepare_features df timeframe) in
  length (y_values y) = nrows X
  /\ length (index X) = nrows X
  /\ y_index y = index X
  /\ Forall (fun row => length row = length (columns X)
                        /\ Forall (fun v => Pandas.isna v = false) row)
            (values X)
  /\ Forall (fun v => Pandas.isna v = false) (y_values y)
  /\ Forall (fun name => ~ In name ["target"; "Open"; "High"; "Low"; "Close";
                                    "Volume"]%string)
            (columns X).
Proof.
  intros X y.
  split; [apply y_values_length |].
  split; [apply index_length |].
  split; [reflexivity |].
  split; [| split].
  - apply List.Forall_forall. intros row Hrow.
    apply in_map_iff in Hrow. destruct Hrow as (t & <- & Ht).
    split.
    { change (columns X)
        with (map fst (Features.feature_cols
                         (Features.features_df df timeframe))).
      now rewrite !length_map. }
    apply List.Forall_forall. intros v Hv.
    apply in_map_iff in Hv. destruct Hv as ([n c] & <- & Hc).
    apply filter_In in Hc. destruct Hc as [Hc _].
    exact (row_complete_in _ _ _ _ (kept_row_complete _ _ _ Ht) Hc).
  - apply List.Forall_forall. intros v Hv.
    apply in_map_iff in Hv. destruct Hv as (t & <- & Ht).
    rewrite target_column.
    exact (row_complete_in _ _ _ _ (kept_row_complete _ _ _ Ht)
                           (target_in_features df timeframe)).
  - apply feature_columns_not_excluded.
Qed.

(** Which rows can survive: a 20-row window is never full before row 19,
    and the target is missing on the last [target_shift] rows. *)
Lemma at_map_seq (f : nat -> float) (n t : nat) :
  Pandas.at_ (map f (seq 0 n)) t = if (t <? n)%nat then f t else Pandas.nan.
Proof.
  unfold Pandas.at_. destruct (Nat.ltb_spec t n).
  - rewrite (nth_map_default f (seq 0 n) t 0%nat) by (rewrite length_seq; lia).
    now rewrite seq_nth by lia.
  - apply nth_overflow. rewrite length_map, length_seq. lia.
Qed.

Lemma rolling_head_missing (agg : list float -> float) (w : nat)
    (s : Pandas.Series) (t : nat) :
  (t + 1 < w)%nat ->
  Pandas.isna (Pandas.at_ (Pandas.rolling agg w s) t) = true.
Proof.
  intros H. unfold Pandas.rolling, Pandas.positions. rewrite at_map_seq.
  destruct (t <? length s)%nat; [| reflexivity].
  destruct (Nat.ltb_spec (t + 1) w); [reflexivity | lia].
Qed.

Lemma shift_tail_missing (k : Z) (s : Pandas.Series) (t : nat) :
  0 < k -> Z.of_nat (length s) <= Z.of_nat t + k ->
  Pandas.isna (Pandas.at_ (Pandas.shift (- k) s) t) = true.
Proof.
  intros Hk H. unfold Pandas.shift, Pandas.positions. rewrite at_map_seq.
  destruct (t <? length s)%nat; [| reflexivity]. cbv zeta.
  destruct (Z.ltb_spec (Z.of_nat t - - k) (Z.of_nat (length s))); [lia |].
  now rewrite andb_false_r.
Qed.

Lemma add_lags_old (df : DataFrame) (cols : Columns) (n : string)
    (c : Pandas.Series) :
  In (n, c) cols ->
  (forall i, String.eqb n ("close_lag_" ++ Py.str_of_nat i) = false) ->
  (forall i, String.eqb n ("return_lag_" ++ Py.str_of_nat i) = false) ->
  In (n, c) (Features.add_lags df cols).
Proof.
  intros Hin Hc Hr. unfold Features.add_lags.
  generalize (seq 1 (Features.lag_days df)). intros l. revert cols Hin.
  induction l as [| i l IH]; intros cols Hin; simpl; [exact Hin |].
  apply IH. apply set_col_old; [| apply Hr]. apply set_col_old; [| apply Hc].
  exact Hin.
Qed.

Ltac column_survives :=
  unfold Features.features_df; cbv zeta;
  apply set_col_old; [| reflexivity];
  apply add_lags_old; [| intros; reflexivity | intros; reflexivity];
  repeat (apply set_col_old; [| reflexivity]).

Lemma bb_middle_in_features (df : DataFrame) (timeframe : string) :
  In ("bb_middle"%string, Pandas.rolling_mean 20 (col Close df))
     (Features.features_df df timeframe).
Proof. column_survives. apply set_col_new. Qed.

Lemma target_shift_cases (timeframe : string) :
  (timeframe = "1M"%string /\ Features.target_shift timeframe = 1)
  \/ (timeframe = "6M"%string /\ Features.target_shift timeframe = 6)
  \/ (timeframe = "1Y"%string /\ Features.target_shift timeframe = 12)
  \/ (timeframe = "5Y"%string /\ Features.target_shift timeframe = 60)
  \/ (Py.mem timeframe valid_timeframes = false
      /\ Features.target_shift timeframe = 1).
Proof.
  unfold Features.target_shift, Py.get, TIMEFRAME_DAYS, Py.mem.
  simpl.
  destruct (String.eqb_spec timeframe "1M"); [now left |].
  destruct (String.eqb_spec timeframe "6M"); [right; now left |].
  destruct (String.eqb_spec timeframe "1Y"); [right; right; now left |].
  destruct (String.eqb_spec timeframe "5Y");
    [right; right; right; now left |].
  right; right; right; right. now split.
Qed.

Lemma target_shift_pos (timeframe : string) :
  1 <= Features.target_shift timeframe.
Proof.
  destruct (target_shift_cases timeframe)
    as [[_ ->] | [[_ ->] | [[_ ->] | [[_ ->] | [_ ->]]]]]; lia.
Qed.

Lemma kept_rows_range (df : DataFrame) (timeframe : string) (t : nat) :
  In t (Features.kept_rows df timeframe) ->
  (19 <= t)%nat
  /\ Z.of_nat t + Features.target_shift timeframe < Z.of_nat (length df).
Proof.
  intros Ht. pose proof (kept_row_complete _ _ _ Ht) as Hrc.
  pose proof (target_shift_pos timeframe) as Hk.
  split.
  - destruct (Nat.lt_ge_cases t 19) as [Hlt | Hge]; [| exact Hge].
    pose proof (row_complete_in _ _ _ _ Hrc (bb_middle_in_features df timeframe))
      as Hna.
    unfold Pandas.rolling_mean in Hna.
    rewrite rolling_head_missing in Hna by lia. discriminate.
  - destruct (Z.lt_ge_cases (Z.of_nat t + Features.target_shift timeframe)
                            (Z.of_nat (length df))) as [Hlt | Hge];
      [exact Hlt |].
    pose proof (row_complete_in _ _ _ _ Hrc (target_in_features df timeframe))
      as Hna.
    rewrite shift_tail_missing in Hna; [discriminate | lia |].
    unfold col. rewrite length_map. lia.
Qed.

(** A strictly increasing list of positions that all lie in [lo, hi) has
    at most [hi - lo] elements. *)
Lemma sorted_range_length (l : list nat) (lo hi : nat) :
  StronglySorted lt l ->
  Forall (fun t => (lo <= t < hi)%nat) l ->
  l = [] \/ (length l + lo <= hi)%nat.
Proof.
  intros Hs Hr. destruct l as [| a l']; [now left | right].
  set (l := a :: l') in *.
  assert (Hlen : (0 < length l)%nat) by (simpl; lia).
  assert (Hlo : Forall (fun x => (lo <= x)%nat) l).
  { apply List.Forall_forall. intros x Hx.
    rewrite List.Forall_forall in Hr. specialize (Hr x Hx). lia. }
  pose proof (sorted_nat_nth_lower l Hs lo (length l - 1)%nat Hlo) as Hn.
  rewrite List.Forall_forall in Hr.
  assert (Hin : In (nth (length l - 1) l 0%nat) l) by (apply nth_In; lia).
  specialize (Hr _ Hin). lia.
Qed.

(** X2. Whatever the timeframe string, a row survives [dropna] only from
    row 19 on (the 20-row Bollinger window) and not on the last
    [target_shift] rows (1, 6, 12 or 60; 1 for an unknown string): the
    feature table is empty, or it has at most
    [len(df) - 19 - target_shift] rows. *)
Theorem feature_rows_bound (df : DataFrame) (timeframe : string) :
  let X := fst (Features.prepare_features df timeframe) in
  (nrows X = 0%nat
   \/ Z.of_nat (nrows X) + 19 + Features.target_shift timeframe
      <= Z.of_nat (length df))
  /\ Forall (fun d => exists t, (19 <= t)%nat
                      /\ Z.of_nat t + Features.target_shift timeframe
                         < Z.of_nat (length df)
                      /\ nth_error (df_index df) t = Some d)
            (index X)
  /\ 1 <= Features.target_shift timeframe.
Proof.
  intros X. pose proof (target_shift_pos timeframe) as Hk.
  split; [| split; [| exact Hk]].
  - unfold X. rewrite nrows_kept.
    destruct (sorted_range_length (Features.kept_rows df timeframe) 19
                (Z.to_nat (Z.of_nat (length df)
                           - Features.target_shift timeframe)))
      as [-> | H].
    + apply kept_rows_sorted.
    + apply List.Forall_forall. intros t Ht.
      apply kept_rows_range in Ht. lia.
    + now left.
    + right. destruct (Features.kept_rows df timeframe) as [| a l] eqn:E;
        [simpl in *; lia |].
      assert (Ha : In a (Features.kept_rows df timeframe))
        by (rewrite E; now left).
      apply kept_rows_range in Ha. simpl length in *. lia.
  - apply List.Forall_forall. intros d Hd.
    apply in_map_iff in Hd. destruct Hd as (t & <- & Ht).
    exists t. pose proof (kept_rows_range _ _ _ Ht) as [H1 H2].
    split; [exact H1 |]. split; [exact H2 |].
    apply nth_error_nth'. unfold df_index. rewrite length_map. lia.
Qed.

(** ** How many rows a training needs *)

Lemma longest_ma_in_features (df : DataFrame) (timeframe : string) (p : nat) :
  In (timeframe, p) longest_window -> (p <= length df)%nat ->
  In (("ma" ++ Py.str_of_nat p)%string, Pandas.rolling_mean p (col Close df))
     (Features.features_df df timeframe).
Proof.
  intros Hin Hp. apply Nat.leb_le in Hp.
  destruct Hin as [[= <- <-] | [[= <- <-] | [[= <- <-] | [[= <- <-] | []]]]];
    column_survives;
    unfold Features.add_moving_averages;
    match goal with
    | |- context [Features.ma_periods ?tf] =>
        let l := eval vm_compute in (Features.ma_periods tf) in
        change (Features.ma_periods tf) with l
    end;
    cbn [fold_left]; rewrite Hp; apply set_col_new.
Qed.

Lemma kept_rows_after_window (df : DataFrame) (timeframe : string)
    (p t : nat) :
  In (timeframe, p) longest_window -> (p <= length df)%nat ->
  In t (Features.kept_rows df timeframe) -> (p - 1 <= t)%nat.
Proof.
  intros Hin Hp Ht. pose proof (kept_row_complete _ _ _ Ht) as Hrc.
  destruct (Nat.lt_ge_cases t (p - 1)) as [Hlt | Hge]; [| exact Hge].
  pose proof (row_complete_in _ _ _ _ Hrc
                (longest_ma_in_features df timeframe p Hin Hp)) as Hna.
  unfold Pandas.rolling_mean in Hna.
  rewrite rolling_head_missing in Hna by lia. discriminate.
Qed.

Lemma rows_needed_facts (timeframe : string) (m : nat) :
  In (timeframe, m) rows_needed ->
  exists p, In (timeframe, p) longest_window
            /\ (p <= min_samples_for timeframe)%nat
            /\ (1 <= p)%nat
            /\ Z.of_nat m
               = Z.of_nat (min_samples_for timeframe) + (Z.of_nat p - 1)
                 + Features.target_shift timeframe.
Proof.
  intros [[= <- <-] | [[= <- <-] | [[= <- <-] | [[= <- <-] | []]]]];
    [exists 20%nat | exists 50%nat | exists 100%nat | exists 200%nat];
    (split; [unfold longest_window; simpl; tauto |]);
    (split; [apply Nat.leb_le; reflexivity |]);
    (split; [lia | reflexivity]).
Qed.

Lemma too_few_rows (df : DataFrame) (timeframe : string) (m : nat) :
  In (timeframe, m) rows_needed -> (length df < m)%nat ->
  (nrows (fst (Features.prepare_features df timeframe))
   < min_samples_for timeframe)%nat.
Proof.
  intros Hin Hlen.
  destruct (rows_needed_facts _ _ Hin) as (p & Hp & Hfloor & Hp1 & Hm).
  pose proof (nrows_le_len df timeframe) as Hle.
  destruct (Nat.le_gt_cases p (length df)) as [Hpl | Hpl]; [| lia].
  rewrite nrows_kept in *.
  destruct (sorted_range_length (Features.kept_rows df timeframe) (p - 1)
              (Z.to_nat (Z.of_nat (length df)
                         - Features.target_shift timeframe)))
    as [E | H].
  - apply kept_rows_sorted.
  - apply List.Forall_forall. intros t Ht.
    pose proof (kept_rows_after_window _ _ _ _ Hp Hpl Ht).
    apply kept_rows_range in Ht. lia.
  - rewrite E. simpl. lia.
  - pose proof (target_shift_pos timeframe). lia.
Qed.

(** The cache key [f"{symbol}_{timeframe}"] determines the pair when the
    timeframes have the same length, as the four horizons do. *)
Lemma string_length_app (a b : string) :
  String.length (a ++ b) = (String.length a + String.length b)%nat.
Proof. induction a as [| c a IH]; simpl; [reflexivity | now rewrite IH]. Qed.

Lemma string_app_inj (a1 a2 b1 b2 : string) :
  String.length a1 = String.length a2 ->
  (a1 ++ b1 = a2 ++ b2)%string -> a1 = a2 /\ b1 = b2.
Proof.
  revert a2. induction a1 as [| c a1 IH]; intros [| c2 a2] Hl H;
    simpl in *; try discriminate; [now split |].
  injection H as -> H. injection Hl as Hl.
  destruct (IH _ Hl H) as [-> ->]. now split.
Qed.

Lemma model_key_inj (s1 t1 s2 t2 : string) :
  String.length t1 = String.length t2 ->
  model_key s1 t1 = model_key s2 t2 -> s1 = s2 /\ t1 = t2.
Proof.
  unfold model_key. intros Hl H.
  assert (Hs : String.length s1 = String.length s2).
  { apply (f_equal String.length) in H.
    rewrite !string_length_app in H. lia. }
  destruct (string_app_inj _ _ _ _ Hs H) as [-> H'].
  split; [reflexivity |]. now injection H'.
Qed.

Lemma valid_timeframe_length (timeframe : string) :
  Py.mem timeframe valid_timeframes = true -> String.length timeframe = 2%nat.
Proof.
  unfold Py.mem, valid_timeframes. simpl. rewrite !orb_true_iff.
  intros [H | [H | [H | [H | H]]]]; try discriminate;
    apply String.eqb_eq in H; now subst.
Qed.

(** The ranking of the feature importances (line 199). *)
Lemma gt_asym (x y : float) : Num.gt x y = true -> Num.gt y x = false.
Proof.
  unfold Num.gt. rewrite !FloatAxioms.ltb_spec. unfold SFltb.
  rewrite (SFcompare_swap (Prim2SF y) (Prim2SF x)).
  destruct (SFcompare (Prim2SF y) (Prim2SF x)) as [[ | | ] | ];
    simpl; congruence.
Qed.

Lemma insert_desc_perm (x : string * float) (l : list (string * float)) :
  Permutation (insert_desc x l) (x :: l).
Proof.
  induction l as [| y l IH]; simpl; [reflexivity |].
  destruct (Num.gt (snd y) (snd x)); [| reflexivity].
  rewrite IH. apply perm_swap.
Qed.

Lemma sort_desc_perm (l : list (string * float)) :
  Permutation (sort_desc l) l.
Proof.
  induction l as [| x l IH]; simpl; [reflexivity |].
  rewrite insert_desc_perm. now constructor.
Qed.

Lemma insert_desc_sorted (x : string * float) (l : list (string * float)) :
  Sorted ranked l -> Sorted ranked (insert_desc x l).
Proof.
  induction l as [| y l IH]; intros Hs; simpl.
  - repeat constructor.
  - destruct (Num.gt (snd y) (snd x)) eqn:E.
    + inversion Hs as [| ? ? Hl Hhd]; subst.
      constructor; [now apply IH |].
      destruct l as [| z l']; simpl.
      * constructor. now apply gt_asym.
      * destruct (Num.gt (snd z) (snd x)).
        -- constructor. now inversion Hhd.
        -- constructor. now apply gt_asym.
    + constructor; [exact Hs | now constructor].
Qed.

Lemma sort_desc_sorted (l : list (string * float)) :
  Sorted ranked (sort_desc l).
Proof.
  induction l as [| x l IH]; simpl; [constructor |].
  now apply insert_desc_sorted.
Qed.

Section TrainerBounds.

Context {Model : Type}.
Variable fit : Estimator -> Matrix -> list float -> Model.
Variable predict_row : Model -> list float -> float.
Variable feature_importances : Model -> list float.
Variable allow_nan : Estimator -> bool.

Local Abbreviation train :=
  (train_model Model fit predict_row feature_importances
     allow_nan).
Local Abbreviation stage := (fit_stage Model fit predict_row).
Local Abbreviation checks := (fit_checks Model fit predict_row allow_nan).

Lemma check_array_allow (allow : bool) (bad : float -> bool) (X : Matrix) :
  Sklearn.check_array false bad X = inr tt ->
  Sklearn.check_array allow bad X = inr tt.
Proof.
  unfold Sklearn.check_array, Py.ret.
  destruct (_ || _); [discriminate |].
  destruct (Sklearn.any bad X); [discriminate |].
  cbn [negb andb]. destruct (Sklearn.any Pandas.isna X); [discriminate |].
  now rewrite andb_false_r.
Qed.

Lemma check_vector_finite (y : list float) :
  y <> [] -> Forall (fun v => is_finite v = true) y ->
  Sklearn.check_vector y = inr tt.
Proof.
  intros Hy Hf. unfold Sklearn.check_vector.
  destruct y as [| a y]; [contradiction |]. cbn [length Nat.eqb].
  destruct (existsb _ _) eqn:E; [| reflexivity].
  apply existsb_exists in E. destruct E as (v & Hv & Hbad).
  rewrite List.Forall_forall in Hf. specialize (Hf v Hv).
  unfold is_finite in Hf. rewrite Hbad in Hf. discriminate.
Qed.

Lemma data_checks_eq (df : DataFrame) (timeframe : string) :
  data_checks df timeframe
  = (let f := stage df timeframe in
     check! Sklearn.scaler_check_fit (values (X_train _ f)) in
     check! Sklearn.scaler_check_transform (scaler _ f)
              (values (X_test _ f)) in
     check! Sklearn.check_array false Sklearn.float32_inf
              (X_train_scaled _ f) in
     check! Sklearn.check_vector (y_values (y_train _ f)) in
     check! Sklearn.check_array false Sklearn.float32_inf
              (X_test_scaled _ f) in
     Sklearn.check_vector (y_values (y_test _ f))).
Proof. reflexivity. Qed.

Lemma y_pred_length (df : DataFrame) (timeframe : string) :
  length (y_pred _ (stage df timeframe))
  = length (values (X_test _ (stage df timeframe))).
Proof.
  destruct (fit_stage_slices fit predict_row df timeframe)
    as (_ & _ & _ & _ & _ & _ & HXs & _ & Hp).
  rewrite Hp. unfold predict. rewrite length_map, HXs.
  unfold StandardScaler.transform. now rewrite length_map.
Qed.

(** The data pass and the predictions are finite: the training passes. *)
Lemma fit_checks_of_data (df : DataFrame) (timeframe : string) :
  data_checks df timeframe = inr tt ->
  Forall (fun v => is_finite v = true) (y_pred _ (stage df timeframe)) ->
  checks df timeframe = inr tt.
Proof.
  intros Hd Hp. rewrite data_checks_eq in Hd. revert Hd.
  unfold fit_checks, check_X, Sklearn.check_reg_targets, Py.bind. cbv zeta.
  destruct (Sklearn.scaler_check_fit _) as [? | []]; [discriminate |].
  destruct (Sklearn.scaler_check_transform _ _) as [? | []] eqn:Et;
    [discriminate |].
  destruct (Sklearn.check_array false _ (X_train_scaled _ _))
    as [? | []] eqn:E1; [discriminate |].
  rewrite (check_array_allow _ _ _ E1).
  destruct (Sklearn.check_vector (y_values (y_train _ _))) as [? | []];
    [discriminate |].
  destruct (Sklearn.check_array false _ (X_test_scaled _ _))
    as [? | []] eqn:E2; [discriminate |].
  rewrite (check_array_allow _ _ _ E2).
  intros ->. apply check_vector_finite; [| exact Hp].
  intros Hnil. apply (f_equal (@length float)) in Hnil.
  rewrite y_pred_length in Hnil. revert Et.
  unfold Sklearn.scaler_check_transform, Sklearn.check_array, Py.bind.
  cbn [length] in Hnil. rewrite Hnil. discriminate.
Qed.

(** X3. The number of raw rows a training needs is exactly 50 (1M),
    115 (6M), 211 (1Y) and 459 (5Y).  With fewer rows [train_model]
    answers with the insufficient-data error, whatever the prices, and
    leaves the predictor as it was; and there is a dataset of exactly that
    many rows that is not refused: the training is carried out on it as
    soon as the predictions of the fitted model on the test rows are
    finite numbers. *)
Theorem train_model_needs_rows (self : Predictor Model)
    (symbol timeframe : string) (m : nat) :
  In (timeframe, m) rows_needed ->
  (forall df : DataFrame,
     (length df < m)%nat ->
     exists got,
       (got < min_samples_for timeframe)%nat
       /\ train self df symbol timeframe
          = (self,
             TrainError
               (insufficient_message timeframe (min_samples_for timeframe) got)
               zero_metrics))
  /\ (exists df : DataFrame,
        length df = m
        /\ (forall error metrics,
              snd (train self df symbol timeframe)
              <> TrainError error metrics)
        /\ (Forall (fun v => is_finite v = true)
                   (y_pred _ (stage df timeframe)) ->
            exists self' predictions actuals dates upper lower metrics cols,
              train self df symbol timeframe
              = (self', Trained predictions actuals dates upper lower
                                metrics cols))).
Proof.
  intros Hin. split.
  - intros df Hlen.
    exists (nrows (fst (Features.prepare_features df timeframe))).
    split; [now apply too_few_rows with m |].
    apply train_model_insufficient_eq. now apply too_few_rows with m.
  - exists (Sample.df m).
    split; [unfold Sample.df; now rewrite length_map, length_seq |].
    assert (Hge : (min_samples_for timeframe
                   <= nrows (fst (Features.prepare_features
                                    (Sample.df m) timeframe)))%nat).
    { apply Nat.leb_le.
      destruct Hin as [[= <- <-] | [[= <- <-] | [[= <- <-] | [[= <- <-] | []]]]];
        vm_compute; reflexivity. }
    assert (Hd : data_checks (Sample.df m) timeframe = inr tt).
    { destruct Hin as [[= <- <-] | [[= <- <-] | [[= <- <-] | [[= <- <-] | []]]]];
        vm_compute; reflexivity. }
    split.
    + intros error metrics.
      destruct (train_model_outcomes fit predict_row feature_importances
                  allow_nan self (Sample.df m) symbol timeframe)
        as [[Hlt _] | [(_ & _ & ->) | (_ & _ & H)]];
        [lia | discriminate |].
      destruct H as (p & a & d & u & l & mt & c & ->). discriminate.
    + intros Hfin.
      rewrite train_model_sufficient_eq;
        [do 8 eexists; reflexivity | exact Hge |].
      now apply fit_checks_of_data.
Qed.

(** *** What a training changes *)

Lemma train_model_trained (self self' : Predictor Model) (df : DataFrame)
    (symbol timeframe : string) predictions actuals dates upper lower
    metrics cols :
  train self df symbol timeframe
  = (self', Trained predictions actuals dates upper lower metrics cols) ->
  (min_samples_for timeframe
   <= nrows (fst (Features.prepare_features df timeframe)))%nat
  /\ checks df timeframe = inr tt.
Proof. apply train_model_trained_inv. Qed.

Lemma train_model_other_key (self : Predictor Model) (df : DataFrame)
    (symbol timeframe : string) (k : string) :
  k <> model_key symbol timeframe ->
  let self' := fst (train self df symbol timeframe) in
  models _ self' !! k = models _ self !! k
  /\ scalers _ self' !! k = scalers _ self !! k
  /\ feature_importance _ self' !! k = feature_importance _ self !! k.
Proof.
  intros Hk self'. subst self'.
  destruct (train_model_outcomes fit predict_row feature_importances
              allow_nan self df symbol timeframe)
    as [[_ ->] | [(_ & _ & ->) | (_ & _ & H)]];
    [now cbn [fst] | now cbn [fst] |].
  destruct H as (p & a & d & u & l & m & c & ->).
  cbn [fst models scalers feature_importance].
  now rewrite !lookup_insert_ne by congruence.
Qed.

(** X4. The caches are keyed by [symbol_timeframe], and for the four
    horizons two different (symbol, timeframe) pairs never share a key:
    training one pair leaves the model, the scaler and the feature
    importances cached for every other pair exactly as they were. *)
Theorem train_model_keeps_other_models (self : Predictor Model)
    (df : DataFrame) (symbol timeframe symbol' timeframe' : string) :
  Py.mem timeframe valid_timeframes = true ->
  Py.mem timeframe' valid_timeframes = true ->
  (symbol, timeframe) <> (symbol', timeframe') ->
  let self' := fst (train self df symbol timeframe) in
  let key' := model_key symbol' timeframe' in
  model_key symbol timeframe <> key'
  /\ models _ self' !! key' = models _ self !! key'
  /\ scalers _ self' !! key' = scalers _ self !! key'
  /\ feature_importance _ self' !! key' = feature_importance _ self !! key'.
Proof.
  intros Hv Hv' Hne self' key'.
  assert (Hk : model_key symbol timeframe <> key').
  { intros E. apply model_key_inj in E.
    - destruct E as [-> ->]. now apply Hne.
    - rewrite (valid_timeframe_length _ Hv), (valid_timeframe_length _ Hv').
      reflexivity. }
  split; [exact Hk |].
  apply train_model_other_key. congruence.
Qed.

(** X5. The lists of a successful training result are aligned: the
    predictions, the actual values, the dates and both bounds all have
    the length of the test slice, [len(X) - int(0.8 * len(X))], and the
    feature columns are those of the feature table. *)
Theorem training_result_aligned (self self' : Predictor Model)
    (df : DataFrame) (symbol timeframe : string)
    predictions actuals dates upper lower metrics cols :
  train self df symbol timeframe
  = (self', Trained predictions actuals dates upper lower metrics cols) ->
  let X := fst (Features.prepare_features df timeframe) in
  let n_test := (nrows X - split_index (nrows X))%nat in
  length predictions = n_test /\ length actuals = n_test
  /\ length dates = n_test /\ length upper = n_test
  /\ length lower = n_test /\ cols = columns X
  /\ ~ In "target"%string cols.
Proof.
  intros H X n_test.
  destruct (train_model_trained _ _ _ _ _ _ _ _ _ _ _ _ H) as [Hge Hc].
  rewrite train_model_sufficient_eq in H by assumption.
  destruct (fit_stage_slices fit predict_row df timeframe)
    as (_ & HXt & _ & Hyt & _ & _ & HXs & _ & Hp).
  assert (Hact : length (y_values (y_test _ (fit_stage Model fit predict_row
                                               df timeframe))) = n_test).
  { rewrite Hyt. unfold target_drop. cbn [y_values].
    rewrite length_skipn, y_values_length. reflexivity. }
  assert (Hpred : length (y_pred _ (fit_stage Model fit predict_row
                                      df timeframe)) = n_test).
  { rewrite Hp. unfold predict. rewrite length_map, HXs.
    unfold StandardScaler.transform. rewrite length_map, HXt.
    unfold frame_drop. cbn [values]. rewrite length_skipn. reflexivity. }
  assert (Hdates :
            length (Py.slice (df_index df)
                      (Some (Z.of_nat (split_index (nrows X))))
                      (Some (Z.of_nat (split_index (nrows X))
                             + Z.of_nat n_test))) = n_test).
  { pose proof (nrows_le_len df timeframe) as Hle. fold X in Hle.
    unfold Py.slice, Py.clip.
    rewrite length_firstn, length_skipn.
    unfold df_index. rewrite length_map.
    repeat match goal with
           | |- context [?a <? 0] => destruct (Z.ltb_spec a 0)
           end; lia. }
  assert (Hcols : ~ In "target"%string (columns X)).
  { intros Hin.
    pose proof (feature_columns_not_excluded df timeframe) as Hex.
    rewrite List.Forall_forall in Hex. apply (Hex _ Hin). now left. }
  rewrite Hact in H.
  change (fst (Features.prepare_features df timeframe)) with X in H.
  clear HXt Hyt HXs Hp.
  set (f := fit_stage Model fit predict_row df timeframe) in *.
  clearbody f. clearbody X.
  injection H as _ <- <- <- <- <- _ <-.
  rewrite !length_map. tauto.
Qed.

(** X6. After a successful training the cache holds, under the key of
    the pair, the fitted model and the ranking of its feature
    importances: a rearrangement of the (column, importance) pairs in
    which no entry is followed by one of strictly greater importance. *)
Theorem feature_importance_ranking (self self' : Predictor Model)
    (df : DataFrame) (symbol timeframe : string)
    predictions actuals dates upper lower metrics cols :
  train self df symbol timeframe
  = (self', Trained predictions actuals dates upper lower metrics cols) ->
  exists mdl ranking,
    models _ self' !! model_key symbol timeframe = Some mdl
    /\ feature_importance _ self' !! model_key symbol timeframe = Some ranking
    /\ Permutation ranking (combine cols (feature_importances mdl))
    /\ Sorted ranked ranking
    /\ (length ranking <= length cols)%nat.
Proof.
  intros H.
  destruct (train_model_trained _ _ _ _ _ _ _ _ _ _ _ _ H) as [Hge Hc].
  rewrite train_model_sufficient_eq in H by assumption. clear Hc.
  set (f := fit_stage Model fit predict_row df timeframe) in *.
  set (X := fst (Features.prepare_features df timeframe)) in *.
  clearbody f. clearbody X.
  injection H as <- _ _ _ _ _ _ <-.
  exists (model _ f),
    (sort_desc (combine (columns X) (feature_importances (model _ f)))).
  cbn [models feature_importance].
  rewrite !lookup_insert_eq.
  split; [reflexivity |]. split; [reflexivity |].
  split; [apply sort_desc_perm |]. split; [apply sort_desc_sorted |].
  rewrite (Permutation_length (sort_desc_perm _)), length_combine. lia.
Qed.

End TrainerBounds.

(** A run of X3: 49 rows are refused for the one-month horizon. *)
Lemma train_model_needs_rows_run :
  In ("1M"%string, 50%nat) rows_needed
  /\ (exists got,
        (got < min_samples_for "1M")%nat
        /\ Sample.train Sample.empty (Sample.df 49) "X" "1M"
           = (Sample.empty,
              TrainError (insufficient_message "1M" (min_samples_for "1M") got)
                         zero_metrics)).
Proof.
  assert (Hin : In ("1M"%string, 50%nat) rows_needed) by (now left).
  split; [exact Hin |].
  apply (train_model_needs_rows Sample.fit Sample.predict_row
           Sample.feature_importances Sample.allow_nan Sample.empty "X" "1M" 50 Hin).
  apply Nat.ltb_lt. reflexivity.
Defined.

(** A run of X4: training a second symbol keeps the first one's model. *)
Lemma train_model_keeps_other_models_run :
  let self' := fst (Sample.train Sample.trained (Sample.df 60) "Y" "1M") in
  model_key "Y" "1M" <> model_key "X" "1M"
  /\ models _ self' !! model_key "X" "1M"
     = models _ Sample.trained !! model_key "X" "1M".
Proof.
  intro self'.
  destruct (train_model_keeps_other_models
              Sample.fit Sample.predict_row
              Sample.feature_importances Sample.allow_nan
              Sample.trained (Sample.df 60) "Y" "1M" "X" "1M"
              eq_refl eq_refl)
    as (Hk & Hm & _).
  - discriminate.
  - split; [exact Hk | exact Hm].
Defined.

(** A run of X5 and X6: sixty rows, one-month model, eight test rows. *)
Lemma training_result_aligned_run :
  exists self' preds acts dates ub lb m cols,
    Sample.train Sample.empty (Sample.df 60) "X" "1M"
    = (self', Trained preds acts dates ub lb m cols)
    /\ length preds = 8%nat /\ length acts = 8%nat /\ length dates = 8%nat
    /\ length ub = 8%nat /\ length lb = 8%nat.
Proof.
  assert (Hok : match snd (Sample.train Sample.empty
                                             (Sample.df 60) "X" "1M") with
                | Trained _ _ _ _ _ _ _ => True
                | _ => False
                end) by (vm_compute; exact I).
  assert (Hn : (nrows (fst (Features.prepare_features (Sample.df 60) "1M"))
                - split_index
                    (nrows (fst (Features.prepare_features (Sample.df 60) "1M"))))%nat
               = 8%nat) by (vm_compute; reflexivity).
  destruct (Sample.train Sample.empty (Sample.df 60) "X" "1M")
    as [self' [e m | preds acts dates ub lb m cols | e]] eqn:E.
  - contradiction.
  - exists self', preds, acts, dates, ub, lb, m, cols.
    split; [reflexivity |].
    destruct (training_result_aligned
                Sample.fit Sample.predict_row
                Sample.feature_importances Sample.allow_nan
                _ _ _ _ _ _ _ _ _ _ _ _ E) as (H1 & H2 & H3 & H4 & H5 & _).
    rewrite Hn in H1, H2, H3, H4, H5. repeat split; assumption.
  - contradiction.
Defined.

Lemma feature_importance_ranking_run :
  exists self' preds acts dates ub lb m cols ranking,
    Sample.train Sample.empty (Sample.df 60) "X" "1M"
    = (self', Trained preds acts dates ub lb m cols)
    /\ feature_importance _ self' !! model_key "X" "1M" = Some ranking
    /\ Sorted ranked ranking.
Proof.
  assert (Hok : match snd (Sample.train Sample.empty
                                             (Sample.df 60) "X" "1M") with
                | Trained _ _ _ _ _ _ _ => True
                | _ => False
                end) by (vm_compute; exact I).
  destruct (Sample.train Sample.empty (Sample.df 60) "X" "1M")
    as [self' [e m | preds acts dates ub lb m cols | e]] eqn:E.
  - contradiction.
  - destruct (feature_importance_ranking
                Sample.fit Sample.predict_row
                Sample.feature_importances Sample.allow_nan
                _ _ _ _ _ _ _ _ _ _ _ _ E) as (mdl & ranking & _ & Hr & _ & Hs & _).
    exists self', preds, acts, dates, ub, lb, m, cols, ranking.
    split; [reflexivity |]. split; assumption.
  - contradiction.
Defined.

(** ** The last feature row *)

Lemma slice_last_snoc {A} (l : list A) (a : A) :
  Py.slice (l ++ [a]) (Some (-1)) None = [a].
Proof.
  unfold Py.slice, Py.clip. change (-1 <? 0) with true. cbv iota.
  rewrite length_app. cbn [length].
  assert (E1 : Z.to_nat (Z.max (-1 + Z.of_nat (length l + 1)) 0) = length l)
    by lia.
  assert (E2 : Z.to_nat (Z.of_nat (length l + 1)
                         - Z.max (-1 + Z.of_nat (length l + 1)) 0) = 1%nat)
    by lia.
  rewrite E1, E2, skipn_app, skipn_all, Nat.sub_diag. reflexivity.
Qed.

Lemma slice_last_of_skipn {A} (l : list A) (k : nat) :
  skipn k l <> [] ->
  exists a, Py.slice l (Some (-1)) None = [a] /\ In a (skipn k l).
Proof.
  intros H. destruct (exists_last H) as (q & a & E).
  exists a. split.
  - rewrite <- (firstn_skipn k l), E, app_assoc. apply slice_last_snoc.
  - rewrite E. apply in_or_app. right. now left.
Qed.

Lemma any_row (p : float -> bool) (X : Matrix) (r : list float) :
  Sklearn.any p X = false -> In r X -> existsb p r = false.
Proof.
  intros H Hr. destruct (existsb p r) eqn:E; [| reflexivity].
  rewrite <- H. symmetry. apply existsb_exists. exists r. now split.
Qed.

(** A row of an accepted matrix is accepted on its own. *)
Lemma check_array_row (allow : bool) (bad : float -> bool) (X : Matrix)
    (r : list float) :
  Sklearn.check_array allow bad X = inr tt -> In r X ->
  length r = StandardScaler.ncols X ->
  Sklearn.check_array allow bad [r] = inr tt.
Proof.
  unfold Sklearn.check_array, Py.ret. intros H Hr Hl.
  cbn [length StandardScaler.ncols Nat.eqb orb]. rewrite Hl.
  destruct (length X =? 0)%nat; [discriminate |]. cbn [orb] in H.
  destruct (StandardScaler.ncols X =? 0)%nat; [discriminate |].
  destruct (Sklearn.any bad X) eqn:Eb; [discriminate |].
  unfold Sklearn.any at 1. cbn [existsb].
  rewrite (any_row _ _ _ Eb Hr). cbn [orb].
  destruct allow; cbn [negb andb] in *; [reflexivity |].
  destruct (Sklearn.any Pandas.isna X) eqn:En; [discriminate |].
  unfold Sklearn.any. cbn [existsb]. now rewrite (any_row _ _ _ En Hr).
Qed.

Lemma scaler_check_transform_row (s : StandardScaler.t) (X : Matrix)
    (r : list float) :
  Sklearn.scaler_check_transform s X = inr tt -> In r X ->
  length r = StandardScaler.ncols X ->
  Sklearn.scaler_check_transform s [r] = inr tt.
Proof.
  unfold Sklearn.scaler_check_transform, Py.bind. intros H Hr Hl.
  destruct (Sklearn.check_array true Sklearn.is_inf X) as [e | []] eqn:E;
    [discriminate |].
  rewrite (check_array_row _ _ _ _ E Hr Hl).
  cbn [StandardScaler.ncols]. now rewrite Hl.
Qed.

Lemma ncols_uniform (w : nat) (X : Matrix) (r : list float) :
  Forall (fun row => length row = w) X -> In r X ->
  length r = w /\ StandardScaler.ncols X = w.
Proof.
  intros H Hr. rewrite List.Forall_forall in H. split; [now apply H |].
  destruct X as [| r0 X]; [contradiction |].
  cbn [StandardScaler.ncols]. apply H. now left.
Qed.

Lemma transform_row_length (s : StandardScaler.t) (r r' : list float) :
  length r = length r' ->
  length (StandardScaler.transform_row s r)
  = length (StandardScaler.transform_row s r').
Proof.
  intros H. unfold StandardScaler.transform_row, Num.zip_with.
  now rewrite !length_map, !length_combine, !length_map, !length_combine, H.
Qed.

(** The last row of a table whose rows from [k] on were accepted by the
    scaler and, once scaled, by the model. *)
Lemma last_row_validated (allow : bool) (s : StandardScaler.t) (L : Matrix)
    (k w : nat) :
  Forall (fun row => length row = w) L ->
  Sklearn.scaler_check_transform s (skipn k L) = inr tt ->
  Sklearn.check_array allow Sklearn.float32_inf
    (StandardScaler.transform s (skipn k L)) = inr tt ->
  Sklearn.scaler_check_transform s (Py.slice L (Some (-1)) None) = inr tt
  /\ Sklearn.check_array allow Sklearn.float32_inf
       (StandardScaler.transform s (Py.slice L (Some (-1)) None)) = inr tt.
Proof.
  intros Hw Ht Hx.
  assert (Hne : skipn k L <> []).
  { intros E. rewrite E in Ht. discriminate Ht. }
  destruct (slice_last_of_skipn L k Hne) as (r & -> & Hr).
  assert (Hw' : Forall (fun row => length row = w) (skipn k L)).
  { rewrite <- (firstn_skipn k L) in Hw. now apply Forall_app in Hw. }
  destruct (ncols_uniform w _ r Hw' Hr) as [Hlr Hnc].
  split.
  - apply (scaler_check_transform_row s (skipn k L)); [exact Ht | exact Hr |].
    now rewrite Hnc.
  - change (StandardScaler.transform s [r])
      with [StandardScaler.transform_row s r].
    apply (check_array_row allow _ (StandardScaler.transform s (skipn k L)));
      [exact Hx | now apply in_map |].
    destruct (skipn k L) as [| r0 M]; [contradiction |].
    cbn [StandardScaler.transform map StandardScaler.ncols].
    apply transform_row_length.
    rewrite Hlr. symmetry.
    rewrite List.Forall_forall in Hw'. apply Hw'. now left.
Qed.

Lemma feature_rows_width (df : DataFrame) (timeframe : string) :
  let X := fst (Features.prepare_features df timeframe) in
  Forall (fun row => length row = length (columns X)) (values X).
Proof.
  intros X. apply List.Forall_forall. intros row Hrow.
  apply in_map_iff in Hrow. destruct Hrow as (t & <- & Ht).
  change (columns X)
    with (map fst (Features.feature_cols
                     (Features.features_df df timeframe))).
  now rewrite !length_map.
Qed.

(** ** The caches of the predictor *)

Section CacheFacts.

Context {Model : Type}.
Variable fit : Estimator -> Matrix -> list float -> Model.
Variable predict_row : Model -> list float -> float.
Variable feature_importances : Model -> list float.
Variable allow_nan : Estimator -> bool.

Local Abbreviation train :=
  (train_model Model fit predict_row feature_importances
     allow_nan).
Local Abbreviation forecast :=
  (predict_future Model fit predict_row feature_importances
     allow_nan).
Local Abbreviation ensure :=
  (ensure_trained Model fit predict_row feature_importances
     allow_nan).
Local Abbreviation point := (forecast_point Model predict_row allow_nan).
Local Abbreviation stage := (fit_stage Model fit predict_row).
Local Abbreviation checks := (fit_checks Model fit predict_row allow_nan).

(** After a training that passed its validation, the last feature row
    is one of the test rows that the scaler and the model accepted. *)
Lemma last_row_after_training (df : DataFrame) (timeframe : string) :
  checks df timeframe = inr tt ->
  let X := fst (Features.prepare_features df timeframe) in
  let last_features := Py.slice (values X) (Some (-1)) None in
  Sklearn.scaler_check_transform (scaler _ (stage df timeframe))
                                 last_features = inr tt
  /\ check_X allow_nan (choose_estimator timeframe)
             (StandardScaler.transform (scaler _ (stage df timeframe))
                                       last_features) = inr tt.
Proof.
  intros Hc X last_features. subst last_features.
  destruct (fit_checks_inv fit predict_row allow_nan df timeframe Hc)
    as (_ & Ht & _ & _ & Hx & _).
  apply (last_row_validated _ _ (values X) (split_index (nrows X))
                            (length (columns X))).
  - apply feature_rows_width.
  - exact Ht.
  - exact Hx.
Qed.

Lemma last_row_checks_after_training (df : DataFrame) (timeframe : string) :
  checks df timeframe = inr tt ->
  last_row_checks allow_nan timeframe (scaler _ (stage df timeframe))
                  (fst (Features.prepare_features df timeframe)) = inr tt.
Proof.
  intros Hc. destruct (last_row_after_training df timeframe Hc) as [H1 H2].
  unfold last_row_checks, Py.bind. cbv zeta. now rewrite H1.
Qed.

Lemma train_model_fst_cases (self : Predictor Model) (df : DataFrame)
    (symbol timeframe : string) :
  let key := model_key symbol timeframe in
  fst (train self df symbol timeframe) = self
  \/ exists m sc imp,
      fst (train self df symbol timeframe)
      = {| models := <[key := m]> (models _ self);
           scalers := <[key := sc]> (scalers _ self);
           feature_importance :=
             <[key := imp]> (feature_importance _ self) |}.
Proof.
  intros key.
  destruct (train_model_outcomes fit predict_row feature_importances
              allow_nan self df symbol timeframe)
    as [[_ ->] | [(_ & _ & ->) | (_ & _ & H)]]; [now left | now left |].
  destruct H as (p & a & d & u & l & m & c & ->).
  right. do 3 eexists. reflexivity.
Qed.

Lemma train_model_agree (self : Predictor Model) (df : DataFrame)
    (symbol timeframe : string) :
  caches_agree self -> caches_agree (fst (train self df symbol timeframe)).
Proof.
  intros [H1 H2].
  destruct (train_model_fst_cases self df symbol timeframe)
    as [-> | (m & sc & imp & ->)]; [now split |].
  unfold caches_agree. cbn [models scalers feature_importance].
  rewrite !dom_insert_L, <- H1, <- H2. now split.
Qed.

Lemma ensure_trained_cached (self : Predictor Model) (df : DataFrame)
    (symbol timeframe : string) (m : Model) :
  models _ self !! model_key symbol timeframe = Some m ->
  ensure self df symbol timeframe = (self, inr tt).
Proof. intros H. unfold ensure_trained. now rewrite H. Qed.

Lemma ensure_trained_uncached (self : Predictor Model) (df : DataFrame)
    (symbol timeframe : string) :
  models _ self !! model_key symbol timeframe = None ->
  ensure self df symbol timeframe
  = (fst (train self df symbol timeframe),
     match snd (train self df symbol timeframe) with
     | Raised e => inl e
     | _ => inr tt
     end).
Proof.
  intros H. unfold ensure_trained. rewrite H.
  now destruct (train self df symbol timeframe) as [s r].
Qed.

Lemma predict_future_fst (self : Predictor Model) (df : DataFrame)
    (symbol timeframe : string) :
  fst (forecast self df symbol timeframe)
  = fst (ensure self df symbol timeframe).
Proof.
  unfold predict_future.
  destruct (ensure self df symbol timeframe) as [s [e | []]];
    [reflexivity |].
  now destruct (models _ s !! _).
Qed.

Lemma predict_future_agree (self : Predictor Model) (df : DataFrame)
    (symbol timeframe : string) :
  caches_agree self -> caches_agree (fst (forecast self df symbol timeframe)).
Proof.
  intros H. rewrite predict_future_fst.
  destruct (models _ self !! model_key symbol timeframe) as [m |] eqn:Hm.
  - now rewrite (ensure_trained_cached _ _ _ _ _ Hm).
  - rewrite (ensure_trained_uncached _ _ _ _ Hm). cbn [fst].
    now apply train_model_agree.
Qed.

Lemma predict_live_stock_fst (is_available : bool)
    (get_stock_data : string -> string -> option DataFrame)
    (self : Predictor Model) (symbol timeframe : string) :
  let self' := fst (predict_live_stock Model fit predict_row
                      feature_importances allow_nan is_available get_stock_data
                      self symbol timeframe) in
  self' = self
  \/ exists df, self' = fst (train self df symbol timeframe)
     \/ self' = fst (forecast (fst (train self df symbol timeframe))
                              df symbol timeframe).
Proof.
  unfold predict_live_stock.
  destruct (negb (Py.mem timeframe valid_timeframes)); [now left |].
  destruct (negb is_available); [now left |].
  destruct (guard _); [now left |].
  destruct (get_stock_data _ _) as [[| b df] |]; [now left | | now left].
  destruct (train self (b :: df) symbol timeframe) as [s1 r] eqn:E.
  destruct r as [e m | p a d u l m c | e].
  - right. exists (b :: df). left. now rewrite E.
  - destruct (forecast s1 (b :: df) symbol timeframe) as [s2 fut] eqn:F.
    right. exists (b :: df). right. rewrite E. cbn [fst]. now rewrite F.
  - right. exists (b :: df). left. now rewrite E.
Qed.

Lemma reachable_agree (self : Predictor Model) :
  reachable fit predict_row feature_importances allow_nan self -> caches_agree self.
Proof.
  induction 1 as [| self df symbol timeframe _ IH
                  | self df symbol timeframe _ IH
                  | av gsd self symbol timeframe _ IH].
  - split; reflexivity.
  - now apply train_model_agree.
  - now apply predict_future_agree.
  - destruct (predict_live_stock_fst av gsd self symbol timeframe)
      as [-> | [df [-> | ->]]].
    + exact IH.
    + now apply train_model_agree.
    + now apply predict_future_agree, train_model_agree.
Qed.

Lemma valid_timeframe_days (timeframe : string) :
  Py.mem timeframe valid_timeframes = true ->
  exists total, Py.lookup TIMEFRAME_DAYS timeframe = Some total.
Proof.
  unfold Py.mem, valid_timeframes. simpl. rewrite !orb_true_iff.
  intros [H | [H | [H | [H | H]]]]; try discriminate;
    apply String.eqb_eq in H; subst; eexists; reflexivity.
Qed.

Lemma invalid_timeframe_days (timeframe : string) :
  Py.mem timeframe valid_timeframes = false ->
  Py.lookup TIMEFRAME_DAYS timeframe = None.
Proof.
  intros H. destruct (invalid_timeframe_eqb _ H) as (E1 & E2 & E3 & E4).
  unfold TIMEFRAME_DAYS. simpl. now rewrite E1, E2, E3, E4.
Qed.

Lemma agree_scaler (self : Predictor Model) (k : string) :
  caches_agree self -> is_Some (models _ self !! k) ->
  is_Some (scalers _ self !! k).
Proof.
  intros [H _] Hm. apply elem_of_dom. rewrite <- H. now apply elem_of_dom.
Qed.

(** A forecast for a pair that is not cached: the training decides. *)
Lemma predict_future_uncached (self : Predictor Model) (df : DataFrame)
    (symbol timeframe : string) :
  models _ self !! model_key symbol timeframe = None ->
  forecast self df symbol timeframe
  = match snd (train self df symbol timeframe) with
    | TrainError _ _ => (self, inr [])
    | Raised e => (self, inl e)
    | Trained _ _ _ _ _ _ _ =>
        forecast (fst (train self df symbol timeframe)) df symbol timeframe
    end.
Proof.
  intros Hnone. unfold predict_future at 1.
  rewrite (ensure_trained_uncached _ _ _ _ Hnone).
  destruct (train_model_outcomes fit predict_row feature_importances
              allow_nan self df symbol timeframe)
    as [[_ ->] | [(_ & _ & ->) | (_ & _ & H)]]; cbn [fst snd].
  - now rewrite Hnone.
  - reflexivity.
  - destruct H as (p & a & d & u & l & m & c & ->). cbn [fst snd].
    unfold predict_future.
    erewrite ensure_trained_cached;
      [reflexivity | cbn [models]; apply lookup_insert_eq].
Qed.

(** A forecast from a cached model: with one of the four horizons the
    only exception is the [ValueError] of the validation. *)
Lemma predict_future_cached_valid (self : Predictor Model) (df : DataFrame)
    (symbol timeframe : string) :
  is_Some (models _ self !! model_key symbol timeframe) ->
  caches_agree self ->
  Py.mem timeframe valid_timeframes = true ->
  match snd (forecast self df symbol timeframe) with
  | inl e => e = Py.ValueError
  | inr pts => pts = [] \/ length pts = Z.to_nat (get_prediction_points timeframe)
  end.
Proof.
  intros Hm Hag Hv.
  destruct (agree_scaler _ _ Hag Hm) as [sc Hsc]. destruct Hm as [m Hm].
  destruct (Nat.eq_dec (nrows (fst (Features.prepare_features df timeframe)))
                       0%nat) as [H0 | H0].
  { unfold predict_future.
    rewrite (ensure_trained_cached _ _ _ _ _ Hm), Hm, Hsc. cbn [snd].
    destruct (Features.prepare_features df timeframe) as [X y].
    cbn [fst] in H0. rewrite H0. now left. }
  destruct (valid_timeframe_days _ Hv) as [total Ht].
  destruct (predict_future_cached fit predict_row feature_importances
              allow_nan self df symbol timeframe m sc total Hm Hsc H0 Ht)
    as (last & _ & H).
  destruct (last_row_checks allow_nan timeframe sc _) as [e | []].
  - now rewrite H.
  - destruct H as (pts & lfs & price & vol & -> & HF). cbn [snd]. right.
    rewrite <- (Forall2_length _ _ _ HF).
    unfold range. now rewrite length_map, length_seq.
Qed.

Lemma predict_future_valid (self : Predictor Model) (df : DataFrame)
    (symbol timeframe : string) :
  caches_agree self ->
  Py.mem timeframe valid_timeframes = true ->
  match snd (forecast self df symbol timeframe) with
  | inl e => e = Py.ValueError
  | inr pts => pts = [] \/ length pts = Z.to_nat (get_prediction_points timeframe)
  end.
Proof.
  intros Hag Hv.
  destruct (models _ self !! model_key symbol timeframe) as [m |] eqn:Hm.
  { apply predict_future_cached_valid; [rewrite Hm; eauto | exact Hag
                                       | exact Hv]. }
  rewrite (predict_future_uncached _ _ _ _ Hm).
  pose proof (train_model_agree self df symbol timeframe Hag) as Hag'.
  destruct (train_model_outcomes fit predict_row feature_importances
              allow_nan self df symbol timeframe)
    as [[_ E] | [(_ & _ & E) | (_ & _ & H)]].
  - rewrite E. cbn [snd]. now left.
  - rewrite E. reflexivity.
  - destruct H as (p & a & d & u & l & mt & c & E).
    rewrite E in Hag' |- *. cbn [fst snd] in *.
    apply predict_future_cached_valid; [| exact Hag' | exact Hv].
    cbn [models]. rewrite lookup_insert_eq. eauto.
Qed.


(** X9. [predict_future] trains at most once: with a cached model it
    returns the predictor it was given, whatever the dataset; with no
    cached model it behaves as [train_model] followed by
    [predict_future]; when the training is refused it returns the empty
    list and caches nothing; when the training returns above the floor
    the model is cached, and when it raises, the forecast raises the
    same exception and the predictor is unchanged. *)
Theorem predict_future_trains_lazily (self : Predictor Model)
    (df : DataFrame) (symbol timeframe : string) :
  let key := model_key symbol timeframe in
  let X := fst (Features.prepare_features df timeframe) in
  (is_Some (models _ self !! key) ->
   fst (forecast self df symbol timeframe) = self)
  /\ (models _ self !! key = None ->
      forecast self df symbol timeframe
      = forecast (fst (train self df symbol timeframe)) df symbol timeframe
      /\ ((nrows X < min_samples_for timeframe)%nat ->
          forecast self df symbol timeframe = (self, inr []))
      /\ ((min_samples_for timeframe <= nrows X)%nat ->
          (returned (snd (train self df symbol timeframe)) ->
           is_Some (models _ (fst (forecast self df symbol timeframe))
                      !! key))
          /\ (forall e,
                snd (train self df symbol timeframe) = Raised e ->
                forecast self df symbol timeframe = (self, inl e)))).
Proof.
  intros key X. subst key X. split.
  - intros [m Hm]. rewrite predict_future_fst.
    now rewrite (ensure_trained_cached _ _ _ _ _ Hm).
  - intros Hnone.
    pose proof (predict_future_uncached self df symbol timeframe Hnone) as Hu.
    pose proof (predict_future_fst self df symbol timeframe) as Hf.
    rewrite (ensure_trained_uncached _ _ _ _ Hnone) in Hf. cbn [fst] in Hf.
    destruct (train_model_outcomes fit predict_row feature_importances
                allow_nan self df symbol timeframe)
      as [[Hlt E] | [(Hge & _ & E) | (Hge & _ & H)]].
    + rewrite E in Hu |- *. cbn [fst snd] in *.
      split; [reflexivity |]. split; [intros _; exact Hu | lia].
    + rewrite E in Hu |- *. cbn [fst snd] in *.
      split; [reflexivity |]. split; [lia |]. intros _.
      split; [intros [] |]. now intros e [= <-].
    + destruct H as (p & a & d & u & l & m & c & E).
      rewrite E in Hu, Hf |- *. cbn [fst snd] in *.
      split; [exact Hu |]. split; [lia |]. intros _.
      split; [| discriminate]. intros _. rewrite Hf. cbn [models].
      rewrite lookup_insert_eq. eauto.
Qed.

(** A forecast from a cached model with a string outside the table of
    horizons: the scaler validates the last feature row (line 254),
    then [TIMEFRAME_DAYS[timeframe]] raises (line 257). *)
Lemma predict_future_cached_unknown (self : Predictor Model) (df : DataFrame)
    (symbol timeframe : string) (m : Model) (sc : StandardScaler.t) :
  models _ self !! model_key symbol timeframe = Some m ->
  scalers _ self !! model_key symbol timeframe = Some sc ->
  nrows (fst (Features.prepare_features df timeframe)) <> 0%nat ->
  Py.lookup TIMEFRAME_DAYS timeframe = None ->
  forecast self df symbol timeframe
  = (self,
     match Sklearn.scaler_check_transform sc
             (Py.slice (values (fst (Features.prepare_features df timeframe)))
                       (Some (-1)) None) with
     | inl _ => inl Py.ValueError
     | inr _ => inl (Py.KeyError timeframe)
     end).
Proof.
  intros Hm Hsc HX Hlook. unfold predict_future.
  rewrite (ensure_trained_cached _ _ _ _ _ Hm), Hm, Hsc.
  destruct (Features.prepare_features df timeframe) as [X y].
  cbn [fst] in HX |- *.
  destruct (Nat.eqb_spec (nrows X) 0); [contradiction |].
  unfold Py.bind, Py.getitem. rewrite Hlook.
  destruct (Sklearn.scaler_check_transform sc _) as [e | []] eqn:Es;
    [| reflexivity].
  apply scaler_check_transform_error in Es. now subst e.
Qed.

(** X10. The engine does not check the timeframe: with a string outside
    the four horizons and at least 50 feature rows, [predict_future]
    never returns a forecast.  It raises [KeyError] on
    [TIMEFRAME_DAYS[timeframe]], unless scikit-learn's validation stops
    it before with a [ValueError]; and when the pair is not cached and
    the training passes its validation, a model is trained and cached
    first and the [KeyError] follows. *)
Theorem predict_future_unknown_timeframe (self : Predictor Model)
    (df : DataFrame) (symbol timeframe : string) :
  Py.mem timeframe valid_timeframes = false ->
  caches_agree self ->
  (50 <= nrows (fst (Features.prepare_features df timeframe)))%nat ->
  (snd (forecast self df symbol timeframe) = inl Py.ValueError
   \/ snd (forecast self df symbol timeframe) = inl (Py.KeyError timeframe))
  /\ (models _ self !! model_key symbol timeframe = None ->
      checks df timeframe = inr tt ->
      snd (forecast self df symbol timeframe) = inl (Py.KeyError timeframe)
      /\ is_Some (models _ (fst (forecast self df symbol timeframe))
                    !! model_key symbol timeframe)).
Proof.
  intros Hv Hag Hn.
  assert (Hmin : min_samples_for timeframe = 50%nat).
  { destruct (invalid_timeframe_eqb _ Hv) as (E1 & E2 & E3 & E4).
    unfold min_samples_for, Py.get. simpl. now rewrite E1, E2, E3, E4. }
  pose proof (invalid_timeframe_days _ Hv) as Hlook.
  assert (H0 : nrows (fst (Features.prepare_features df timeframe)) <> 0%nat)
    by lia.
  destruct (models _ self !! model_key symbol timeframe) as [m |] eqn:Hm.
  { split; [| discriminate].
    destruct (agree_scaler self (model_key symbol timeframe) Hag)
      as [sc Hsc]; [rewrite Hm; eauto |].
    rewrite (predict_future_cached_unknown _ _ _ _ _ _ Hm Hsc H0 Hlook).
    cbn [snd]. destruct (Sklearn.scaler_check_transform sc _); auto. }
  pose proof (predict_future_uncached self df symbol timeframe Hm) as Hu.
  destruct (train_model_outcomes fit predict_row feature_importances
              allow_nan self df symbol timeframe)
    as [[Hlt _] | [(_ & Hc & E) | (_ & Hc & H)]]; [lia | |].
  - rewrite E in Hu. cbn [snd] in Hu. rewrite Hu.
    split; [now left |]. intros _ Hc'. rewrite Hc in Hc'. discriminate.
  - destruct H as (p & a & d & u & l & mt & c & E).
    rewrite E in Hu. cbn [fst snd] in Hu.
    destruct (last_row_after_training df timeframe Hc) as [Hs _].
    clear E.
    set (s1 := mkPredictor _ _ _ _) in Hu.
    rewrite (predict_future_cached_unknown s1 df symbol timeframe
               (model _ (stage df timeframe)) (scaler _ (stage df timeframe)))
      in Hu;
      [| subst s1; cbn [models]; apply lookup_insert_eq
       | subst s1; cbn [scalers]; apply lookup_insert_eq
       | exact H0 | exact Hlook].
    cbv zeta in Hs. rewrite Hs in Hu. rewrite Hu. cbn [fst snd].
    split; [now right |]. intros _ _. split; [reflexivity |].
    subst s1. cbn [models]. rewrite lookup_insert_eq. eauto.
Qed.


End CacheFacts.

(** ** The trend on very short series *)

Lemma gt_nan_r (x : float) : Num.gt x Pandas.nan = false.
Proof.
  unfold Num.gt. rewrite FloatAxioms.ltb_spec. reflexivity.
Qed.

Lemma trend_period_short (df : DataFrame) (timeframe : string) :
  (length df < 4)%nat ->
  trend_period df timeframe = Z.of_nat (length df) / 2.
Proof.
  intros H. unfold trend_period.
  assert (Z.of_nat (length df) / 2 <= 1) by (Z.div_mod_to_equations; lia).
  repeat match goal with |- context [if ?b then _ else _] => destruct b end;
    lia.
Qed.

(** X12. On a series of fewer than four rows the older half of the
    comparison window is empty, its mean is missing, and [analyze_trend]
    answers 'Bearish' whatever the prices and the timeframe, also for
    prices that only rise. *)
Theorem analyze_trend_short_series (df : DataFrame) (timeframe : string) :
  (length df < 4)%nat ->
  Py.slice (col Close df) (Some (- trend_period df timeframe))
           (Some ((- trend_period df timeframe) / 2)) = []
  /\ analyze_trend df timeframe = "Bearish"%string.
Proof.
  intros H.
  assert (Hs : Py.slice (col Close df) (Some (- trend_period df timeframe))
                        (Some ((- trend_period df timeframe) / 2)) = []).
  { rewrite (trend_period_short df timeframe H).
    destruct df as [| a [| b [| c [| d df]]]];
      [reflexivity | reflexivity | reflexivity | reflexivity |
       simpl in H; lia]. }
  split; [exact Hs |].
  unfold analyze_trend.
  assert (G : (Z.of_nat (length df) <? trend_period df timeframe) = false)
    by apply Z.ltb_ge, trend_period_le_len.
  rewrite G, Hs.
  change (Pandas.mean []) with Pandas.nan. now rewrite gt_nan_r.
Qed.

(** ** The endpoint [predict_live_stock], end to end *)

Section EndpointOutcomes.

Context {Model : Type}.
Variable fit : Estimator -> Matrix -> list float -> Model.
Variable predict_row : Model -> list float -> float.
Variable feature_importances : Model -> list float.
Variable allow_nan : Estimator -> bool.
Variable is_available : bool.
Variable get_stock_data : string -> string -> option DataFrame.

Local Abbreviation train :=
  (train_model Model fit predict_row feature_importances
     allow_nan).
Local Abbreviation forecast :=
  (predict_future Model fit predict_row feature_importances
     allow_nan).
Local Abbreviation endpoint :=
  (predict_live_stock Model fit predict_row feature_importances
                      allow_nan is_available get_stock_data).

Lemma valid_timeframe_period (timeframe : string) :
  Py.mem timeframe valid_timeframes = true ->
  exists period, Py.lookup period_map timeframe = Some period.
Proof.
  unfold Py.mem, valid_timeframes. simpl. rewrite !orb_true_iff.
  intros [H | [H | [H | [H | H]]]]; try discriminate;
    apply String.eqb_eq in H; subst; eexists; reflexivity.
Qed.

Lemma min_samples_pos (timeframe : string) :
  (1 <= min_samples_for timeframe)%nat.
Proof.
  unfold min_samples_for, Py.get, min_samples. simpl.
  repeat match goal with |- context [if ?b then _ else _] => destruct b end;
    lia.
Qed.

(** A forecast right after a successful training of the same pair on
    the same data: the last feature row is one of the test rows that the
    training validated, so the forecast is complete. *)
Lemma predict_future_after_training (self s1 : Predictor Model)
    (df : DataFrame) (symbol timeframe : string)
    predictions actuals dates upper lower metrics cols :
  Py.mem timeframe valid_timeframes = true ->
  train self df symbol timeframe
  = (s1, Trained predictions actuals dates upper lower metrics cols) ->
  models _ s1 !! model_key symbol timeframe
  = Some (model _ (fit_stage Model fit predict_row df timeframe))
  /\ df <> []
  /\ exists pts,
       forecast s1 df symbol timeframe = (s1, inr pts)
       /\ length pts = Z.to_nat (get_prediction_points timeframe).
Proof.
  intros Hv H.
  destruct (train_model_trained_inv fit predict_row feature_importances
              allow_nan _ _ _ _ _ _ _ _ _ _ _ _ H) as [Hge Hc].
  pose proof (min_samples_pos timeframe) as Hpos.
  assert (H0 : nrows (fst (Features.prepare_features df timeframe)) <> 0%nat)
    by lia.
  assert (Hdf : df <> []).
  { intros ->. apply H0.
    pose proof (nrows_le_len [] timeframe) as Hle.
    apply Nat.le_0_r in Hle. exact Hle. }
  rewrite (train_model_sufficient_eq fit predict_row feature_importances
             allow_nan self df symbol timeframe Hge Hc) in H.
  apply (f_equal fst) in H. cbn [fst] in H. subst s1.
  set (s1 := mkPredictor _ _ _ _).
  assert (Hm : models _ s1 !! model_key symbol timeframe
               = Some (model _ (fit_stage Model fit predict_row df timeframe)))
    by (subst s1; cbn [models]; apply lookup_insert_eq).
  assert (Hsc : scalers _ s1 !! model_key symbol timeframe
                = Some (scaler _ (fit_stage Model fit predict_row
                                            df timeframe)))
    by (subst s1; cbn [scalers]; apply lookup_insert_eq).
  split; [exact Hm |]. split; [exact Hdf |].
  destruct (valid_timeframe_days _ Hv) as [total Ht].
  destruct (predict_future_cached fit predict_row feature_importances
              allow_nan s1 df symbol timeframe _ _ total Hm Hsc H0 Ht)
    as (last & _ & Hf).
  rewrite (last_row_checks_after_training fit predict_row allow_nan
             df timeframe Hc) in Hf.
  destruct Hf as (pts & lfs & price & vol & E & HF).
  exists pts. split; [exact E |].
  rewrite <- (Forall2_length _ _ _ HF).
  unfold range. now rewrite length_map, length_seq.
Qed.

(** X13. [predict_live_stock] answers with status 400, 503, 404 or 500,
    or with a forecast.  A 500 is the [ValueError] with which
    scikit-learn's validation stops the training (an infinite feature,
    as a zero opening price gives), and then nothing is cached; once the
    training has returned its result, the forecast on the same data
    cannot fail.  A forecast is for the requested pair, holds exactly
    the number of points of the horizon, and its trend is 'Bullish' or
    'Bearish'; the model that is then cached for the pair is the one
    fitted on the data of this request (every request retrains). *)
Theorem predict_live_stock_outcomes (self : Predictor Model)
    (symbol timeframe : string) :
  match snd (endpoint self symbol timeframe) with
  | inl (HTTP code detail) =>
      code = 400%nat \/ code = 503%nat \/ code = 404%nat
      \/ (code = 500%nat /\ detail = StrOf Py.ValueError
          /\ fst (endpoint self symbol timeframe) = self
          /\ exists period df,
               Py.lookup period_map timeframe = Some period
               /\ get_stock_data symbol period = Some df
               /\ train self df symbol timeframe
                  = (self, Raised Py.ValueError))
  | inr resp =>
      r_symbol resp = symbol /\ r_timeframe resp = timeframe
      /\ Py.mem timeframe valid_timeframes = true
      /\ length (r_predictions resp)
         = Z.to_nat (get_prediction_points timeframe)
      /\ r_predictionPoints resp = length (r_predictions resp)
      /\ (r_trend resp = "Bullish"%string \/ r_trend resp = "Bearish"%string)
      /\ exists period df,
           Py.lookup period_map timeframe = Some period
           /\ get_stock_data symbol period = Some df
           /\ Py.item (col Close df) (-1) = inr (r_currentPrice resp)
           /\ models _ (fst (endpoint self symbol timeframe))
                !! model_key symbol timeframe
              = Some (model _ (fit_stage Model fit predict_row df timeframe))
  end.
Proof.
  unfold predict_live_stock.
  destruct (Py.mem timeframe valid_timeframes) eqn:Hv; cbn [negb];
    [| cbn [snd]; auto].
  destruct is_available; cbn [negb]; [| cbn [snd]; auto].
  destruct (valid_timeframe_period _ Hv) as [period Hp].
  unfold Py.getitem. rewrite Hp. cbn [guard].
  destruct (get_stock_data symbol period) as [[| b df] |] eqn:Hd;
    [cbn [snd]; auto | | cbn [snd]; auto].
  destruct (train self (b :: df) symbol timeframe)
    as [s1 [e m | p a d u l m c | e]] eqn:E; [cbn [snd]; auto | |].
  - destruct (predict_future_after_training _ _ _ _ _ _ _ _ _ _ _ _ Hv E)
      as (Hm & Hdf & pts & F & Hlen).
    rewrite F. cbn [guard fst snd].
    destruct (item_last (col Close (b :: df))) as [price Hprice];
      [discriminate |].
    rewrite Hprice.
    destruct (recommend _ _) as [rec conf]. cbn.
    repeat split; try assumption; try reflexivity.
    + pose proof (trend_period_le_len (b :: df) timeframe) as G.
      apply Z.ltb_ge in G. unfold analyze_trend. rewrite G.
      match goal with |- context [if ?c then _ else _] => destruct c end; auto.
    + exists period, (b :: df). repeat split; assumption.
  - cbn [fst snd]. right. right. right.
    destruct (train_model_outcomes fit predict_row feature_importances
                allow_nan self (b :: df) symbol timeframe)
      as [[_ E'] | [(_ & _ & E') | (_ & _ & H)]].
    + rewrite E' in E. discriminate.
    + rewrite E' in E. injection E as <- <-.
      repeat split. exists period, (b :: df). now repeat split.
    + destruct H as (p & a & d & u & l & m & c & E').
      rewrite E' in E. discriminate.
Qed.

(** X14. When the provider serves fewer rows than a training needs (50,
    115, 211, 459), the endpoint answers 400 with the insufficient-data
    message of the trainer, and the predictor is left as it was. *)
Theorem predict_live_stock_short_history (self : Predictor Model)
    (symbol timeframe period : string) (m : nat) (df : DataFrame) :
  In (timeframe, m) rows_needed ->
  is_available = true ->
  Py.lookup period_map timeframe = Some period ->
  get_stock_data symbol period = Some df ->
  df <> [] ->
  (length df < m)%nat ->
  exists got,
    (got < min_samples_for timeframe)%nat
    /\ endpoint self symbol timeframe
       = (self,
          inl (HTTP 400
                 (Text (insufficient_message timeframe
                          (min_samples_for timeframe) got)))).
Proof.
  intros Hin Hav Hp Hd Hdf Hlen.
  pose proof (too_few_rows df timeframe m Hin Hlen) as Hfew.
  exists (nrows (fst (Features.prepare_features df timeframe))).
  split; [exact Hfew |].
  assert (Hv : Py.mem timeframe valid_timeframes = true).
  { destruct Hin as [[= <- _] | [[= <- _] | [[= <- _] | [[= <- _] | []]]]];
      reflexivity. }
  unfold predict_live_stock. rewrite Hv, Hav. cbn [negb].
  unfold Py.getitem. rewrite Hp. cbn [guard]. rewrite Hd.
  destruct df as [| b df]; [contradiction |].
  now rewrite (train_model_insufficient_eq fit predict_row feature_importances
                 allow_nan self (b :: df) symbol timeframe Hfew).
Qed.

End EndpointOutcomes.

(** ** The callers of the endpoint *)

Section CallerFacts.

Context {Model : Type}.
Variable fit : Estimator -> Matrix -> list float -> Model.
Variable predict_row : Model -> list float -> float.
Variable feature_importances : Model -> list float.
Variable allow_nan : Estimator -> bool.
Variable is_available : bool.
Variable get_stock_data : string -> string -> option DataFrame.
Variable get_stock_info : string -> option StockInfo.
Variable predict_with_cnn : string -> string -> option CnnPrediction.

Local Abbreviation endpoint :=
  (predict_live_stock Model fit predict_row feature_importances
                      allow_nan is_available get_stock_data).
Local Abbreviation analysis :=
  (get_live_stock_analysis fit predict_row feature_importances allow_nan
                           is_available get_stock_data get_stock_info).
Local Abbreviation compare :=
  (compare_all_models fit predict_row feature_importances allow_nan
                      is_available get_stock_data predict_with_cnn).

(** X15. [get_live_stock_analysis] answers with status 500 for every
    symbol, whatever the providers hold, and trains nothing: its first
    statement reads [multi_source], a name that [main.py] never imports
    or assigns, so the [NameError] of line 589 becomes the 500 of lines
    614-615 before any stock is looked up. *)
Theorem get_live_stock_analysis_outcomes (self : Predictor Model)
    (symbol : string) :
  Py.mem "multi_source" module_names = false
  /\ global_name "multi_source" = inl (Py.NameError "multi_source")
  /\ analysis self symbol
     = (self, inl (HTTP 500 (StrOf (Py.NameError "multi_source")))).
Proof. repeat split. Qed.

(** X16. [compare_all_models] passes on the failure of the forecast
    request unchanged.  Otherwise it lists two models, the first with
    the metrics of the forecast; without a CNN result the best model is
    'Random Forest/Gradient Boosting' and no best score is given; with
    one, the best score is always the R2 of the model named best: the CNN
    when its R2 is strictly greater, the forest otherwise (so a tie or a
    missing score goes to the forest). *)
Theorem compare_all_models_best (self : Predictor Model)
    (symbol timeframe : string) :
  fst (compare self symbol timeframe) = fst (endpoint self symbol timeframe)
  /\ match snd (compare self symbol timeframe) with
     | inl e => snd (endpoint self symbol timeframe) = inl e
     | inr c =>
         exists resp,
           snd (endpoint self symbol timeframe) = inr resp
           /\ c_symbol c = symbol /\ c_timeframe c = timeframe
           /\ length (c_models c) = 2%nat
           /\ map m_metrics (firstn 1 (c_models c))
              = [Some (r_modelMetrics resp)]
           /\ match predict_with_cnn symbol timeframe with
              | None =>
                  c_bestModel c = "Random Forest/Gradient Boosting"%string
                  /\ c_bestR2 c = None
                  /\ map m_available (c_models c) = [true; false]
              | Some cnn =>
                  let rf_r2 := r2 (r_modelMetrics resp) in
                  let cnn_r2 := r2 (cnn_modelMetrics cnn) in
                  map m_available (c_models c) = [true; true]
                  /\ ((Num.gt cnn_r2 rf_r2 = true
                       /\ c_bestModel c = "CNN"%string
                       /\ c_bestR2 c = Some cnn_r2)
                      \/ (Num.gt cnn_r2 rf_r2 = false
                          /\ c_bestModel c
                             = "Random Forest/Gradient Boosting"%string
                          /\ c_bestR2 c = Some rf_r2))
              end
     end.
Proof.
  unfold compare_all_models.
  destruct (endpoint self symbol timeframe) as [s1 [e | resp]];
    [now split |].
  destruct (predict_with_cnn symbol timeframe) as [cnn |]; cbn [fst snd].
  - split; [reflexivity |]. exists resp.
    cbn [c_symbol c_timeframe c_models c_bestModel c_bestR2 length firstn
         map m_metrics m_available].
    repeat (split; [reflexivity |]). unfold py_max.
    destruct (Num.gt (r2 (cnn_modelMetrics cnn)) (r2 (r_modelMetrics resp)));
      [left | right]; now repeat split.
  - split; [reflexivity |]. exists resp. now repeat split.
Qed.

End CallerFacts.

(** ** Recommendation rules outside the engine *)

(** Comparisons across a constant of known sign. *)
Lemma gt_trans_pos (x c : float) :
  Num.gt c 0%float = true -> Num.gt x c = true -> Num.gt x 0%float = true.
Proof.
  unfold Num.gt. rewrite !FloatAxioms.ltb_spec.
  change (Prim2SF 0%float) with (S754_zero false). unfold SFltb.
  destruct (Prim2SF c) as [sc | sc | | sc mc ec],
           (Prim2SF x) as [sx | sx | | sx mx ex];
    simpl; try discriminate; try reflexivity;
    destruct sc, sx; simpl; try discriminate; reflexivity.
Qed.

Lemma lt_trans_neg (x c : float) :
  Num.lt c 0%float = true -> Num.lt x c = true -> Num.gt x 0%float = false.
Proof.
  unfold Num.gt, Num.lt. rewrite !FloatAxioms.ltb_spec.
  change (Prim2SF 0%float) with (S754_zero false). unfold SFltb.
  destruct (Prim2SF c) as [sc | sc | | sc mc ec],
           (Prim2SF x) as [sx | sx | | sx mx ex];
    simpl; try discriminate; try reflexivity;
    destruct sc, sx; simpl; try discriminate; reflexivity.
Qed.


Lemma recommendation_score_facts
    (current_price ma20 ma50 rsi avg_pred_change r2 : float) :
  let score :=
    recommendation_score current_price ma20 ma50 rsi avg_pred_change r2 in
  0 <= score <= 8
  /\ (Num.gt avg_pred_change 0%float = true -> 2 <= score)
  /\ (Num.lt rsi 30%float = true -> 2 <= score)
  /\ (6 <= score ->
      Num.gt current_price ma20 = true \/ Num.gt current_price ma50 = true
      \/ Num.gt ma20 ma50 = true)
  /\ (Num.gt avg_pred_change 0%float = false ->
      Num.lt rsi 30%float = false -> score <= 5).
Proof.
  unfold recommendation_score.
  pose proof (gt_asym 30%float rsi) as Hrsi. unfold Num.gt in Hrsi.
  unfold Num.lt, Num.gt in *.
  destruct (PrimFloat.ltb ma20 current_price),
    (PrimFloat.ltb ma50 current_price), (PrimFloat.ltb ma50 ma20),
    (PrimFloat.ltb 30%float rsi), (PrimFloat.ltb rsi 70%float),
    (PrimFloat.ltb rsi 30%float), (PrimFloat.ltb 0%float avg_pred_change),
    (PrimFloat.ltb 0.5%float r2);
    cbn; repeat split; intros; try lia; try discriminate; auto;
    try (specialize (Hrsi eq_refl); discriminate).
Qed.

(** X18. What [generate_recommendation] answers is decided by a score
    between 0 and 8: STRONG BUY/High from 6, BUY/Medium from 4,
    HOLD/Medium from 2, SELL/Low below.  A positive mean prediction
    change, or an RSI below 30, rules SELL out; STRONG BUY needs at least
    one of the three moving-average signals; and the risk is 'High'
    above a volatility of 40, 'Medium' above 25 and 'Low' otherwise. *)
Theorem generate_recommendation_policy (predictions actuals : list float)
    (r2 : float) (technical : Columns) (rec : Recommendation) :
  generate_recommendation predictions actuals r2 technical = inr rec ->
  exists current_price ma20 ma50 rsi volatility,
    let avg_pred_change :=
      Num.mean
        (Num.zip_with PrimFloat.sub predictions
           (Py.slice actuals (Some (- Z.of_nat (length predictions))) None)) in
    let score :=
      recommendation_score current_price ma20 ma50 rsi avg_pred_change r2 in
    (try! c := Py.getitem technical "Close" in Py.item c (-1))
    = inr current_price
    /\ (try! c := Py.getitem technical "ma20" in Py.item c (-1)) = inr ma20
    /\ (try! c := Py.getitem technical "ma50" in Py.item c (-1)) = inr ma50
    /\ (try! c := Py.getitem technical "rsi" in Py.item c (-1)) = inr rsi
    /\ (try! c := Py.getitem technical "volatility" in Py.item c (-1))
       = inr volatility
    /\ 0 <= score <= 8
    /\ (recommendation rec, rec_confidence rec) = answer_of_score score
    /\ (Num.gt avg_pred_change 0%float = true \/ Num.lt rsi 30%float = true ->
        recommendation rec <> "SELL"%string)
    /\ (recommendation rec = "STRONG BUY"%string ->
        Num.gt current_price ma20 = true \/ Num.gt current_price ma50 = true
        \/ Num.gt ma20 ma50 = true)
    /\ risk rec
       = (if Num.gt volatility 40%float then "High"
          else if Num.gt volatility 25%float then "Medium" else "Low")%string.
Proof.
  unfold generate_recommendation, Py.bind, Py.ret.
  destruct (Py.getitem technical "Close") as [| close]; [discriminate |].
  destruct (Py.item close (-1)) as [| current_price]; [discriminate |].
  destruct (Py.getitem technical "ma20") as [| c20]; [discriminate |].
  destruct (Py.item c20 (-1)) as [| ma20]; [discriminate |].
  destruct (Py.getitem technical "ma50") as [| c50]; [discriminate |].
  destruct (Py.item c50 (-1)) as [| ma50]; [discriminate |].
  destruct (Py.getitem technical "rsi") as [| crsi]; [discriminate |].
  destruct (Py.item crsi (-1)) as [| rsi]; [discriminate |].
  cbv zeta.
  set (avg := Num.mean _).
  pose proof (recommendation_score_facts current_price ma20 ma50 rsi avg r2)
    as (Hb & Hpos & Hrsi & Hma & _).
  set (score := recommendation_score current_price ma20 ma50 rsi avg r2) in *.
  destruct (Py.getitem technical "volatility") as [| cvol];
    [repeat match goal with |- context [if ?b then _ else _] => destruct b end;
     discriminate |].
  destruct (Py.item cvol (-1)) as [| volatility];
    [repeat match goal with |- context [if ?b then _ else _] => destruct b end;
     discriminate |].
  intros H.
  exists current_price, ma20, ma50, rsi, volatility.
  cbv zeta. fold avg. fold score.
  do 5 (split; [reflexivity |]). split; [exact Hb |].
  unfold answer_of_score. revert H.
  destruct (Z.leb_spec 6 score), (Z.leb_spec 4 score), (Z.leb_spec 2 score);
    intros [= <-]; cbn [recommendation rec_confidence risk];
    (split; [reflexivity |]);
    (split; [intros [Ha | Hr]; [specialize (Hpos Ha) | specialize (Hrsi Hr)];
             first [discriminate | lia] |]);
    (split; [first [intros _; apply Hma; lia | discriminate] | reflexivity]).
Qed.

(** ** The portfolio calculator *)

Lemma gt_zero_ne (x : float) :
  Num.gt x 0%float = true -> PrimFloat.eqb x 0%float = false.
Proof.
  unfold Num.gt. rewrite FloatAxioms.ltb_spec, FloatAxioms.eqb_spec.
  change (Prim2SF 0%float) with (S754_zero false). unfold SFltb, SFeqb.
  destruct (Prim2SF x) as [sx | sx | | sx mx ex]; simpl;
    try discriminate; try reflexivity; destruct sx; try discriminate;
    reflexivity.
Qed.

Lemma percent_total (num den : float) :
  exists v, percent num den = Some v
            /\ (Num.gt den 0%float = false -> v = 0%float).
Proof.
  unfold percent, truediv.
  destruct (Num.gt den 0%float) eqn:E.
  - rewrite (gt_zero_ne _ E). eexists. split; [reflexivity | discriminate].
  - eexists. split; reflexivity.
Qed.

Section PortfolioFacts.

Variable is_available : bool.
Variable get_stock_info : string -> option StaticInfo.
Variable days_since : string -> option Z.

Local Abbreviation first := (first_pass get_stock_info days_since).
Local Abbreviation portfolio :=
  (calculate_portfolio is_available get_stock_info days_since).

Lemma fsum_snoc (l : list float) (x : float) :
  Num.fsum (l ++ [x]) = PrimFloat.add (Num.fsum l) x.
Proof. unfold Num.fsum. now rewrite fold_left_app. Qed.

Lemma first_pass_total (todo : list PortfolioPosition)
    (calc : list CalculatedPosition) (tmv tcb : float) :
  tmv = Num.fsum (map marketValue calc) ->
  tcb = Num.fsum (map costBasis calc) ->
  exists calc',
    first todo calc tmv tcb
    = Some (calc ++ calc', Num.fsum (map marketValue (calc ++ calc')),
            Num.fsum (map costBasis (calc ++ calc')))
    /\ map cp_symbol calc' = map p_symbol (known get_stock_info todo)
    /\ map cp_quantity calc' = map p_quantity (known get_stock_info todo)
    /\ Forall (fun p =>
                 marketValue p
                 = PrimFloat.mul (cp_quantity p) (cp_currentPrice p)
                 /\ costBasis p = PrimFloat.mul (cp_quantity p) (cp_avgPrice p)
                 /\ gain p = PrimFloat.sub (marketValue p) (costBasis p)
                 /\ (Num.gt (costBasis p) 0%float = false ->
                     gainPercent p = 0%float))
              calc'.
Proof.
  revert calc tmv tcb.
  induction todo as [| position rest IH]; intros calc tmv tcb Hm Hc; simpl.
  - exists []. rewrite app_nil_r, Hm, Hc. repeat split; constructor.
  - destruct (get_stock_info (p_symbol position)) as [info |];
      [| now apply IH].
    destruct (percent_total
                (PrimFloat.sub
                   (PrimFloat.mul (p_quantity position) (i_current_price info))
                   (PrimFloat.mul (p_quantity position) (p_avgPrice position)))
                (PrimFloat.mul (p_quantity position) (p_avgPrice position)))
      as (gp & -> & Hgp).
    match goal with
    | |- context [first rest (calc ++ [?p]) ?a ?b] =>
        destruct (IH (calc ++ [p]) a b) as (calc' & E & Hs & Hq & Hf);
          [rewrite map_app; cbn [map marketValue]; now rewrite fsum_snoc, Hm
          | rewrite map_app; cbn [map costBasis]; now rewrite fsum_snoc, Hc |];
          exists (p :: calc')
    end.
    rewrite E, <- !app_assoc. cbn [app map cp_symbol cp_quantity].
    split; [reflexivity |]. split; [now rewrite Hs |].
    split; [now rewrite Hq |].
    constructor; [| exact Hf]. cbn. auto.
Qed.

Lemma second_pass_total (total : float) (l : list CalculatedPosition) :
  exists l',
    second_pass total l = Some l'
    /\ length l' = length l
    /\ Forall2 (fun p q => exists w, q = set_weight w p
                           /\ (Num.gt total 0%float = false -> w = 0%float))
               l l'.
Proof.
  induction l as [| pos rest (l' & E & Hl & Hf)]; simpl.
  - exists []. repeat split. constructor.
  - destruct (percent_total (marketValue pos) total) as (w & -> & Hw).
    rewrite E. eexists. split; [reflexivity |].
    split; [simpl; now rewrite Hl |].
    constructor; [exists w; auto | exact Hf].
Qed.

(** X19. [calculate_portfolio] never fails on a division: every division
    is guarded by [> 0], so with the provider available it always
    answers, also for an empty portfolio, positions of unknown symbols
    and zero quantities.  The answer lists the positions of known symbols
    in the order given; the totals are the running sums of their market
    values and cost bases; a gain percentage is 0 when the cost basis is
    not positive, and every weight is 0 when the total market value is
    not positive. *)
Theorem calculate_portfolio_answers (todo : list PortfolioPosition) :
  match portfolio todo with
  | inl e =>
      is_available = false
      /\ e = HTTP 503 (Text "Static data not available")
  | inr r =>
      is_available = true
      /\ map cp_symbol (positions r) = map p_symbol (known get_stock_info todo)
      /\ map cp_quantity (positions r)
         = map p_quantity (known get_stock_info todo)
      /\ positionCount (summary r) = length (known get_stock_info todo)
      /\ totalValue (summary r) = Num.fsum (map marketValue (positions r))
      /\ totalCost (summary r) = Num.fsum (map costBasis (positions r))
      /\ totalGain (summary r)
         = PrimFloat.sub (totalValue (summary r)) (totalCost (summary r))
      /\ (Num.gt (totalCost (summary r)) 0%float = false ->
          totalGainPercent (summary r) = 0%float)
      /\ Forall (fun p =>
                   marketValue p
                   = PrimFloat.mul (cp_quantity p) (cp_currentPrice p)
                   /\ costBasis p
                      = PrimFloat.mul (cp_quantity p) (cp_avgPrice p)
                   /\ gain p = PrimFloat.sub (marketValue p) (costBasis p)
                   /\ (Num.gt (costBasis p) 0%float = false ->
                       gainPercent p = 0%float)
                   /\ (Num.gt (totalValue (summary r)) 0%float = false ->
                       weight p = 0%float))
                (positions r)
  end.
Proof.
  unfold calculate_portfolio.
  destruct is_available; cbn [negb]; [| now split].
  destruct (first_pass_total todo [] 0%float 0%float eq_refl eq_refl)
    as (calc & -> & Hs & Hq & Hf).
  cbn [app].
  destruct (second_pass_total (Num.fsum (map marketValue calc)) calc)
    as (weighted & -> & Hl & Hw).
  destruct (percent_total
              (PrimFloat.sub (Num.fsum (map marketValue calc))
                             (Num.fsum (map costBasis calc)))
              (Num.fsum (map costBasis calc))) as (tgp & -> & Htgp).
  cbn [positions summary totalValue totalCost totalGain totalGainPercent
       positionCount].
  assert (Hsame : forall (A : Type) (f : CalculatedPosition -> A),
             (forall w p, f (set_weight w p) = f p) ->
             map f weighted = map f calc).
  { intros A f Hfw. clear -Hw Hfw.
    induction Hw as [| p q l l' (w & -> & _) _ IH]; simpl;
      [reflexivity | now rewrite Hfw, IH]. }
  split; [reflexivity |].
  split; [rewrite <- Hs; now apply Hsame |].
  split; [rewrite <- Hq; now apply Hsame |].
  split.
  { rewrite Hl. apply (f_equal (@length string)) in Hs.
    now rewrite !length_map in Hs. }
  split; [f_equal; symmetry; now apply Hsame |].
  split; [f_equal; symmetry; now apply Hsame |].
  split; [reflexivity |]. split; [exact Htgp |].
  set (total := Num.fsum (map marketValue calc)) in *. clearbody total.
  clear -Hw Hf.
  induction Hw as [| p q l l' (w & -> & Hw0) _ IH]; constructor.
  - inversion Hf as [| ? ? (H1 & H2 & H3 & H4) _]; subst. cbn. auto.
  - apply IH. now inversion Hf.
Qed.

End PortfolioFacts.

(** * Further runs on the sample data *)

Lemma sample_trained_reachable :
  reachable Sample.fit Sample.predict_row Sample.feature_importances
            Sample.allow_nan
            Sample.trained.
Proof. apply reach_train, reach_new. Defined.


(** A run of X10: eighty rows and the string "2Y". *)
Lemma predict_future_unknown_timeframe_run :
  snd (Sample.forecast Sample.empty (Sample.df 80) "X" "2Y")
  = inl (Py.KeyError "2Y").
Proof.
  assert (Hag : caches_agree Sample.empty).
  { split; cbn [new_predictor models scalers feature_importance];
      now rewrite !dom_empty_L. }
  assert (Hn : (50 <= nrows (fst (Features.prepare_features
                                    (Sample.df 80) "2Y")))%nat)
    by (apply Nat.leb_le; vm_compute; reflexivity).
  assert (Hc : fit_checks Sample.Model Sample.fit Sample.predict_row
                          Sample.allow_nan (Sample.df 80) "2Y" = inr tt)
    by (vm_compute; reflexivity).
  destruct (predict_future_unknown_timeframe
              Sample.fit Sample.predict_row Sample.feature_importances
              Sample.allow_nan
              Sample.empty (Sample.df 80) "X" "2Y" eq_refl Hag Hn)
    as [_ H].
  exact (proj1 (H eq_refl Hc)).
Defined.


(** A run of X12: the first three rows of the sample. *)
Lemma analyze_trend_short_series_run :
  map Close (Sample.df 3) = [100; 108; 103]%float
  /\ analyze_trend (Sample.df 3) "1M" = "Bearish"%string.
Proof.
  split; [vm_compute; reflexivity |].
  apply (analyze_trend_short_series (Sample.df 3) "1M").
  apply Nat.ltb_lt. reflexivity.
Defined.

(** A run of X13: a zero opening price among the sixty rows served
    makes [close_open_ratio] infinite on a training row. *)
Lemma predict_live_stock_outcomes_run :
  let served := fun _ _ : string => Some (Sample.df_zero_open 60) in
  predict_live_stock Sample.Model Sample.fit Sample.predict_row
    Sample.feature_importances Sample.allow_nan true served
    Sample.empty "X" "1M"
  = (Sample.empty, inl (HTTP 500 (StrOf Py.ValueError)))
  /\ Sample.train Sample.empty (Sample.df_zero_open 60) "X" "1M"
     = (Sample.empty, Raised Py.ValueError).
Proof.
  intro served.
  assert (E : snd (predict_live_stock Sample.Model Sample.fit
                     Sample.predict_row Sample.feature_importances
                     Sample.allow_nan true served Sample.empty "X" "1M")
              = inl (HTTP 500 (StrOf Py.ValueError)))
    by (vm_compute; reflexivity).
  pose proof (predict_live_stock_outcomes
                Sample.fit Sample.predict_row Sample.feature_importances
                Sample.allow_nan true served Sample.empty "X" "1M") as H.
  rewrite E in H.
  destruct H as [H | [H | [H | (_ & _ & Hs & period & df & _ & Hd & Ht)]]];
    [discriminate H | discriminate H | discriminate H |].
  split.
  - rewrite (surjective_pairing (predict_live_stock _ _ _ _ _ _ _ _ _ _)).
    now rewrite Hs, E.
  - subst served. cbv beta in Hd. injection Hd as <-. exact Ht.
Defined.

(** A run of X14: a provider that serves forty rows. *)
Lemma predict_live_stock_short_history_run :
  exists got,
    (got < 30)%nat
    /\ predict_live_stock Sample.Model Sample.fit Sample.predict_row
         Sample.feature_importances Sample.allow_nan true (fun _ _ => Some (Sample.df 40))
         Sample.empty "X" "1M"
       = (Sample.empty,
          inl (HTTP 400 (Text (insufficient_message "1M" 30 got)))).
Proof.
  apply (predict_live_stock_short_history
           Sample.fit Sample.predict_row Sample.feature_importances Sample.allow_nan
           true (fun _ _ => Some (Sample.df 40))
           Sample.empty "X" "1M" "6mo" 50 (Sample.df 40)).
  - now left.
  - reflexivity.
  - reflexivity.
  - reflexivity.
  - discriminate.
  - apply Nat.ltb_lt. reflexivity.
Defined.

(** A run of X18: every signal is favourable. *)
Lemma generate_recommendation_policy_run :
  let technical : Columns :=
    [("Close", [100]); ("ma20", [90]); ("ma50", [80]); ("rsi", [50]);
     ("volatility", [30])]%string%float in
  exists rec,
    generate_recommendation [101]%float [100]%float 0.9%float technical
    = inr rec
    /\ recommendation rec = "STRONG BUY"%string
    /\ risk rec = "Medium"%string
    /\ recommendation rec <> "SELL"%string.
Proof.
  intro technical.
  assert (E : generate_recommendation [101]%float [100]%float 0.9%float
                                      technical
              = inr {| recommendation := "STRONG BUY";
                       rec_confidence := "High";
                       risk := "Medium" |}) by (vm_compute; reflexivity).
  eexists. split; [exact E |]. split; [reflexivity |].
  split; [reflexivity |].
  destruct (generate_recommendation_policy _ _ _ _ _ E)
    as (cp & m20 & m50 & rsi & vol & _ & _ & _ & _ & _ & _ & _ & Hsell & _).
  apply Hsell. left. vm_compute. reflexivity.
Defined.
